(** * Lebedev-Laikov angular grids: a model of [lebedev-laikov.c]

    The C file consists of the orbit expander [gen_oh], thirty-two
    rule routines [ld0006] ... [ld5810] that replay literal generator
    constants through it, and the dispatcher [leb_order_routing].

    The model keeps the shape of the C code.  The four output arrays are
    lists that are updated in place by index; an access outside an array
    is undefined behaviour in C and is a distinguished outcome here.  The
    diagnostic stream is a list of the strings printed so far.  The type
    [double] is an interface whose implementation for the program is IEEE
    binary64 (Rocq's primitive floats, on which the routines are run).
    What is said about numbers is said about binary64; the real numbers
    implement the interface too, for statements about the arrangement of
    the points that use no property of rounding or of [sqrt]. *)

From Stdlib Require Import ZArith List String Floats Reals Lra Lia.
From Stdlib Require Import Sorting.Mergesort Orders Permutation.
From Stdlib Require Uint63.
From stdpp Require Import base list.

Set Warnings "-inexact-float".
Local Open Scope Z_scope.

(** ** The arithmetic of [double] *)

Class DoubleOps (F : Type) : Type := {
  lit : float -> F;        (* the value denoted by a literal of the source *)
  fneg : F -> F;           (* unary minus *)
  fsub : F -> F -> F;
  fmul : F -> F -> F;
  fdiv : F -> F -> F;
  fsqrt : F -> F           (* sqrt of math.h *)
}.
Arguments lit {F _} _%_float.

(** IEEE binary64: literals denote themselves. *)
#[export] Instance binary64 : DoubleOps float := {
  lit c := c;
  fneg := PrimFloat.opp;
  fsub := PrimFloat.sub;
  fmul := PrimFloat.mul;
  fdiv := PrimFloat.div;
  fsqrt := PrimFloat.sqrt
}.

(** The exact real value of a finite binary64 number. *)
Definition float_to_R (c : float) : R :=
  match Prim2SF c with
  | S754_finite s m e =>
      ((if s then -1 else 1) * IZR (Z.pos m) * powerRZ 2 e)%R
  | _ => 0%R
  end.

(** The real numbers with the same operations.  This is not the arithmetic
    of the program: nothing is rounded and [sqrt] never fails.  It serves
    only where the signs and the places of the coordinates matter and
    their values do not. *)
#[export] Instance ideal : DoubleOps R := {
  lit := float_to_R;
  fneg := Ropp;
  fsub := Rminus;
  fmul := Rmult;
  fdiv := Rdiv;
  fsqrt := sqrt
}.

(** ** Program state *)

Inductive array : Set := AX | AY | AZ | AW.

(** The text [fprintf] sends to the diagnostic stream. *)
Definition nl : string := String (Ascii.ascii_of_nat 10) EmptyString.

Definition gen_oh_message : string :=
  (nl ++ "GEN_OH - Fatal error!" ++ nl ++ "Illegal value of code." ++ nl)%string.

Definition ld_by_order_message : string :=
  (nl ++ "LD_BY_ORDER - Fatal error!" ++ nl ++ "  Unexpected value of ORDER." ++ nl)%string.

(** Statements of the rule routines: an assignment of a literal to one of
    the locals [a], [b], [v], or the line
    [n = n + gen_oh(code, a, b, v, x + n, y + n, z + n, w + n);]. *)
Inductive stmt : Set :=
| Set_a (c : float)
| Set_b (c : float)
| Set_v (c : float)
| Call_gen_oh (code : Z).
Arguments Set_a c%_float.
Arguments Set_b c%_float.
Arguments Set_v c%_float.

Section Model.
Context {F : Type} {D : DoubleOps F}.

(** The caller's arrays [x], [y], [z], [w] (assumed not to overlap) and
    what has been written to [stderr]. *)
Record state : Type := State {
  xs : list F;
  ys : list F;
  zs : list F;
  ws : list F;
  stderr : list string
}.

Definition get (arr : array) (s : state) : list F :=
  match arr with AX => xs s | AY => ys s | AZ => zs s | AW => ws s end.

Definition set (arr : array) (l : list F) (s : state) : state :=
  match arr with
  | AX => State l (ys s) (zs s) (ws s) (stderr s)
  | AY => State (xs s) l (zs s) (ws s) (stderr s)
  | AZ => State (xs s) (ys s) l (ws s) (stderr s)
  | AW => State (xs s) (ys s) (zs s) l (stderr s)
  end.

(** A run either returns a value in a new state or has left the arrays. *)
Inductive outcome (A : Type) : Type :=
| Returns (r : A) (s : state)
| Undefined.
Arguments Returns {A} r s.
Arguments Undefined {A}.

Definition M (A : Type) : Type := state -> outcome A.

Definition ret {A} (r : A) : M A := fun s => Returns r s.

Definition bind {A B} (m : M A) (k : A -> M B) : M B :=
  fun s => match m s with
           | Returns r s' => k r s'
           | Undefined => Undefined
           end.

Notation "x <- m ;; k" := (bind m (fun x => k))
  (at level 100, m at next level, right associativity).
Notation "m ;; k" := (bind m (fun _ => k))
  (at level 100, right associativity).

(** [arr[i] = val] *)
Definition store (arr : array) (i : Z) (val : F) : M unit :=
  fun s =>
    if decide (0 <= i < Z.of_nat (length (get arr s)))
    then Returns tt (set arr (<[Z.to_nat i := val]> (get arr s)) s)
    else Undefined.

(** [fprintf(stderr, msg)] *)
Definition fprintf_stderr (msg : string) : M unit :=
  fun s => Returns tt (State (xs s) (ys s) (zs s) (ws s) (stderr s ++ [msg])).

(** One group [x[i] = ..; y[i] = ..; z[i] = ..; w[i] = ..;] of the source,
    through pointers advanced by [p]. *)
Definition row : Type := Z * F * F * F * F.

Definition store_row (p : Z) (r : row) : M unit :=
  let '(i, x, y, z, w) := r in
  store AX (p + i) x ;;
  store AY (p + i) y ;;
  store AZ (p + i) z ;;
  store AW (p + i) w.

Fixpoint stores (p : Z) (rows : list row) : M unit :=
  match rows with
  | [] => ret tt
  | r :: rest => store_row p r ;; stores p rest
  end.

(** ** [gen_oh]

    [p] is the common offset of the four pointer arguments: every caller
    passes [x + n], [y + n], [z + n], [w + n]. *)
Definition gen_oh (code : Z) (a b v : F) (p : Z) : M Z :=
  if code =? 1 then
    let a := lit 1.0 in
    stores p
      [ (0, a, lit 0.0, lit 0.0, v);
        (1, fneg a, lit 0.0, lit 0.0, v);
        (2, lit 0.0, a, lit 0.0, v);
        (3, lit 0.0, fneg a, lit 0.0, v);
        (4, lit 0.0, lit 0.0, a, v);
        (5, lit 0.0, lit 0.0, fneg a, v) ] ;;
    ret 6
  else if code =? 2 then
    let a := fsqrt (lit 0.5) in
    stores p
      [ (0, lit 0, a, a, v);
        (1, lit 0, fneg a, a, v);
        (2, lit 0, a, fneg a, v);
        (3, lit 0, fneg a, fneg a, v);
        (4, a, lit 0, a, v);
        (5, fneg a, lit 0, a, v);
        (6, a, lit 0, fneg a, v);
        (7, fneg a, lit 0, fneg a, v);
        (8, a, a, lit 0, v);
        (9, fneg a, a, lit 0, v);
        (10, a, fneg a, lit 0, v);
        (11, fneg a, fneg a, lit 0, v) ] ;;
    ret 12
  else if code =? 3 then
    let a := fsqrt (fdiv (lit 1.0) (lit 3.0)) in
    stores p
      [ (0, a, a, a, v);
        (1, fneg a, a, a, v);
        (2, a, fneg a, a, v);
        (3, fneg a, fneg a, a, v);
        (4, a, a, fneg a, v);
        (5, fneg a, a, fneg a, v);
        (6, a, fneg a, fneg a, v);
        (7, fneg a, fneg a, fneg a, v) ] ;;
    ret 8
  else if code =? 4 then
    let b := fsqrt (fsub (lit 1.0) (fmul (fmul (lit 2.0) a) a)) in
    stores p
      [ (0, a, a, b, v);
        (1, fneg a, a, b, v);
        (2, a, fneg a, b, v);
        (3, fneg a, fneg a, b, v);
        (4, a, a, fneg b, v);
        (5, fneg a, a, fneg b, v);
        (6, a, fneg a, fneg b, v);
        (7, fneg a, fneg a, fneg b, v);
        (8, a, b, a, v);
        (9, fneg a, b, a, v);
        (10, a, fneg b, a, v);
        (11, fneg a, fneg b, a, v);
        (12, a, b, fneg a, v);
        (13, fneg a, b, fneg a, v);
        (14, a, fneg b, fneg a, v);
        (15, fneg a, fneg b, fneg a, v);
        (16, b, a, a, v);
        (17, fneg b, a, a, v);
        (18, b, fneg a, a, v);
        (19, fneg b, fneg a, a, v);
        (20, b, a, fneg a, v);
        (21, fneg b, a, fneg a, v);
        (22, b, fneg a, fneg a, v);
        (23, fneg b, fneg a, fneg a, v) ] ;;
    ret 24
  else if code =? 5 then
    let b := fsqrt (fsub (lit 1.0) (fmul a a)) in
    stores p
      [ (0, a, b, lit 0, v);
        (1, fneg a, b, lit 0, v);
        (2, a, fneg b, lit 0, v);
        (3, fneg a, fneg b, lit 0, v);
        (4, b, a, lit 0, v);
        (5, fneg b, a, lit 0, v);
        (6, b, fneg a, lit 0, v);
        (7, fneg b, fneg a, lit 0, v);
        (8, a, lit 0, b, v);
        (9, fneg a, lit 0, b, v);
        (10, a, lit 0, fneg b, v);
        (11, fneg a, lit 0, fneg b, v);
        (12, b, lit 0, a, v);
        (13, fneg b, lit 0, a, v);
        (14, b, lit 0, fneg a, v);
        (15, fneg b, lit 0, fneg a, v);
        (16, lit 0, a, b, v);
        (17, lit 0, fneg a, b, v);
        (18, lit 0, a, fneg b, v);
        (19, lit 0, fneg a, fneg b, v);
        (20, lit 0, b, a, v);
        (21, lit 0, fneg b, a, v);
        (22, lit 0, b, fneg a, v);
        (23, lit 0, fneg b, fneg a, v) ] ;;
    ret 24
  else if code =? 6 then
    let c := fsqrt (fsub (fsub (lit 1.0) (fmul a a)) (fmul b b)) in
    stores p
      [ (0, a, b, c, v);
        (1, fneg a, b, c, v);
        (2, a, fneg b, c, v);
        (3, fneg a, fneg b, c, v);
        (4, a, b, fneg c, v);
        (5, fneg a, b, fneg c, v);
        (6, a, fneg b, fneg c, v);
        (7, fneg a, fneg b, fneg c, v);
        (8, a, c, b, v);
        (9, fneg a, c, b, v);
        (10, a, fneg c, b, v);
        (11, fneg a, fneg c, b, v);
        (12, a, c, fneg b, v);
        (13, fneg a, c, fneg b, v);
        (14, a, fneg c, fneg b, v);
        (15, fneg a, fneg c, fneg b, v);
        (16, b, a, c, v);
        (17, fneg b, a, c, v);
        (18, b, fneg a, c, v);
        (19, fneg b, fneg a, c, v);
        (20, b, a, fneg c, v);
        (21, fneg b, a, fneg c, v);
        (22, b, fneg a, fneg c, v);
        (23, fneg b, fneg a, fneg c, v);
        (24, b, c, a, v);
        (25, fneg b, c, a, v);
        (26, b, fneg c, a, v);
        (27, fneg b, fneg c, a, v);
        (28, b, c, fneg a, v);
        (29, fneg b, c, fneg a, v);
        (30, b, fneg c, fneg a, v);
        (31, fneg b, fneg c, fneg a, v);
        (32, c, a, b, v);
        (33, fneg c, a, b, v);
        (34, c, fneg a, b, v);
        (35, fneg c, fneg a, b, v);
        (36, c, a, fneg b, v);
        (37, fneg c, a, fneg b, v);
        (38, c, fneg a, fneg b, v);
        (39, fneg c, fneg a, fneg b, v);
        (40, c, b, a, v);
        (41, fneg c, b, a, v);
        (42, c, fneg b, a, v);
        (43, fneg c, fneg b, a, v);
        (44, c, b, fneg a, v);
        (45, fneg c, b, fneg a, v);
        (46, c, fneg b, fneg a, v);
        (47, fneg c, fneg b, fneg a, v) ] ;;
    ret 48
  else
    fprintf_stderr gen_oh_message ;;
    ret 1.

(** ** The rule routines *)

Record locals : Type := Locals {
  la : F;
  lb : F;
  lv : option F;     (* [double v;] holds no value until assigned *)
  ln : Z
}.

Definition exec_stmt (st : stmt) (l : locals) : M locals :=
  match st with
  | Set_a c => ret (Locals (lit c) (lb l) (lv l) (ln l))
  | Set_b c => ret (Locals (la l) (lit c) (lv l) (ln l))
  | Set_v c => ret (Locals (la l) (lb l) (Some (lit c)) (ln l))
  | Call_gen_oh code =>
      match lv l with
      | Some v =>
          r <- gen_oh code (la l) (lb l) v (ln l) ;;
          ret (Locals (la l) (lb l) (lv l) (ln l + r))
      | None => fun _ => Undefined
      end
  end.

Fixpoint exec (body : list stmt) (l : locals) : M locals :=
  match body with
  | [] => ret l
  | st :: rest => l' <- exec_stmt st l ;; exec rest l'
  end.

(** [double a = 0.0; double b = 0.0; double v; int n = 0; ... return n;] *)
Definition ld (body : list stmt) : M Z :=
  l <- exec body (Locals (lit 0.0) (lit 0.0) None 0) ;;
  ret (ln l).

End Model.

Arguments state F : clear implicits.
Arguments outcome F A : clear implicits.
Arguments M F A : clear implicits.
Arguments locals F : clear implicits.
Arguments row F : clear implicits.
Arguments Returns {F A} r s.
Arguments Undefined {F A}.

(** ** The generator tables

    The bodies of [ld0006] ... [ld5810], statement by statement. *)

Definition ld0006_body : list stmt :=
  [ Set_v 0.1666666666666667;
    Call_gen_oh 1 ].

Definition ld0014_body : list stmt :=
  [ Set_v 0.6666666666666667e-1;
    Call_gen_oh 1;
    Set_v 0.7500000000000000e-1;
    Call_gen_oh 3 ].

Definition ld0026_body : list stmt :=
  [ Set_v 0.4761904761904762e-1;
    Call_gen_oh 1;
    Set_v 0.3809523809523810e-1;
    Call_gen_oh 2;
    Set_v 0.3214285714285714e-1;
    Call_gen_oh 3 ].

Definition ld0038_body : list stmt :=
  [ Set_v 0.9523809523809524e-2;
    Call_gen_oh 1;
    Set_v 0.3214285714285714e-1;
    Call_gen_oh 3;
    Set_a 0.4597008433809831;
    Set_v 0.2857142857142857e-1;
    Call_gen_oh 5 ].

Definition ld0050_body : list stmt :=
  [ Set_v 0.1269841269841270e-1;
    Call_gen_oh 1;
    Set_v 0.2257495590828924e-1;
    Call_gen_oh 2;
    Set_v 0.2109375000000000e-1;
    Call_gen_oh 3;
    Set_a 0.3015113445777636;
    Set_v 0.2017333553791887e-1;
    Call_gen_oh 4 ].

Definition ld0074_body : list stmt :=
  [ Set_v 0.5130671797338464e-3;
    Call_gen_oh 1;
    Set_v 0.1660406956574204e-1;
    Call_gen_oh 2;
    Set_v (- 0.2958603896103896e-1);
    Call_gen_oh 3;
    Set_a 0.4803844614152614;
    Set_v 0.2657620708215946e-1;
    Call_gen_oh 4;
    Set_a 0.3207726489807764;
    Set_v 0.1652217099371571e-1;
    Call_gen_oh 5 ].

Definition ld0086_body : list stmt :=
  [ Set_v 0.1154401154401154e-1;
    Call_gen_oh 1;
    Set_v 0.1194390908585628e-1;
    Call_gen_oh 3;
    Set_a 0.3696028464541502;
    Set_v 0.1111055571060340e-1;
    Call_gen_oh 4;
    Set_a 0.6943540066026664;
    Set_v 0.1187650129453714e-1;
    Call_gen_oh 4;
    Set_a 0.3742430390903412;
    Set_v 0.1181230374690448e-1;
    Call_gen_oh 5 ].

Definition ld0110_body : list stmt :=
  [ Set_v 0.3828270494937162e-2;
    Call_gen_oh 1;
    Set_v 0.9793737512487512e-2;
    Call_gen_oh 3;
    Set_a 0.1851156353447362;
    Set_v 0.8211737283191111e-2;
    Call_gen_oh 4;
    Set_a 0.6904210483822922;
    Set_v 0.9942814891178103e-2;
    Call_gen_oh 4;
    Set_a 0.3956894730559419;
    Set_v 0.9595471336070963e-2;
    Call_gen_oh 4;
    Set_a 0.4783690288121502;
    Set_v 0.9694996361663028e-2;
    Call_gen_oh 5 ].

Definition ld0146_body : list stmt :=
  [ Set_v 0.5996313688621381e-3;
    Call_gen_oh 1;
    Set_v 0.7372999718620756e-2;
    Call_gen_oh 2;
    Set_v 0.7210515360144488e-2;
    Call_gen_oh 3;
    Set_a 0.6764410400114264;
    Set_v 0.7116355493117555e-2;
    Call_gen_oh 4;
    Set_a 0.4174961227965453;
    Set_v 0.6753829486314477e-2;
    Call_gen_oh 4;
    Set_a 0.1574676672039082;
    Set_v 0.7574394159054034e-2;
    Call_gen_oh 4;
    Set_a 0.1403553811713183;
    Set_b 0.4493328323269557;
    Set_v 0.6991087353303262e-2;
    Call_gen_oh 6 ].

Definition ld0170_body : list stmt :=
  [ Set_v 0.5544842902037365e-2;
    Call_gen_oh 1;
    Set_v 0.6071332770670752e-2;
    Call_gen_oh 2;
    Set_v 0.6383674773515093e-2;
    Call_gen_oh 3;
    Set_a 0.2551252621114134;
    Set_v 0.5183387587747790e-2;
    Call_gen_oh 4;
    Set_a 0.6743601460362766;
    Set_v 0.6317929009813725e-2;
    Call_gen_oh 4;
    Set_a 0.4318910696719410;
    Set_v 0.6201670006589077e-2;
    Call_gen_oh 4;
    Set_a 0.2613931360335988;
    Set_v 0.5477143385137348e-2;
    Call_gen_oh 5;
    Set_a 0.4990453161796037;
    Set_b 0.1446630744325115;
    Set_v 0.5968383987681156e-2;
    Call_gen_oh 6 ].

Definition ld0194_body : list stmt :=
  [ Set_v 0.1782340447244611e-2;
    Call_gen_oh 1;
    Set_v 0.5716905949977102e-2;
    Call_gen_oh 2;
    Set_v 0.5573383178848738e-2;
    Call_gen_oh 3;
    Set_a 0.6712973442695226;
    Set_v 0.5608704082587997e-2;
    Call_gen_oh 4;
    Set_a 0.2892465627575439;
    Set_v 0.5158237711805383e-2;
    Call_gen_oh 4;
    Set_a 0.4446933178717437;
    Set_v 0.5518771467273614e-2;
    Call_gen_oh 4;
    Set_a 0.1299335447650067;
    Set_v 0.4106777028169394e-2;
    Call_gen_oh 4;
    Set_a 0.3457702197611283;
    Set_v 0.5051846064614808e-2;
    Call_gen_oh 5;
    Set_a 0.1590417105383530;
    Set_b 0.8360360154824589;
    Set_v 0.5530248916233094e-2;
    Call_gen_oh 6 ].

Definition ld0230_body : list stmt :=
  [ Set_v (- 0.5522639919727325e-1);
    Call_gen_oh 1;
    Set_v 0.4450274607445226e-2;
    Call_gen_oh 3;
    Set_a 0.4492044687397611;
    Set_v 0.4496841067921404e-2;
    Call_gen_oh 4;
    Set_a 0.2520419490210201;
    Set_v 0.5049153450478750e-2;
    Call_gen_oh 4;
    Set_a 0.6981906658447242;
    Set_v 0.3976408018051883e-2;
    Call_gen_oh 4;
    Set_a 0.6587405243460960;
    Set_v 0.4401400650381014e-2;
    Call_gen_oh 4;
    Set_a 0.4038544050097660e-1;
    Set_v 0.1724544350544401e-1;
    Call_gen_oh 4;
    Set_a 0.5823842309715585;
    Set_v 0.4231083095357343e-2;
    Call_gen_oh 5;
    Set_a 0.3545877390518688;
    Set_v 0.5198069864064399e-2;
    Call_gen_oh 5;
    Set_a 0.2272181808998187;
    Set_b 0.4864661535886647;
    Set_v 0.4695720972568883e-2;
    Call_gen_oh 6 ].

Definition ld0266_body : list stmt :=
  [ Set_v (- 0.1313769127326952e-2);
    Call_gen_oh 1;
    Set_v (- 0.2522728704859336e-2);
    Call_gen_oh 2;
    Set_v 0.4186853881700583e-2;
    Call_gen_oh 3;
    Set_a 0.7039373391585475;
    Set_v 0.5315167977810885e-2;
    Call_gen_oh 4;
    Set_a 0.1012526248572414;
    Set_v 0.4047142377086219e-2;
    Call_gen_oh 4;
    Set_a 0.4647448726420539;
    Set_v 0.4112482394406990e-2;
    Call_gen_oh 4;
    Set_a 0.3277420654971629;
    Set_v 0.3595584899758782e-2;
    Call_gen_oh 4;
    Set_a 0.6620338663699974;
    Set_v 0.4256131351428158e-2;
    Call_gen_oh 4;
    Set_a 0.8506508083520399;
    Set_v 0.4229582700647240e-2;
    Call_gen_oh 5;
    Set_a 0.3233484542692899;
    Set_b 0.1153112011009701;
    Set_v 0.4080914225780505e-2;
    Call_gen_oh 6;
    Set_a 0.2314790158712601;
    Set_b 0.5244939240922365;
    Set_v 0.4071467593830964e-2;
    Call_gen_oh 6 ].

Definition ld0302_body : list stmt :=
  [ Set_v 0.8545911725128148e-3;
    Call_gen_oh 1;
    Set_v 0.3599119285025571e-2;
    Call_gen_oh 3;
    Set_a 0.3515640345570105;
    Set_v 0.3449788424305883e-2;
    Call_gen_oh 4;
    Set_a 0.6566329410219612;
    Set_v 0.3604822601419882e-2;
    Call_gen_oh 4;
    Set_a 0.4729054132581005;
    Set_v 0.3576729661743367e-2;
    Call_gen_oh 4;
    Set_a 0.9618308522614784e-1;
    Set_v 0.2352101413689164e-2;
    Call_gen_oh 4;
    Set_a 0.2219645236294178;
    Set_v 0.3108953122413675e-2;
    Call_gen_oh 4;
    Set_a 0.7011766416089545;
    Set_v 0.3650045807677255e-2;
    Call_gen_oh 4;
    Set_a 0.2644152887060663;
    Set_v 0.2982344963171804e-2;
    Call_gen_oh 5;
    Set_a 0.5718955891878961;
    Set_v 0.3600820932216460e-2;
    Call_gen_oh 5;
    Set_a 0.2510034751770465;
    Set_b 0.8000727494073952;
    Set_v 0.3571540554273387e-2;
    Call_gen_oh 6;
    Set_a 0.1233548532583327;
    Set_b 0.4127724083168531;
    Set_v 0.3392312205006170e-2;
    Call_gen_oh 6 ].

Definition ld0350_body : list stmt :=
  [ Set_v 0.3006796749453936e-2;
    Call_gen_oh 1;
    Set_v 0.3050627745650771e-2;
    Call_gen_oh 3;
    Set_a 0.7068965463912316;
    Set_v 0.1621104600288991e-2;
    Call_gen_oh 4;
    Set_a 0.4794682625712025;
    Set_v 0.3005701484901752e-2;
    Call_gen_oh 4;
    Set_a 0.1927533154878019;
    Set_v 0.2990992529653774e-2;
    Call_gen_oh 4;
    Set_a 0.6930357961327123;
    Set_v 0.2982170644107595e-2;
    Call_gen_oh 4;
    Set_a 0.3608302115520091;
    Set_v 0.2721564237310992e-2;
    Call_gen_oh 4;
    Set_a 0.6498486161496169;
    Set_v 0.3033513795811141e-2;
    Call_gen_oh 4;
    Set_a 0.1932945013230339;
    Set_v 0.3007949555218533e-2;
    Call_gen_oh 5;
    Set_a 0.3800494919899303;
    Set_v 0.2881964603055307e-2;
    Call_gen_oh 5;
    Set_a 0.2899558825499574;
    Set_b 0.7934537856582316;
    Set_v 0.2958357626535696e-2;
    Call_gen_oh 6;
    Set_a 0.9684121455103957e-1;
    Set_b 0.8280801506686862;
    Set_v 0.3036020026407088e-2;
    Call_gen_oh 6;
    Set_a 0.1833434647041659;
    Set_b 0.9074658265305127;
    Set_v 0.2832187403926303e-2;
    Call_gen_oh 6 ].

Definition ld0434_body : list stmt :=
  [ Set_v 0.5265897968224436e-3;
    Call_gen_oh 1;
    Set_v 0.2548219972002607e-2;
    Call_gen_oh 2;
    Set_v 0.2512317418927307e-2;
    Call_gen_oh 3;
    Set_a 0.6909346307509111;
    Set_v 0.2530403801186355e-2;
    Call_gen_oh 4;
    Set_a 0.1774836054609158;
    Set_v 0.2014279020918528e-2;
    Call_gen_oh 4;
    Set_a 0.4914342637784746;
    Set_v 0.2501725168402936e-2;
    Call_gen_oh 4;
    Set_a 0.6456664707424256;
    Set_v 0.2513267174597564e-2;
    Call_gen_oh 4;
    Set_a 0.2861289010307638;
    Set_v 0.2302694782227416e-2;
    Call_gen_oh 4;
    Set_a 0.7568084367178018e-1;
    Set_v 0.1462495621594614e-2;
    Call_gen_oh 4;
    Set_a 0.3927259763368002;
    Set_v 0.2445373437312980e-2;
    Call_gen_oh 4;
    Set_a 0.8818132877794288;
    Set_v 0.2417442375638981e-2;
    Call_gen_oh 5;
    Set_a 0.9776428111182649;
    Set_v 0.1910951282179532e-2;
    Call_gen_oh 5;
    Set_a 0.2054823696403044;
    Set_b 0.8689460322872412;
    Set_v 0.2416930044324775e-2;
    Call_gen_oh 6;
    Set_a 0.5905157048925271;
    Set_b 0.7999278543857286;
    Set_v 0.2512236854563495e-2;
    Call_gen_oh 6;
    Set_a 0.5550152361076807;
    Set_b 0.7717462626915901;
    Set_v 0.2496644054553086e-2;
    Call_gen_oh 6;
    Set_a 0.9371809858553722;
    Set_b 0.3344363145343455;
    Set_v 0.2236607760437849e-2;
    Call_gen_oh 6 ].

Definition ld0590_body : list stmt :=
  [ Set_v 0.3095121295306187e-3;
    Call_gen_oh 1;
    Set_v 0.1852379698597489e-2;
    Call_gen_oh 3;
    Set_a 0.7040954938227469;
    Set_v 0.1871790639277744e-2;
    Call_gen_oh 4;
    Set_a 0.6807744066455243;
    Set_v 0.1858812585438317e-2;
    Call_gen_oh 4;
    Set_a 0.6372546939258752;
    Set_v 0.1852028828296213e-2;
    Call_gen_oh 4;
    Set_a 0.5044419707800358;
    Set_v 0.1846715956151242e-2;
    Call_gen_oh 4;
    Set_a 0.4215761784010967;
    Set_v 0.1818471778162769e-2;
    Call_gen_oh 4;
    Set_a 0.3317920736472123;
    Set_v 0.1749564657281154e-2;
    Call_gen_oh 4;
    Set_a 0.2384736701421887;
    Set_v 0.1617210647254411e-2;
    Call_gen_oh 4;
    Set_a 0.1459036449157763;
    Set_v 0.1384737234851692e-2;
    Call_gen_oh 4;
    Set_a 0.6095034115507196e-1;
    Set_v 0.9764331165051050e-3;
    Call_gen_oh 4;
    Set_a 0.6116843442009876;
    Set_v 0.1857161196774078e-2;
    Call_gen_oh 5;
    Set_a 0.3964755348199858;
    Set_v 0.1705153996395864e-2;
    Call_gen_oh 5;
    Set_a 0.1724782009907724;
    Set_v 0.1300321685886048e-2;
    Call_gen_oh 5;
    Set_a 0.5610263808622060;
    Set_b 0.3518280927733519;
    Set_v 0.1842866472905286e-2;
    Call_gen_oh 6;
    Set_a 0.4742392842551980;
    Set_b 0.2634716655937950;
    Set_v 0.1802658934377451e-2;
    Call_gen_oh 6;
    Set_a 0.5984126497885380;
    Set_b 0.1816640840360209;
    Set_v 0.1849830560443660e-2;
    Call_gen_oh 6;
    Set_a 0.3791035407695563;
    Set_b 0.1720795225656878;
    Set_v 0.1713904507106709e-2;
    Call_gen_oh 6;
    Set_a 0.2778673190586244;
    Set_b 0.8213021581932511e-1;
    Set_v 0.1555213603396808e-2;
    Call_gen_oh 6;
    Set_a 0.5033564271075117;
    Set_b 0.8999205842074875e-1;
    Set_v 0.1802239128008525e-2;
    Call_gen_oh 6 ].

Definition ld0770_body : list stmt :=
  [ Set_v 0.2192942088181184e-3;
    Call_gen_oh 1;
    Set_v 0.1436433617319080e-2;
    Call_gen_oh 2;
    Set_v 0.1421940344335877e-2;
    Call_gen_oh 3;
    Set_a 0.5087204410502360e-1;
    Set_v 0.6798123511050502e-3;
    Call_gen_oh 4;
    Set_a 0.1228198790178831;
    Set_v 0.9913184235294912e-3;
    Call_gen_oh 4;
    Set_a 0.2026890814408786;
    Set_v 0.1180207833238949e-2;
    Call_gen_oh 4;
    Set_a 0.2847745156464294;
    Set_v 0.1296599602080921e-2;
    Call_gen_oh 4;
    Set_a 0.3656719078978026;
    Set_v 0.1365871427428316e-2;
    Call_gen_oh 4;
    Set_a 0.4428264886713469;
    Set_v 0.1402988604775325e-2;
    Call_gen_oh 4;
    Set_a 0.5140619627249735;
    Set_v 0.1418645563595609e-2;
    Call_gen_oh 4;
    Set_a 0.6306401219166803;
    Set_v 0.1421376741851662e-2;
    Call_gen_oh 4;
    Set_a 0.6716883332022612;
    Set_v 0.1423996475490962e-2;
    Call_gen_oh 4;
    Set_a 0.6979792685336881;
    Set_v 0.1431554042178567e-2;
    Call_gen_oh 4;
    Set_a 0.1446865674195309;
    Set_v 0.9254401499865368e-3;
    Call_gen_oh 5;
    Set_a 0.3390263475411216;
    Set_v 0.1250239995053509e-2;
    Call_gen_oh 5;
    Set_a 0.5335804651263506;
    Set_v 0.1394365843329230e-2;
    Call_gen_oh 5;
    Set_a 0.6944024393349413e-1;
    Set_b 0.2355187894242326;
    Set_v 0.1127089094671749e-2;
    Call_gen_oh 6;
    Set_a 0.2269004109529460;
    Set_b 0.4102182474045730;
    Set_v 0.1345753760910670e-2;
    Call_gen_oh 6;
    Set_a 0.8025574607775339e-1;
    Set_b 0.6214302417481605;
    Set_v 0.1424957283316783e-2;
    Call_gen_oh 6;
    Set_a 0.1467999527896572;
    Set_b 0.3245284345717394;
    Set_v 0.1261523341237750e-2;
    Call_gen_oh 6;
    Set_a 0.1571507769824727;
    Set_b 0.5224482189696630;
    Set_v 0.1392547106052696e-2;
    Call_gen_oh 6;
    Set_a 0.2365702993157246;
    Set_b 0.6017546634089558;
    Set_v 0.1418761677877656e-2;
    Call_gen_oh 6;
    Set_a 0.7714815866765732e-1;
    Set_b 0.4346575516141163;
    Set_v 0.1338366684479554e-2;
    Call_gen_oh 6;
    Set_a 0.3062936666210730;
    Set_b 0.4908826589037616;
    Set_v 0.1393700862676131e-2;
    Call_gen_oh 6;
    Set_a 0.3822477379524787;
    Set_b 0.5648768149099500;
    Set_v 0.1415914757466932e-2;
    Call_gen_oh 6 ].

Definition ld0974_body : list stmt :=
  [ Set_v 0.1438294190527431e-3;
    Call_gen_oh 1;
    Set_v 0.1125772288287004e-2;
    Call_gen_oh 3;
    Set_a 0.4292963545341347e-1;
    Set_v 0.4948029341949241e-3;
    Call_gen_oh 4;
    Set_a 0.1051426854086404;
    Set_v 0.7357990109125470e-3;
    Call_gen_oh 4;
    Set_a 0.1750024867623087;
    Set_v 0.8889132771304384e-3;
    Call_gen_oh 4;
    Set_a 0.2477653379650257;
    Set_v 0.9888347838921435e-3;
    Call_gen_oh 4;
    Set_a 0.3206567123955957;
    Set_v 0.1053299681709471e-2;
    Call_gen_oh 4;
    Set_a 0.3916520749849983;
    Set_v 0.1092778807014578e-2;
    Call_gen_oh 4;
    Set_a 0.4590825874187624;
    Set_v 0.1114389394063227e-2;
    Call_gen_oh 4;
    Set_a 0.5214563888415861;
    Set_v 0.1123724788051555e-2;
    Call_gen_oh 4;
    Set_a 0.6253170244654199;
    Set_v 0.1125239325243814e-2;
    Call_gen_oh 4;
    Set_a 0.6637926744523170;
    Set_v 0.1126153271815905e-2;
    Call_gen_oh 4;
    Set_a 0.6910410398498301;
    Set_v 0.1130286931123841e-2;
    Call_gen_oh 4;
    Set_a 0.7052907007457760;
    Set_v 0.1134986534363955e-2;
    Call_gen_oh 4;
    Set_a 0.1236686762657990;
    Set_v 0.6823367927109931e-3;
    Call_gen_oh 5;
    Set_a 0.2940777114468387;
    Set_v 0.9454158160447096e-3;
    Call_gen_oh 5;
    Set_a 0.4697753849207649;
    Set_v 0.1074429975385679e-2;
    Call_gen_oh 5;
    Set_a 0.6334563241139567;
    Set_v 0.1129300086569132e-2;
    Call_gen_oh 5;
    Set_a 0.5974048614181342e-1;
    Set_b 0.2029128752777523;
    Set_v 0.8436884500901954e-3;
    Call_gen_oh 6;
    Set_a 0.1375760408473636;
    Set_b 0.4602621942484054;
    Set_v 0.1075255720448885e-2;
    Call_gen_oh 6;
    Set_a 0.3391016526336286;
    Set_b 0.5030673999662036;
    Set_v 0.1108577236864462e-2;
    Call_gen_oh 6;
    Set_a 0.1271675191439820;
    Set_b 0.2817606422442134;
    Set_v 0.9566475323783357e-3;
    Call_gen_oh 6;
    Set_a 0.2693120740413512;
    Set_b 0.4331561291720157;
    Set_v 0.1080663250717391e-2;
    Call_gen_oh 6;
    Set_a 0.1419786452601918;
    Set_b 0.6256167358580814;
    Set_v 0.1126797131196295e-2;
    Call_gen_oh 6;
    Set_a 0.6709284600738255e-1;
    Set_b 0.3798395216859157;
    Set_v 0.1022568715358061e-2;
    Call_gen_oh 6;
    Set_a 0.7057738183256172e-1;
    Set_b 0.5517505421423520;
    Set_v 0.1108960267713108e-2;
    Call_gen_oh 6;
    Set_a 0.2783888477882155;
    Set_b 0.6029619156159187;
    Set_v 0.1122790653435766e-2;
    Call_gen_oh 6;
    Set_a 0.1979578938917407;
    Set_b 0.3589606329589096;
    Set_v 0.1032401847117460e-2;
    Call_gen_oh 6;
    Set_a 0.2087307061103274;
    Set_b 0.5348666438135476;
    Set_v 0.1107249382283854e-2;
    Call_gen_oh 6;
    Set_a 0.4055122137872836;
    Set_b 0.5674997546074373;
    Set_v 0.1121780048519972e-2;
    Call_gen_oh 6 ].

Definition ld1202_body : list stmt :=
  [ Set_v 0.1105189233267572e-3;
    Call_gen_oh 1;
    Set_v 0.9205232738090741e-3;
    Call_gen_oh 2;
    Set_v 0.9133159786443561e-3;
    Call_gen_oh 3;
    Set_a 0.3712636449657089e-1;
    Set_v 0.3690421898017899e-3;
    Call_gen_oh 4;
    Set_a 0.9140060412262223e-1;
    Set_v 0.5603990928680660e-3;
    Call_gen_oh 4;
    Set_a 0.1531077852469906;
    Set_v 0.6865297629282609e-3;
    Call_gen_oh 4;
    Set_a 0.2180928891660612;
    Set_v 0.7720338551145630e-3;
    Call_gen_oh 4;
    Set_a 0.2839874532200175;
    Set_v 0.8301545958894795e-3;
    Call_gen_oh 4;
    Set_a 0.3491177600963764;
    Set_v 0.8686692550179628e-3;
    Call_gen_oh 4;
    Set_a 0.4121431461444309;
    Set_v 0.8927076285846890e-3;
    Call_gen_oh 4;
    Set_a 0.4718993627149127;
    Set_v 0.9060820238568219e-3;
    Call_gen_oh 4;
    Set_a 0.5273145452842337;
    Set_v 0.9119777254940867e-3;
    Call_gen_oh 4;
    Set_a 0.6209475332444019;
    Set_v 0.9128720138604181e-3;
    Call_gen_oh 4;
    Set_a 0.6569722711857291;
    Set_v 0.9130714935691735e-3;
    Call_gen_oh 4;
    Set_a 0.6841788309070143;
    Set_v 0.9152873784554116e-3;
    Call_gen_oh 4;
    Set_a 0.7012604330123631;
    Set_v 0.9187436274321654e-3;
    Call_gen_oh 4;
    Set_a 0.1072382215478166;
    Set_v 0.5176977312965694e-3;
    Call_gen_oh 5;
    Set_a 0.2582068959496968;
    Set_v 0.7331143682101417e-3;
    Call_gen_oh 5;
    Set_a 0.4172752955306717;
    Set_v 0.8463232836379928e-3;
    Call_gen_oh 5;
    Set_a 0.5700366911792503;
    Set_v 0.9031122694253992e-3;
    Call_gen_oh 5;
    Set_a 0.9827986018263947;
    Set_b 0.1771774022615325;
    Set_v 0.6485778453163257e-3;
    Call_gen_oh 6;
    Set_a 0.9624249230326228;
    Set_b 0.2475716463426288;
    Set_v 0.7435030910982369e-3;
    Call_gen_oh 6;
    Set_a 0.9402007994128811;
    Set_b 0.3354616289066489;
    Set_v 0.7998527891839054e-3;
    Call_gen_oh 6;
    Set_a 0.9320822040143202;
    Set_b 0.3173615246611977;
    Set_v 0.8101731497468018e-3;
    Call_gen_oh 6;
    Set_a 0.9043674199393299;
    Set_b 0.4090268427085357;
    Set_v 0.8483389574594331e-3;
    Call_gen_oh 6;
    Set_a 0.8912407560074747;
    Set_b 0.3854291150669224;
    Set_v 0.8556299257311812e-3;
    Call_gen_oh 6;
    Set_a 0.8676435628462708;
    Set_b 0.4932221184851285;
    Set_v 0.8803208679738260e-3;
    Call_gen_oh 6;
    Set_a 0.8581979986041619;
    Set_b 0.4785320675922435;
    Set_v 0.8811048182425720e-3;
    Call_gen_oh 6;
    Set_a 0.8396753624049856;
    Set_b 0.4507422593157064;
    Set_v 0.8850282341265444e-3;
    Call_gen_oh 6;
    Set_a 0.8165288564022188;
    Set_b 0.5632123020762100;
    Set_v 0.9021342299040653e-3;
    Call_gen_oh 6;
    Set_a 0.8015469370783529;
    Set_b 0.5434303569693900;
    Set_v 0.9010091677105086e-3;
    Call_gen_oh 6;
    Set_a 0.7773563069070351;
    Set_b 0.5123518486419871;
    Set_v 0.9022692938426915e-3;
    Call_gen_oh 6;
    Set_a 0.7661621213900394;
    Set_b 0.6394279634749102;
    Set_v 0.9158016174693465e-3;
    Call_gen_oh 6;
    Set_a 0.7553584143533510;
    Set_b 0.6269805509024392;
    Set_v 0.9131578003189435e-3;
    Call_gen_oh 6;
    Set_a 0.7344305757559503;
    Set_b 0.6031161693096310;
    Set_v 0.9107813579482705e-3;
    Call_gen_oh 6;
    Set_a 0.7043837184021765;
    Set_b 0.5693702498468441;
    Set_v 0.9105760258970126e-3;
    Call_gen_oh 6 ].

Definition ld1454_body : list stmt :=
  [ Set_v 0.7777160743261247e-4;
    Call_gen_oh 1;
    Set_v 0.7557646413004701e-3;
    Call_gen_oh 3;
    Set_a 0.3229290663413854e-1;
    Set_v 0.2841633806090617e-3;
    Call_gen_oh 4;
    Set_a 0.8036733271462222e-1;
    Set_v 0.4374419127053555e-3;
    Call_gen_oh 4;
    Set_a 0.1354289960531653;
    Set_v 0.5417174740872172e-3;
    Call_gen_oh 4;
    Set_a 0.1938963861114426;
    Set_v 0.6148000891358593e-3;
    Call_gen_oh 4;
    Set_a 0.2537343715011275;
    Set_v 0.6664394485800705e-3;
    Call_gen_oh 4;
    Set_a 0.3135251434752570;
    Set_v 0.7025039356923220e-3;
    Call_gen_oh 4;
    Set_a 0.3721558339375338;
    Set_v 0.7268511789249627e-3;
    Call_gen_oh 4;
    Set_a 0.4286809575195696;
    Set_v 0.7422637534208629e-3;
    Call_gen_oh 4;
    Set_a 0.4822510128282994;
    Set_v 0.7509545035841214e-3;
    Call_gen_oh 4;
    Set_a 0.5320679333566263;
    Set_v 0.7548535057718401e-3;
    Call_gen_oh 4;
    Set_a 0.6172998195394274;
    Set_v 0.7554088969774001e-3;
    Call_gen_oh 4;
    Set_a 0.6510679849127481;
    Set_v 0.7553147174442808e-3;
    Call_gen_oh 4;
    Set_a 0.6777315251687360;
    Set_v 0.7564767653292297e-3;
    Call_gen_oh 4;
    Set_a 0.6963109410648741;
    Set_v 0.7587991808518730e-3;
    Call_gen_oh 4;
    Set_a 0.7058935009831749;
    Set_v 0.7608261832033027e-3;
    Call_gen_oh 4;
    Set_a 0.9955546194091857;
    Set_v 0.4021680447874916e-3;
    Call_gen_oh 5;
    Set_a 0.9734115901794209;
    Set_v 0.5804871793945964e-3;
    Call_gen_oh 5;
    Set_a 0.9275693732388626;
    Set_v 0.6792151955945159e-3;
    Call_gen_oh 5;
    Set_a 0.8568022422795103;
    Set_v 0.7336741211286294e-3;
    Call_gen_oh 5;
    Set_a 0.7623495553719372;
    Set_v 0.7581866300989608e-3;
    Call_gen_oh 5;
    Set_a 0.5707522908892223;
    Set_b 0.4387028039889501;
    Set_v 0.7538257859800743e-3;
    Call_gen_oh 6;
    Set_a 0.5196463388403083;
    Set_b 0.3858908414762617;
    Set_v 0.7483517247053123e-3;
    Call_gen_oh 6;
    Set_a 0.4646337531215351;
    Set_b 0.3301937372343854;
    Set_v 0.7371763661112059e-3;
    Call_gen_oh 6;
    Set_a 0.4063901697557691;
    Set_b 0.2725423573563777;
    Set_v 0.7183448895756934e-3;
    Call_gen_oh 6;
    Set_a 0.3456329466643087;
    Set_b 0.2139510237495250;
    Set_v 0.6895815529822191e-3;
    Call_gen_oh 6;
    Set_a 0.2831395121050332;
    Set_b 0.1555922309786647;
    Set_v 0.6480105801792886e-3;
    Call_gen_oh 6;
    Set_a 0.2197682022925330;
    Set_b 0.9892878979686097e-1;
    Set_v 0.5897558896594636e-3;
    Call_gen_oh 6;
    Set_a 0.1564696098650355;
    Set_b 0.4598642910675510e-1;
    Set_v 0.5095708849247346e-3;
    Call_gen_oh 6;
    Set_a 0.6027356673721295;
    Set_b 0.3376625140173426;
    Set_v 0.7536906428909755e-3;
    Call_gen_oh 6;
    Set_a 0.5496032320255096;
    Set_b 0.2822301309727988;
    Set_v 0.7472505965575118e-3;
    Call_gen_oh 6;
    Set_a 0.4921707755234567;
    Set_b 0.2248632342592540;
    Set_v 0.7343017132279698e-3;
    Call_gen_oh 6;
    Set_a 0.4309422998598483;
    Set_b 0.1666224723456479;
    Set_v 0.7130871582177445e-3;
    Call_gen_oh 6;
    Set_a 0.3664108182313672;
    Set_b 0.1086964901822169;
    Set_v 0.6817022032112776e-3;
    Call_gen_oh 6;
    Set_a 0.2990189057758436;
    Set_b 0.5251989784120085e-1;
    Set_v 0.6380941145604121e-3;
    Call_gen_oh 6;
    Set_a 0.6268724013144998;
    Set_b 0.2297523657550023;
    Set_v 0.7550381377920310e-3;
    Call_gen_oh 6;
    Set_a 0.5707324144834607;
    Set_b 0.1723080607093800;
    Set_v 0.7478646640144802e-3;
    Call_gen_oh 6;
    Set_a 0.5096360901960365;
    Set_b 0.1140238465390513;
    Set_v 0.7335918720601220e-3;
    Call_gen_oh 6;
    Set_a 0.4438729938312456;
    Set_b 0.5611522095882537e-1;
    Set_v 0.7110120527658118e-3;
    Call_gen_oh 6;
    Set_a 0.6419978471082389;
    Set_b 0.1164174423140873;
    Set_v 0.7571363978689501e-3;
    Call_gen_oh 6;
    Set_a 0.5817218061802611;
    Set_b 0.5797589531445219e-1;
    Set_v 0.7489908329079234e-3;
    Call_gen_oh 6 ].

Definition ld1730_body : list stmt :=
  [ Set_v 0.6309049437420976e-4;
    Call_gen_oh 1;
    Set_v 0.6398287705571748e-3;
    Call_gen_oh 2;
    Set_v 0.6357185073530720e-3;
    Call_gen_oh 3;
    Set_a 0.2860923126194662e-1;
    Set_v 0.2221207162188168e-3;
    Call_gen_oh 4;
    Set_a 0.7142556767711522e-1;
    Set_v 0.3475784022286848e-3;
    Call_gen_oh 4;
    Set_a 0.1209199540995559;
    Set_v 0.4350742443589804e-3;
    Call_gen_oh 4;
    Set_a 0.1738673106594379;
    Set_v 0.4978569136522127e-3;
    Call_gen_oh 4;
    Set_a 0.2284645438467734;
    Set_v 0.5435036221998053e-3;
    Call_gen_oh 4;
    Set_a 0.2834807671701512;
    Set_v 0.5765913388219542e-3;
    Call_gen_oh 4;
    Set_a 0.3379680145467339;
    Set_v 0.6001200359226003e-3;
    Call_gen_oh 4;
    Set_a 0.3911355454819537;
    Set_v 0.6162178172717512e-3;
    Call_gen_oh 4;
    Set_a 0.4422860353001403;
    Set_v 0.6265218152438485e-3;
    Call_gen_oh 4;
    Set_a 0.4907781568726057;
    Set_v 0.6323987160974212e-3;
    Call_gen_oh 4;
    Set_a 0.5360006153211468;
    Set_v 0.6350767851540569e-3;
    Call_gen_oh 4;
    Set_a 0.6142105973596603;
    Set_v 0.6354362775297107e-3;
    Call_gen_oh 4;
    Set_a 0.6459300387977504;
    Set_v 0.6352302462706235e-3;
    Call_gen_oh 4;
    Set_a 0.6718056125089225;
    Set_v 0.6358117881417972e-3;
    Call_gen_oh 4;
    Set_a 0.6910888533186254;
    Set_v 0.6373101590310117e-3;
    Call_gen_oh 4;
    Set_a 0.7030467416823252;
    Set_v 0.6390428961368665e-3;
    Call_gen_oh 4;
    Set_a 0.8354951166354646e-1;
    Set_v 0.3186913449946576e-3;
    Call_gen_oh 5;
    Set_a 0.2050143009099486;
    Set_v 0.4678028558591711e-3;
    Call_gen_oh 5;
    Set_a 0.3370208290706637;
    Set_v 0.5538829697598626e-3;
    Call_gen_oh 5;
    Set_a 0.4689051484233963;
    Set_v 0.6044475907190476e-3;
    Call_gen_oh 5;
    Set_a 0.5939400424557334;
    Set_v 0.6313575103509012e-3;
    Call_gen_oh 5;
    Set_a 0.1394983311832261;
    Set_b 0.4097581162050343e-1;
    Set_v 0.4078626431855630e-3;
    Call_gen_oh 6;
    Set_a 0.1967999180485014;
    Set_b 0.8851987391293348e-1;
    Set_v 0.4759933057812725e-3;
    Call_gen_oh 6;
    Set_a 0.2546183732548967;
    Set_b 0.1397680182969819;
    Set_v 0.5268151186413440e-3;
    Call_gen_oh 6;
    Set_a 0.3121281074713875;
    Set_b 0.1929452542226526;
    Set_v 0.5643048560507316e-3;
    Call_gen_oh 6;
    Set_a 0.3685981078502492;
    Set_b 0.2467898337061562;
    Set_v 0.5914501076613073e-3;
    Call_gen_oh 6;
    Set_a 0.4233760321547856;
    Set_b 0.3003104124785409;
    Set_v 0.6104561257874195e-3;
    Call_gen_oh 6;
    Set_a 0.4758671236059246;
    Set_b 0.3526684328175033;
    Set_v 0.6230252860707806e-3;
    Call_gen_oh 6;
    Set_a 0.5255178579796463;
    Set_b 0.4031134861145713;
    Set_v 0.6305618761760796e-3;
    Call_gen_oh 6;
    Set_a 0.5718025633734589;
    Set_b 0.4509426448342351;
    Set_v 0.6343092767597889e-3;
    Call_gen_oh 6;
    Set_a 0.2686927772723415;
    Set_b 0.4711322502423248e-1;
    Set_v 0.5176268945737826e-3;
    Call_gen_oh 6;
    Set_a 0.3306006819904809;
    Set_b 0.9784487303942695e-1;
    Set_v 0.5564840313313692e-3;
    Call_gen_oh 6;
    Set_a 0.3904906850594983;
    Set_b 0.1505395810025273;
    Set_v 0.5856426671038980e-3;
    Call_gen_oh 6;
    Set_a 0.4479957951904390;
    Set_b 0.2039728156296050;
    Set_v 0.6066386925777091e-3;
    Call_gen_oh 6;
    Set_a 0.5027076848919780;
    Set_b 0.2571529941121107;
    Set_v 0.6208824962234458e-3;
    Call_gen_oh 6;
    Set_a 0.5542087392260217;
    Set_b 0.3092191375815670;
    Set_v 0.6296314297822907e-3;
    Call_gen_oh 6;
    Set_a 0.6020850887375187;
    Set_b 0.3593807506130276;
    Set_v 0.6340423756791859e-3;
    Call_gen_oh 6;
    Set_a 0.4019851409179594;
    Set_b 0.5063389934378671e-1;
    Set_v 0.5829627677107342e-3;
    Call_gen_oh 6;
    Set_a 0.4635614567449800;
    Set_b 0.1032422269160612;
    Set_v 0.6048693376081110e-3;
    Call_gen_oh 6;
    Set_a 0.5215860931591575;
    Set_b 0.1566322094006254;
    Set_v 0.6202362317732461e-3;
    Call_gen_oh 6;
    Set_a 0.5758202499099271;
    Set_b 0.2098082827491099;
    Set_v 0.6299005328403779e-3;
    Call_gen_oh 6;
    Set_a 0.6259893683876795;
    Set_b 0.2618824114553391;
    Set_v 0.6347722390609353e-3;
    Call_gen_oh 6;
    Set_a 0.5313795124811891;
    Set_b 0.5263245019338556e-1;
    Set_v 0.6203778981238834e-3;
    Call_gen_oh 6;
    Set_a 0.5893317955931995;
    Set_b 0.1061059730982005;
    Set_v 0.6308414671239979e-3;
    Call_gen_oh 6;
    Set_a 0.6426246321215801;
    Set_b 0.1594171564034221;
    Set_v 0.6362706466959498e-3;
    Call_gen_oh 6;
    Set_a 0.6511904367376113;
    Set_b 0.5354789536565540e-1;
    Set_v 0.6375414170333233e-3;
    Call_gen_oh 6 ].

Definition ld2030_body : list stmt :=
  [ Set_v 0.4656031899197431e-4;
    Call_gen_oh 1;
    Set_v 0.5421549195295507e-3;
    Call_gen_oh 3;
    Set_a 0.2540835336814348e-1;
    Set_v 0.1778522133346553e-3;
    Call_gen_oh 4;
    Set_a 0.6399322800504915e-1;
    Set_v 0.2811325405682796e-3;
    Call_gen_oh 4;
    Set_a 0.1088269469804125;
    Set_v 0.3548896312631459e-3;
    Call_gen_oh 4;
    Set_a 0.1570670798818287;
    Set_v 0.4090310897173364e-3;
    Call_gen_oh 4;
    Set_a 0.2071163932282514;
    Set_v 0.4493286134169965e-3;
    Call_gen_oh 4;
    Set_a 0.2578914044450844;
    Set_v 0.4793728447962723e-3;
    Call_gen_oh 4;
    Set_a 0.3085687558169623;
    Set_v 0.5015415319164265e-3;
    Call_gen_oh 4;
    Set_a 0.3584719706267024;
    Set_v 0.5175127372677937e-3;
    Call_gen_oh 4;
    Set_a 0.4070135594428709;
    Set_v 0.5285522262081019e-3;
    Call_gen_oh 4;
    Set_a 0.4536618626222638;
    Set_v 0.5356832703713962e-3;
    Call_gen_oh 4;
    Set_a 0.4979195686463577;
    Set_v 0.5397914736175170e-3;
    Call_gen_oh 4;
    Set_a 0.5393075111126999;
    Set_v 0.5416899441599930e-3;
    Call_gen_oh 4;
    Set_a 0.6115617676843916;
    Set_v 0.5419308476889938e-3;
    Call_gen_oh 4;
    Set_a 0.6414308435160159;
    Set_v 0.5416936902030596e-3;
    Call_gen_oh 4;
    Set_a 0.6664099412721607;
    Set_v 0.5419544338703164e-3;
    Call_gen_oh 4;
    Set_a 0.6859161771214913;
    Set_v 0.5428983656630975e-3;
    Call_gen_oh 4;
    Set_a 0.6993625593503890;
    Set_v 0.5442286500098193e-3;
    Call_gen_oh 4;
    Set_a 0.7062393387719380;
    Set_v 0.5452250345057301e-3;
    Call_gen_oh 4;
    Set_a 0.7479028168349763e-1;
    Set_v 0.2568002497728530e-3;
    Call_gen_oh 5;
    Set_a 0.1848951153969366;
    Set_v 0.3827211700292145e-3;
    Call_gen_oh 5;
    Set_a 0.3059529066581305;
    Set_v 0.4579491561917824e-3;
    Call_gen_oh 5;
    Set_a 0.4285556101021362;
    Set_v 0.5042003969083574e-3;
    Call_gen_oh 5;
    Set_a 0.5468758653496526;
    Set_v 0.5312708889976025e-3;
    Call_gen_oh 5;
    Set_a 0.6565821978343439;
    Set_v 0.5438401790747117e-3;
    Call_gen_oh 5;
    Set_a 0.1253901572367117;
    Set_b 0.3681917226439641e-1;
    Set_v 0.3316041873197344e-3;
    Call_gen_oh 6;
    Set_a 0.1775721510383941;
    Set_b 0.7982487607213301e-1;
    Set_v 0.3899113567153771e-3;
    Call_gen_oh 6;
    Set_a 0.2305693358216114;
    Set_b 0.1264640966592335;
    Set_v 0.4343343327201309e-3;
    Call_gen_oh 6;
    Set_a 0.2836502845992063;
    Set_b 0.1751585683418957;
    Set_v 0.4679415262318919e-3;
    Call_gen_oh 6;
    Set_a 0.3361794746232590;
    Set_b 0.2247995907632670;
    Set_v 0.4930847981631031e-3;
    Call_gen_oh 6;
    Set_a 0.3875979172264824;
    Set_b 0.2745299257422246;
    Set_v 0.5115031867540091e-3;
    Call_gen_oh 6;
    Set_a 0.4374019316999074;
    Set_b 0.3236373482441118;
    Set_v 0.5245217148457367e-3;
    Call_gen_oh 6;
    Set_a 0.4851275843340022;
    Set_b 0.3714967859436741;
    Set_v 0.5332041499895321e-3;
    Call_gen_oh 6;
    Set_a 0.5303391803806868;
    Set_b 0.4175353646321745;
    Set_v 0.5384583126021542e-3;
    Call_gen_oh 6;
    Set_a 0.5726197380596287;
    Set_b 0.4612084406355461;
    Set_v 0.5411067210798852e-3;
    Call_gen_oh 6;
    Set_a 0.2431520732564863;
    Set_b 0.4258040133043952e-1;
    Set_v 0.4259797391468714e-3;
    Call_gen_oh 6;
    Set_a 0.3002096800895869;
    Set_b 0.8869424306722721e-1;
    Set_v 0.4604931368460021e-3;
    Call_gen_oh 6;
    Set_a 0.3558554457457432;
    Set_b 0.1368811706510655;
    Set_v 0.4871814878255202e-3;
    Call_gen_oh 6;
    Set_a 0.4097782537048887;
    Set_b 0.1860739985015033;
    Set_v 0.5072242910074885e-3;
    Call_gen_oh 6;
    Set_a 0.4616337666067458;
    Set_b 0.2354235077395853;
    Set_v 0.5217069845235350e-3;
    Call_gen_oh 6;
    Set_a 0.5110707008417874;
    Set_b 0.2842074921347011;
    Set_v 0.5315785966280310e-3;
    Call_gen_oh 6;
    Set_a 0.5577415286163795;
    Set_b 0.3317784414984102;
    Set_v 0.5376833708758905e-3;
    Call_gen_oh 6;
    Set_a 0.6013060431366950;
    Set_b 0.3775299002040700;
    Set_v 0.5408032092069521e-3;
    Call_gen_oh 6;
    Set_a 0.3661596767261781;
    Set_b 0.4599367887164592e-1;
    Set_v 0.4842744917904866e-3;
    Call_gen_oh 6;
    Set_a 0.4237633153506581;
    Set_b 0.9404893773654421e-1;
    Set_v 0.5048926076188130e-3;
    Call_gen_oh 6;
    Set_a 0.4786328454658452;
    Set_b 0.1431377109091971;
    Set_v 0.5202607980478373e-3;
    Call_gen_oh 6;
    Set_a 0.5305702076789774;
    Set_b 0.1924186388843570;
    Set_v 0.5309932388325743e-3;
    Call_gen_oh 6;
    Set_a 0.5793436224231788;
    Set_b 0.2411590944775190;
    Set_v 0.5377419770895208e-3;
    Call_gen_oh 6;
    Set_a 0.6247069017094747;
    Set_b 0.2886871491583605;
    Set_v 0.5411696331677717e-3;
    Call_gen_oh 6;
    Set_a 0.4874315552535204;
    Set_b 0.4804978774953206e-1;
    Set_v 0.5197996293282420e-3;
    Call_gen_oh 6;
    Set_a 0.5427337322059053;
    Set_b 0.9716857199366665e-1;
    Set_v 0.5311120836622945e-3;
    Call_gen_oh 6;
    Set_a 0.5943493747246700;
    Set_b 0.1465205839795055;
    Set_v 0.5384309319956951e-3;
    Call_gen_oh 6;
    Set_a 0.6421314033564943;
    Set_b 0.1953579449803574;
    Set_v 0.5421859504051886e-3;
    Call_gen_oh 6;
    Set_a 0.6020628374713980;
    Set_b 0.4916375015738108e-1;
    Set_v 0.5390948355046314e-3;
    Call_gen_oh 6;
    Set_a 0.6529222529856881;
    Set_b 0.9861621540127005e-1;
    Set_v 0.5433312705027845e-3;
    Call_gen_oh 6 ].

Definition ld2354_body : list stmt :=
  [ Set_v 0.3922616270665292e-4;
    Call_gen_oh 1;
    Set_v 0.4703831750854424e-3;
    Call_gen_oh 2;
    Set_v 0.4678202801282136e-3;
    Call_gen_oh 3;
    Set_a 0.2290024646530589e-1;
    Set_v 0.1437832228979900e-3;
    Call_gen_oh 4;
    Set_a 0.5779086652271284e-1;
    Set_v 0.2303572493577644e-3;
    Call_gen_oh 4;
    Set_a 0.9863103576375984e-1;
    Set_v 0.2933110752447454e-3;
    Call_gen_oh 4;
    Set_a 0.1428155792982185;
    Set_v 0.3402905998359838e-3;
    Call_gen_oh 4;
    Set_a 0.1888978116601463;
    Set_v 0.3759138466870372e-3;
    Call_gen_oh 4;
    Set_a 0.2359091682970210;
    Set_v 0.4030638447899798e-3;
    Call_gen_oh 4;
    Set_a 0.2831228833706171;
    Set_v 0.4236591432242211e-3;
    Call_gen_oh 4;
    Set_a 0.3299495857966693;
    Set_v 0.4390522656946746e-3;
    Call_gen_oh 4;
    Set_a 0.3758840802660796;
    Set_v 0.4502523466626247e-3;
    Call_gen_oh 4;
    Set_a 0.4204751831009480;
    Set_v 0.4580577727783541e-3;
    Call_gen_oh 4;
    Set_a 0.4633068518751051;
    Set_v 0.4631391616615899e-3;
    Call_gen_oh 4;
    Set_a 0.5039849474507313;
    Set_v 0.4660928953698676e-3;
    Call_gen_oh 4;
    Set_a 0.5421265793440747;
    Set_v 0.4674751807936953e-3;
    Call_gen_oh 4;
    Set_a 0.6092660230557310;
    Set_v 0.4676414903932920e-3;
    Call_gen_oh 4;
    Set_a 0.6374654204984869;
    Set_v 0.4674086492347870e-3;
    Call_gen_oh 4;
    Set_a 0.6615136472609892;
    Set_v 0.4674928539483207e-3;
    Call_gen_oh 4;
    Set_a 0.6809487285958127;
    Set_v 0.4680748979686447e-3;
    Call_gen_oh 4;
    Set_a 0.6952980021665196;
    Set_v 0.4690449806389040e-3;
    Call_gen_oh 4;
    Set_a 0.7041245497695400;
    Set_v 0.4699877075860818e-3;
    Call_gen_oh 4;
    Set_a 0.6744033088306065e-1;
    Set_v 0.2099942281069176e-3;
    Call_gen_oh 5;
    Set_a 0.1678684485334166;
    Set_v 0.3172269150712804e-3;
    Call_gen_oh 5;
    Set_a 0.2793559049539613;
    Set_v 0.3832051358546523e-3;
    Call_gen_oh 5;
    Set_a 0.3935264218057639;
    Set_v 0.4252193818146985e-3;
    Call_gen_oh 5;
    Set_a 0.5052629268232558;
    Set_v 0.4513807963755000e-3;
    Call_gen_oh 5;
    Set_a 0.6107905315437531;
    Set_v 0.4657797469114178e-3;
    Call_gen_oh 5;
    Set_a 0.1135081039843524;
    Set_b 0.3331954884662588e-1;
    Set_v 0.2733362800522836e-3;
    Call_gen_oh 6;
    Set_a 0.1612866626099378;
    Set_b 0.7247167465436538e-1;
    Set_v 0.3235485368463559e-3;
    Call_gen_oh 6;
    Set_a 0.2100786550168205;
    Set_b 0.1151539110849745;
    Set_v 0.3624908726013453e-3;
    Call_gen_oh 6;
    Set_a 0.2592282009459942;
    Set_b 0.1599491097143677;
    Set_v 0.3925540070712828e-3;
    Call_gen_oh 6;
    Set_a 0.3081740561320203;
    Set_b 0.2058699956028027;
    Set_v 0.4156129781116235e-3;
    Call_gen_oh 6;
    Set_a 0.3564289781578164;
    Set_b 0.2521624953502911;
    Set_v 0.4330644984623263e-3;
    Call_gen_oh 6;
    Set_a 0.4035587288240703;
    Set_b 0.2982090785797674;
    Set_v 0.4459677725921312e-3;
    Call_gen_oh 6;
    Set_a 0.4491671196373903;
    Set_b 0.3434762087235733;
    Set_v 0.4551593004456795e-3;
    Call_gen_oh 6;
    Set_a 0.4928854782917489;
    Set_b 0.3874831357203437;
    Set_v 0.4613341462749918e-3;
    Call_gen_oh 6;
    Set_a 0.5343646791958988;
    Set_b 0.4297814821746926;
    Set_v 0.4651019618269806e-3;
    Call_gen_oh 6;
    Set_a 0.5732683216530990;
    Set_b 0.4699402260943537;
    Set_v 0.4670249536100625e-3;
    Call_gen_oh 6;
    Set_a 0.2214131583218986;
    Set_b 0.3873602040643895e-1;
    Set_v 0.3549555576441708e-3;
    Call_gen_oh 6;
    Set_a 0.2741796504750071;
    Set_b 0.8089496256902013e-1;
    Set_v 0.3856108245249010e-3;
    Call_gen_oh 6;
    Set_a 0.3259797439149485;
    Set_b 0.1251732177620872;
    Set_v 0.4098622845756882e-3;
    Call_gen_oh 6;
    Set_a 0.3765441148826891;
    Set_b 0.1706260286403185;
    Set_v 0.4286328604268950e-3;
    Call_gen_oh 6;
    Set_a 0.4255773574530558;
    Set_b 0.2165115147300408;
    Set_v 0.4427802198993945e-3;
    Call_gen_oh 6;
    Set_a 0.4727795117058430;
    Set_b 0.2622089812225259;
    Set_v 0.4530473511488561e-3;
    Call_gen_oh 6;
    Set_a 0.5178546895819012;
    Set_b 0.3071721431296201;
    Set_v 0.4600805475703138e-3;
    Call_gen_oh 6;
    Set_a 0.5605141192097460;
    Set_b 0.3508998998801138;
    Set_v 0.4644599059958017e-3;
    Call_gen_oh 6;
    Set_a 0.6004763319352512;
    Set_b 0.3929160876166931;
    Set_v 0.4667274455712508e-3;
    Call_gen_oh 6;
    Set_a 0.3352842634946949;
    Set_b 0.4202563457288019e-1;
    Set_v 0.4069360518020356e-3;
    Call_gen_oh 6;
    Set_a 0.3891971629814670;
    Set_b 0.8614309758870850e-1;
    Set_v 0.4260442819919195e-3;
    Call_gen_oh 6;
    Set_a 0.4409875565542281;
    Set_b 0.1314500879380001;
    Set_v 0.4408678508029063e-3;
    Call_gen_oh 6;
    Set_a 0.4904893058592484;
    Set_b 0.1772189657383859;
    Set_v 0.4518748115548597e-3;
    Call_gen_oh 6;
    Set_a 0.5375056138769549;
    Set_b 0.2228277110050294;
    Set_v 0.4595564875375116e-3;
    Call_gen_oh 6;
    Set_a 0.5818255708669969;
    Set_b 0.2677179935014386;
    Set_v 0.4643988774315846e-3;
    Call_gen_oh 6;
    Set_a 0.6232334858144959;
    Set_b 0.3113675035544165;
    Set_v 0.4668827491646946e-3;
    Call_gen_oh 6;
    Set_a 0.4489485354492058;
    Set_b 0.4409162378368174e-1;
    Set_v 0.4400541823741973e-3;
    Call_gen_oh 6;
    Set_a 0.5015136875933150;
    Set_b 0.8939009917748489e-1;
    Set_v 0.4514512890193797e-3;
    Call_gen_oh 6;
    Set_a 0.5511300550512623;
    Set_b 0.1351806029383365;
    Set_v 0.4596198627347549e-3;
    Call_gen_oh 6;
    Set_a 0.5976720409858000;
    Set_b 0.1808370355053196;
    Set_v 0.4648659016801781e-3;
    Call_gen_oh 6;
    Set_a 0.6409956378989354;
    Set_b 0.2257852192301602;
    Set_v 0.4675502017157673e-3;
    Call_gen_oh 6;
    Set_a 0.5581222330827514;
    Set_b 0.4532173421637160e-1;
    Set_v 0.4598494476455523e-3;
    Call_gen_oh 6;
    Set_a 0.6074705984161695;
    Set_b 0.9117488031840314e-1;
    Set_v 0.4654916955152048e-3;
    Call_gen_oh 6;
    Set_a 0.6532272537379033;
    Set_b 0.1369294213140155;
    Set_v 0.4684709779505137e-3;
    Call_gen_oh 6;
    Set_a 0.6594761494500487;
    Set_b 0.4589901487275583e-1;
    Set_v 0.4691445539106986e-3;
    Call_gen_oh 6 ].

Definition ld2702_body : list stmt :=
  [ Set_v 0.2998675149888161e-4;
    Call_gen_oh 1;
    Set_v 0.4077860529495355e-3;
    Call_gen_oh 3;
    Set_a 0.2065562538818703e-1;
    Set_v 0.1185349192520667e-3;
    Call_gen_oh 4;
    Set_a 0.5250918173022379e-1;
    Set_v 0.1913408643425751e-3;
    Call_gen_oh 4;
    Set_a 0.8993480082038376e-1;
    Set_v 0.2452886577209897e-3;
    Call_gen_oh 4;
    Set_a 0.1306023924436019;
    Set_v 0.2862408183288702e-3;
    Call_gen_oh 4;
    Set_a 0.1732060388531418;
    Set_v 0.3178032258257357e-3;
    Call_gen_oh 4;
    Set_a 0.2168727084820249;
    Set_v 0.3422945667633690e-3;
    Call_gen_oh 4;
    Set_a 0.2609528309173586;
    Set_v 0.3612790520235922e-3;
    Call_gen_oh 4;
    Set_a 0.3049252927938952;
    Set_v 0.3758638229818521e-3;
    Call_gen_oh 4;
    Set_a 0.3483484138084404;
    Set_v 0.3868711798859953e-3;
    Call_gen_oh 4;
    Set_a 0.3908321549106406;
    Set_v 0.3949429933189938e-3;
    Call_gen_oh 4;
    Set_a 0.4320210071894814;
    Set_v 0.4006068107541156e-3;
    Call_gen_oh 4;
    Set_a 0.4715824795890053;
    Set_v 0.4043192149672723e-3;
    Call_gen_oh 4;
    Set_a 0.5091984794078453;
    Set_v 0.4064947495808078e-3;
    Call_gen_oh 4;
    Set_a 0.5445580145650803;
    Set_v 0.4075245619813152e-3;
    Call_gen_oh 4;
    Set_a 0.6072575796841768;
    Set_v 0.4076423540893566e-3;
    Call_gen_oh 4;
    Set_a 0.6339484505755803;
    Set_v 0.4074280862251555e-3;
    Call_gen_oh 4;
    Set_a 0.6570718257486958;
    Set_v 0.4074163756012244e-3;
    Call_gen_oh 4;
    Set_a 0.6762557330090709;
    Set_v 0.4077647795071246e-3;
    Call_gen_oh 4;
    Set_a 0.6911161696923790;
    Set_v 0.4084517552782530e-3;
    Call_gen_oh 4;
    Set_a 0.7012841911659961;
    Set_v 0.4092468459224052e-3;
    Call_gen_oh 4;
    Set_a 0.7064559272410020;
    Set_v 0.4097872687240906e-3;
    Call_gen_oh 4;
    Set_a 0.6123554989894765e-1;
    Set_v 0.1738986811745028e-3;
    Call_gen_oh 5;
    Set_a 0.1533070348312393;
    Set_v 0.2659616045280191e-3;
    Call_gen_oh 5;
    Set_a 0.2563902605244206;
    Set_v 0.3240596008171533e-3;
    Call_gen_oh 5;
    Set_a 0.3629346991663361;
    Set_v 0.3621195964432943e-3;
    Call_gen_oh 5;
    Set_a 0.4683949968987538;
    Set_v 0.3868838330760539e-3;
    Call_gen_oh 5;
    Set_a 0.5694479240657952;
    Set_v 0.4018911532693111e-3;
    Call_gen_oh 5;
    Set_a 0.6634465430993955;
    Set_v 0.4089929432983252e-3;
    Call_gen_oh 5;
    Set_a 0.1033958573552305;
    Set_b 0.3034544009063584e-1;
    Set_v 0.2279907527706409e-3;
    Call_gen_oh 6;
    Set_a 0.1473521412414395;
    Set_b 0.6618803044247135e-1;
    Set_v 0.2715205490578897e-3;
    Call_gen_oh 6;
    Set_a 0.1924552158705967;
    Set_b 0.1054431128987715;
    Set_v 0.3057917896703976e-3;
    Call_gen_oh 6;
    Set_a 0.2381094362890328;
    Set_b 0.1468263551238858;
    Set_v 0.3326913052452555e-3;
    Call_gen_oh 6;
    Set_a 0.2838121707936760;
    Set_b 0.1894486108187886;
    Set_v 0.3537334711890037e-3;
    Call_gen_oh 6;
    Set_a 0.3291323133373415;
    Set_b 0.2326374238761579;
    Set_v 0.3700567500783129e-3;
    Call_gen_oh 6;
    Set_a 0.3736896978741460;
    Set_b 0.2758485808485768;
    Set_v 0.3825245372589122e-3;
    Call_gen_oh 6;
    Set_a 0.4171406040760013;
    Set_b 0.3186179331996921;
    Set_v 0.3918125171518296e-3;
    Call_gen_oh 6;
    Set_a 0.4591677985256915;
    Set_b 0.3605329796303794;
    Set_v 0.3984720419937579e-3;
    Call_gen_oh 6;
    Set_a 0.4994733831718418;
    Set_b 0.4012147253586509;
    Set_v 0.4029746003338211e-3;
    Call_gen_oh 6;
    Set_a 0.5377731830445096;
    Set_b 0.4403050025570692;
    Set_v 0.4057428632156627e-3;
    Call_gen_oh 6;
    Set_a 0.5737917830001331;
    Set_b 0.4774565904277483;
    Set_v 0.4071719274114857e-3;
    Call_gen_oh 6;
    Set_a 0.2027323586271389;
    Set_b 0.3544122504976147e-1;
    Set_v 0.2990236950664119e-3;
    Call_gen_oh 6;
    Set_a 0.2516942375187273;
    Set_b 0.7418304388646328e-1;
    Set_v 0.3262951734212878e-3;
    Call_gen_oh 6;
    Set_a 0.3000227995257181;
    Set_b 0.1150502745727186;
    Set_v 0.3482634608242413e-3;
    Call_gen_oh 6;
    Set_a 0.3474806691046342;
    Set_b 0.1571963371209364;
    Set_v 0.3656596681700892e-3;
    Call_gen_oh 6;
    Set_a 0.3938103180359209;
    Set_b 0.1999631877247100;
    Set_v 0.3791740467794218e-3;
    Call_gen_oh 6;
    Set_a 0.4387519590455703;
    Set_b 0.2428073457846535;
    Set_v 0.3894034450156905e-3;
    Call_gen_oh 6;
    Set_a 0.4820503960077787;
    Set_b 0.2852575132906155;
    Set_v 0.3968600245508371e-3;
    Call_gen_oh 6;
    Set_a 0.5234573778475101;
    Set_b 0.3268884208674639;
    Set_v 0.4019931351420050e-3;
    Call_gen_oh 6;
    Set_a 0.5627318647235282;
    Set_b 0.3673033321675939;
    Set_v 0.4052108801278599e-3;
    Call_gen_oh 6;
    Set_a 0.5996390607156954;
    Set_b 0.4061211551830290;
    Set_v 0.4068978613940934e-3;
    Call_gen_oh 6;
    Set_a 0.3084780753791947;
    Set_b 0.3860125523100059e-1;
    Set_v 0.3454275351319704e-3;
    Call_gen_oh 6;
    Set_a 0.3589988275920223;
    Set_b 0.7928938987104867e-1;
    Set_v 0.3629963537007920e-3;
    Call_gen_oh 6;
    Set_a 0.4078628415881973;
    Set_b 0.1212614643030087;
    Set_v 0.3770187233889873e-3;
    Call_gen_oh 6;
    Set_a 0.4549287258889735;
    Set_b 0.1638770827382693;
    Set_v 0.3878608613694378e-3;
    Call_gen_oh 6;
    Set_a 0.5000278512957279;
    Set_b 0.2065965798260176;
    Set_v 0.3959065270221274e-3;
    Call_gen_oh 6;
    Set_a 0.5429785044928199;
    Set_b 0.2489436378852235;
    Set_v 0.4015286975463570e-3;
    Call_gen_oh 6;
    Set_a 0.5835939850491711;
    Set_b 0.2904811368946891;
    Set_v 0.4050866785614717e-3;
    Call_gen_oh 6;
    Set_a 0.6216870353444856;
    Set_b 0.3307941957666609;
    Set_v 0.4069320185051913e-3;
    Call_gen_oh 6;
    Set_a 0.4151104662709091;
    Set_b 0.4064829146052554e-1;
    Set_v 0.3760120964062763e-3;
    Call_gen_oh 6;
    Set_a 0.4649804275009218;
    Set_b 0.8258424547294755e-1;
    Set_v 0.3870969564418064e-3;
    Call_gen_oh 6;
    Set_a 0.5124695757009662;
    Set_b 0.1251841962027289;
    Set_v 0.3955287790534055e-3;
    Call_gen_oh 6;
    Set_a 0.5574711100606224;
    Set_b 0.1679107505976331;
    Set_v 0.4015361911302668e-3;
    Call_gen_oh 6;
    Set_a 0.5998597333287227;
    Set_b 0.2102805057358715;
    Set_v 0.4053836986719548e-3;
    Call_gen_oh 6;
    Set_a 0.6395007148516600;
    Set_b 0.2518418087774107;
    Set_v 0.4073578673299117e-3;
    Call_gen_oh 6;
    Set_a 0.5188456224746252;
    Set_b 0.4194321676077518e-1;
    Set_v 0.3954628379231406e-3;
    Call_gen_oh 6;
    Set_a 0.5664190707942778;
    Set_b 0.8457661551921499e-1;
    Set_v 0.4017645508847530e-3;
    Call_gen_oh 6;
    Set_a 0.6110464353283153;
    Set_b 0.1273652932519396;
    Set_v 0.4059030348651293e-3;
    Call_gen_oh 6;
    Set_a 0.6526430302051563;
    Set_b 0.1698173239076354;
    Set_v 0.4080565809484880e-3;
    Call_gen_oh 6;
    Set_a 0.6167551880377548;
    Set_b 0.4266398851548864e-1;
    Set_v 0.4063018753664651e-3;
    Call_gen_oh 6;
    Set_a 0.6607195418355383;
    Set_b 0.8551925814238349e-1;
    Set_v 0.4087191292799671e-3;
    Call_gen_oh 6 ].

Definition ld3074_body : list stmt :=
  [ Set_v 0.2599095953754734e-4;
    Call_gen_oh 1;
    Set_v 0.3603134089687541e-3;
    Call_gen_oh 2;
    Set_v 0.3586067974412447e-3;
    Call_gen_oh 3;
    Set_a 0.1886108518723392e-1;
    Set_v 0.9831528474385880e-4;
    Call_gen_oh 4;
    Set_a 0.4800217244625303e-1;
    Set_v 0.1605023107954450e-3;
    Call_gen_oh 4;
    Set_a 0.8244922058397242e-1;
    Set_v 0.2072200131464099e-3;
    Call_gen_oh 4;
    Set_a 0.1200408362484023;
    Set_v 0.2431297618814187e-3;
    Call_gen_oh 4;
    Set_a 0.1595773530809965;
    Set_v 0.2711819064496707e-3;
    Call_gen_oh 4;
    Set_a 0.2002635973434064;
    Set_v 0.2932762038321116e-3;
    Call_gen_oh 4;
    Set_a 0.2415127590139982;
    Set_v 0.3107032514197368e-3;
    Call_gen_oh 4;
    Set_a 0.2828584158458477;
    Set_v 0.3243808058921213e-3;
    Call_gen_oh 4;
    Set_a 0.3239091015338138;
    Set_v 0.3349899091374030e-3;
    Call_gen_oh 4;
    Set_a 0.3643225097962194;
    Set_v 0.3430580688505218e-3;
    Call_gen_oh 4;
    Set_a 0.4037897083691802;
    Set_v 0.3490124109290343e-3;
    Call_gen_oh 4;
    Set_a 0.4420247515194127;
    Set_v 0.3532148948561955e-3;
    Call_gen_oh 4;
    Set_a 0.4787572538464938;
    Set_v 0.3559862669062833e-3;
    Call_gen_oh 4;
    Set_a 0.5137265251275234;
    Set_v 0.3576224317551411e-3;
    Call_gen_oh 4;
    Set_a 0.5466764056654611;
    Set_v 0.3584050533086076e-3;
    Call_gen_oh 4;
    Set_a 0.6054859420813535;
    Set_v 0.3584903581373224e-3;
    Call_gen_oh 4;
    Set_a 0.6308106701764562;
    Set_v 0.3582991879040586e-3;
    Call_gen_oh 4;
    Set_a 0.6530369230179584;
    Set_v 0.3582371187963125e-3;
    Call_gen_oh 4;
    Set_a 0.6718609524611158;
    Set_v 0.3584353631122350e-3;
    Call_gen_oh 4;
    Set_a 0.6869676499894013;
    Set_v 0.3589120166517785e-3;
    Call_gen_oh 4;
    Set_a 0.6980467077240748;
    Set_v 0.3595445704531601e-3;
    Call_gen_oh 4;
    Set_a 0.7048241721250522;
    Set_v 0.3600943557111074e-3;
    Call_gen_oh 4;
    Set_a 0.5591105222058232e-1;
    Set_v 0.1456447096742039e-3;
    Call_gen_oh 5;
    Set_a 0.1407384078513916;
    Set_v 0.2252370188283782e-3;
    Call_gen_oh 5;
    Set_a 0.2364035438976309;
    Set_v 0.2766135443474897e-3;
    Call_gen_oh 5;
    Set_a 0.3360602737818170;
    Set_v 0.3110729491500851e-3;
    Call_gen_oh 5;
    Set_a 0.4356292630054665;
    Set_v 0.3342506712303391e-3;
    Call_gen_oh 5;
    Set_a 0.5321569415256174;
    Set_v 0.3491981834026860e-3;
    Call_gen_oh 5;
    Set_a 0.6232956305040554;
    Set_v 0.3576003604348932e-3;
    Call_gen_oh 5;
    Set_a 0.9469870086838469e-1;
    Set_b 0.2778748387309470e-1;
    Set_v 0.1921921305788564e-3;
    Call_gen_oh 6;
    Set_a 0.1353170300568141;
    Set_b 0.6076569878628364e-1;
    Set_v 0.2301458216495632e-3;
    Call_gen_oh 6;
    Set_a 0.1771679481726077;
    Set_b 0.9703072762711040e-1;
    Set_v 0.2604248549522893e-3;
    Call_gen_oh 6;
    Set_a 0.2197066664231751;
    Set_b 0.1354112458524762;
    Set_v 0.2845275425870697e-3;
    Call_gen_oh 6;
    Set_a 0.2624783557374927;
    Set_b 0.1750996479744100;
    Set_v 0.3036870897974840e-3;
    Call_gen_oh 6;
    Set_a 0.3050969521214442;
    Set_b 0.2154896907449802;
    Set_v 0.3188414832298066e-3;
    Call_gen_oh 6;
    Set_a 0.3472252637196021;
    Set_b 0.2560954625740152;
    Set_v 0.3307046414722089e-3;
    Call_gen_oh 6;
    Set_a 0.3885610219026360;
    Set_b 0.2965070050624096;
    Set_v 0.3398330969031360e-3;
    Call_gen_oh 6;
    Set_a 0.4288273776062765;
    Set_b 0.3363641488734497;
    Set_v 0.3466757899705373e-3;
    Call_gen_oh 6;
    Set_a 0.4677662471302948;
    Set_b 0.3753400029836788;
    Set_v 0.3516095923230054e-3;
    Call_gen_oh 6;
    Set_a 0.5051333589553359;
    Set_b 0.4131297522144286;
    Set_v 0.3549645184048486e-3;
    Call_gen_oh 6;
    Set_a 0.5406942145810492;
    Set_b 0.4494423776081795;
    Set_v 0.3570415969441392e-3;
    Call_gen_oh 6;
    Set_a 0.5742204122576457;
    Set_b 0.4839938958841502;
    Set_v 0.3581251798496118e-3;
    Call_gen_oh 6;
    Set_a 0.1865407027225188;
    Set_b 0.3259144851070796e-1;
    Set_v 0.2543491329913348e-3;
    Call_gen_oh 6;
    Set_a 0.2321186453689432;
    Set_b 0.6835679505297343e-1;
    Set_v 0.2786711051330776e-3;
    Call_gen_oh 6;
    Set_a 0.2773159142523882;
    Set_b 0.1062284864451989;
    Set_v 0.2985552361083679e-3;
    Call_gen_oh 6;
    Set_a 0.3219200192237254;
    Set_b 0.1454404409323047;
    Set_v 0.3145867929154039e-3;
    Call_gen_oh 6;
    Set_a 0.3657032593944029;
    Set_b 0.1854018282582510;
    Set_v 0.3273290662067609e-3;
    Call_gen_oh 6;
    Set_a 0.4084376778363622;
    Set_b 0.2256297412014750;
    Set_v 0.3372705511943501e-3;
    Call_gen_oh 6;
    Set_a 0.4499004945751427;
    Set_b 0.2657104425000896;
    Set_v 0.3448274437851510e-3;
    Call_gen_oh 6;
    Set_a 0.4898758141326335;
    Set_b 0.3052755487631557;
    Set_v 0.3503592783048583e-3;
    Call_gen_oh 6;
    Set_a 0.5281547442266309;
    Set_b 0.3439863920645423;
    Set_v 0.3541854792663162e-3;
    Call_gen_oh 6;
    Set_a 0.5645346989813992;
    Set_b 0.3815229456121914;
    Set_v 0.3565995517909428e-3;
    Call_gen_oh 6;
    Set_a 0.5988181252159848;
    Set_b 0.4175752420966734;
    Set_v 0.3578802078302898e-3;
    Call_gen_oh 6;
    Set_a 0.2850425424471603;
    Set_b 0.3562149509862536e-1;
    Set_v 0.2958644592860982e-3;
    Call_gen_oh 6;
    Set_a 0.3324619433027876;
    Set_b 0.7330318886871096e-1;
    Set_v 0.3119548129116835e-3;
    Call_gen_oh 6;
    Set_a 0.3785848333076282;
    Set_b 0.1123226296008472;
    Set_v 0.3250745225005984e-3;
    Call_gen_oh 6;
    Set_a 0.4232891028562115;
    Set_b 0.1521084193337708;
    Set_v 0.3355153415935208e-3;
    Call_gen_oh 6;
    Set_a 0.4664287050829722;
    Set_b 0.1921844459223610;
    Set_v 0.3435847568549328e-3;
    Call_gen_oh 6;
    Set_a 0.5078458493735726;
    Set_b 0.2321360989678303;
    Set_v 0.3495786831622488e-3;
    Call_gen_oh 6;
    Set_a 0.5473779816204180;
    Set_b 0.2715886486360520;
    Set_v 0.3537767805534621e-3;
    Call_gen_oh 6;
    Set_a 0.5848617133811376;
    Set_b 0.3101924707571355;
    Set_v 0.3564459815421428e-3;
    Call_gen_oh 6;
    Set_a 0.6201348281584888;
    Set_b 0.3476121052890973;
    Set_v 0.3578464061225468e-3;
    Call_gen_oh 6;
    Set_a 0.3852191185387871;
    Set_b 0.3763224880035108e-1;
    Set_v 0.3239748762836212e-3;
    Call_gen_oh 6;
    Set_a 0.4325025061073423;
    Set_b 0.7659581935637135e-1;
    Set_v 0.3345491784174287e-3;
    Call_gen_oh 6;
    Set_a 0.4778486229734490;
    Set_b 0.1163381306083900;
    Set_v 0.3429126177301782e-3;
    Call_gen_oh 6;
    Set_a 0.5211663693009000;
    Set_b 0.1563890598752899;
    Set_v 0.3492420343097421e-3;
    Call_gen_oh 6;
    Set_a 0.5623469504853703;
    Set_b 0.1963320810149200;
    Set_v 0.3537399050235257e-3;
    Call_gen_oh 6;
    Set_a 0.6012718188659246;
    Set_b 0.2357847407258738;
    Set_v 0.3566209152659172e-3;
    Call_gen_oh 6;
    Set_a 0.6378179206390117;
    Set_b 0.2743846121244060;
    Set_v 0.3581084321919782e-3;
    Call_gen_oh 6;
    Set_a 0.4836936460214534;
    Set_b 0.3895902610739024e-1;
    Set_v 0.3426522117591512e-3;
    Call_gen_oh 6;
    Set_a 0.5293792562683797;
    Set_b 0.7871246819312640e-1;
    Set_v 0.3491848770121379e-3;
    Call_gen_oh 6;
    Set_a 0.5726281253100033;
    Set_b 0.1187963808202981;
    Set_v 0.3539318235231476e-3;
    Call_gen_oh 6;
    Set_a 0.6133658776169068;
    Set_b 0.1587914708061787;
    Set_v 0.3570231438458694e-3;
    Call_gen_oh 6;
    Set_a 0.6515085491865307;
    Set_b 0.1983058575227646;
    Set_v 0.3586207335051714e-3;
    Call_gen_oh 6;
    Set_a 0.5778692716064976;
    Set_b 0.3977209689791542e-1;
    Set_v 0.3541196205164025e-3;
    Call_gen_oh 6;
    Set_a 0.6207904288086192;
    Set_b 0.7990157592981152e-1;
    Set_v 0.3574296911573953e-3;
    Call_gen_oh 6;
    Set_a 0.6608688171046802;
    Set_b 0.1199671308754309;
    Set_v 0.3591993279818963e-3;
    Call_gen_oh 6;
    Set_a 0.6656263089489130;
    Set_b 0.4015955957805969e-1;
    Set_v 0.3595855034661997e-3;
    Call_gen_oh 6 ].

Definition ld3470_body : list stmt :=
  [ Set_v 0.2040382730826330e-4;
    Call_gen_oh 1;
    Set_v 0.3178149703889544e-3;
    Call_gen_oh 3;
    Set_a 0.1721420832906233e-1;
    Set_v 0.8288115128076110e-4;
    Call_gen_oh 4;
    Set_a 0.4408875374981770e-1;
    Set_v 0.1360883192522954e-3;
    Call_gen_oh 4;
    Set_a 0.7594680813878681e-1;
    Set_v 0.1766854454542662e-3;
    Call_gen_oh 4;
    Set_a 0.1108335359204799;
    Set_v 0.2083153161230153e-3;
    Call_gen_oh 4;
    Set_a 0.1476517054388567;
    Set_v 0.2333279544657158e-3;
    Call_gen_oh 4;
    Set_a 0.1856731870860615;
    Set_v 0.2532809539930247e-3;
    Call_gen_oh 4;
    Set_a 0.2243634099428821;
    Set_v 0.2692472184211158e-3;
    Call_gen_oh 4;
    Set_a 0.2633006881662727;
    Set_v 0.2819949946811885e-3;
    Call_gen_oh 4;
    Set_a 0.3021340904916283;
    Set_v 0.2920953593973030e-3;
    Call_gen_oh 4;
    Set_a 0.3405594048030089;
    Set_v 0.2999889782948352e-3;
    Call_gen_oh 4;
    Set_a 0.3783044434007372;
    Set_v 0.3060292120496902e-3;
    Call_gen_oh 4;
    Set_a 0.4151194767407910;
    Set_v 0.3105109167522192e-3;
    Call_gen_oh 4;
    Set_a 0.4507705766443257;
    Set_v 0.3136902387550312e-3;
    Call_gen_oh 4;
    Set_a 0.4850346056573187;
    Set_v 0.3157984652454632e-3;
    Call_gen_oh 4;
    Set_a 0.5176950817792470;
    Set_v 0.3170516518425422e-3;
    Call_gen_oh 4;
    Set_a 0.5485384240820989;
    Set_v 0.3176568425633755e-3;
    Call_gen_oh 4;
    Set_a 0.6039117238943308;
    Set_v 0.3177198411207062e-3;
    Call_gen_oh 4;
    Set_a 0.6279956655573113;
    Set_v 0.3175519492394733e-3;
    Call_gen_oh 4;
    Set_a 0.6493636169568952;
    Set_v 0.3174654952634756e-3;
    Call_gen_oh 4;
    Set_a 0.6677644117704504;
    Set_v 0.3175676415467654e-3;
    Call_gen_oh 4;
    Set_a 0.6829368572115624;
    Set_v 0.3178923417835410e-3;
    Call_gen_oh 4;
    Set_a 0.6946195818184121;
    Set_v 0.3183788287531909e-3;
    Call_gen_oh 4;
    Set_a 0.7025711542057026;
    Set_v 0.3188755151918807e-3;
    Call_gen_oh 4;
    Set_a 0.7066004767140119;
    Set_v 0.3191916889313849e-3;
    Call_gen_oh 4;
    Set_a 0.5132537689946062e-1;
    Set_v 0.1231779611744508e-3;
    Call_gen_oh 5;
    Set_a 0.1297994661331225;
    Set_v 0.1924661373839880e-3;
    Call_gen_oh 5;
    Set_a 0.2188852049401307;
    Set_v 0.2380881867403424e-3;
    Call_gen_oh 5;
    Set_a 0.3123174824903457;
    Set_v 0.2693100663037885e-3;
    Call_gen_oh 5;
    Set_a 0.4064037620738195;
    Set_v 0.2908673382834366e-3;
    Call_gen_oh 5;
    Set_a 0.4984958396944782;
    Set_v 0.3053914619381535e-3;
    Call_gen_oh 5;
    Set_a 0.5864975046021365;
    Set_v 0.3143916684147777e-3;
    Call_gen_oh 5;
    Set_a 0.6686711634580175;
    Set_v 0.3187042244055363e-3;
    Call_gen_oh 5;
    Set_a 0.8715738780835950e-1;
    Set_b 0.2557175233367578e-1;
    Set_v 0.1635219535869790e-3;
    Call_gen_oh 6;
    Set_a 0.1248383123134007;
    Set_b 0.5604823383376681e-1;
    Set_v 0.1968109917696070e-3;
    Call_gen_oh 6;
    Set_a 0.1638062693383378;
    Set_b 0.8968568601900765e-1;
    Set_v 0.2236754342249974e-3;
    Call_gen_oh 6;
    Set_a 0.2035586203373176;
    Set_b 0.1254086651976279;
    Set_v 0.2453186687017181e-3;
    Call_gen_oh 6;
    Set_a 0.2436798975293774;
    Set_b 0.1624780150162012;
    Set_v 0.2627551791580541e-3;
    Call_gen_oh 6;
    Set_a 0.2838207507773806;
    Set_b 0.2003422342683208;
    Set_v 0.2767654860152220e-3;
    Call_gen_oh 6;
    Set_a 0.3236787502217692;
    Set_b 0.2385628026255263;
    Set_v 0.2879467027765895e-3;
    Call_gen_oh 6;
    Set_a 0.3629849554840691;
    Set_b 0.2767731148783578;
    Set_v 0.2967639918918702e-3;
    Call_gen_oh 6;
    Set_a 0.4014948081992087;
    Set_b 0.3146542308245309;
    Set_v 0.3035900684660351e-3;
    Call_gen_oh 6;
    Set_a 0.4389818379260225;
    Set_b 0.3519196415895088;
    Set_v 0.3087338237298308e-3;
    Call_gen_oh 6;
    Set_a 0.4752331143674377;
    Set_b 0.3883050984023654;
    Set_v 0.3124608838860167e-3;
    Call_gen_oh 6;
    Set_a 0.5100457318374018;
    Set_b 0.4235613423908649;
    Set_v 0.3150084294226743e-3;
    Call_gen_oh 6;
    Set_a 0.5432238388954868;
    Set_b 0.4574484717196220;
    Set_v 0.3165958398598402e-3;
    Call_gen_oh 6;
    Set_a 0.5745758685072442;
    Set_b 0.4897311639255524;
    Set_v 0.3174320440957372e-3;
    Call_gen_oh 6;
    Set_a 0.1723981437592809;
    Set_b 0.3010630597881105e-1;
    Set_v 0.2182188909812599e-3;
    Call_gen_oh 6;
    Set_a 0.2149553257844597;
    Set_b 0.6326031554204694e-1;
    Set_v 0.2399727933921445e-3;
    Call_gen_oh 6;
    Set_a 0.2573256081247422;
    Set_b 0.9848566980258631e-1;
    Set_v 0.2579796133514652e-3;
    Call_gen_oh 6;
    Set_a 0.2993163751238106;
    Set_b 0.1350835952384266;
    Set_v 0.2727114052623535e-3;
    Call_gen_oh 6;
    Set_a 0.3407238005148000;
    Set_b 0.1725184055442181;
    Set_v 0.2846327656281355e-3;
    Call_gen_oh 6;
    Set_a 0.3813454978483264;
    Set_b 0.2103559279730725;
    Set_v 0.2941491102051334e-3;
    Call_gen_oh 6;
    Set_a 0.4209848104423343;
    Set_b 0.2482278774554860;
    Set_v 0.3016049492136107e-3;
    Call_gen_oh 6;
    Set_a 0.4594519699996300;
    Set_b 0.2858099509982883;
    Set_v 0.3072949726175648e-3;
    Call_gen_oh 6;
    Set_a 0.4965640166185930;
    Set_b 0.3228075659915428;
    Set_v 0.3114768142886460e-3;
    Call_gen_oh 6;
    Set_a 0.5321441655571562;
    Set_b 0.3589459907204151;
    Set_v 0.3143823673666223e-3;
    Call_gen_oh 6;
    Set_a 0.5660208438582166;
    Set_b 0.3939630088864310;
    Set_v 0.3162269764661535e-3;
    Call_gen_oh 6;
    Set_a 0.5980264315964364;
    Set_b 0.4276029922949089;
    Set_v 0.3172164663759821e-3;
    Call_gen_oh 6;
    Set_a 0.2644215852350733;
    Set_b 0.3300939429072552e-1;
    Set_v 0.2554575398967435e-3;
    Call_gen_oh 6;
    Set_a 0.3090113743443063;
    Set_b 0.6803887650078501e-1;
    Set_v 0.2701704069135677e-3;
    Call_gen_oh 6;
    Set_a 0.3525871079197808;
    Set_b 0.1044326136206709;
    Set_v 0.2823693413468940e-3;
    Call_gen_oh 6;
    Set_a 0.3950418005354029;
    Set_b 0.1416751597517679;
    Set_v 0.2922898463214289e-3;
    Call_gen_oh 6;
    Set_a 0.4362475663430163;
    Set_b 0.1793408610504821;
    Set_v 0.3001829062162428e-3;
    Call_gen_oh 6;
    Set_a 0.4760661812145854;
    Set_b 0.2170630750175722;
    Set_v 0.3062890864542953e-3;
    Call_gen_oh 6;
    Set_a 0.5143551042512103;
    Set_b 0.2545145157815807;
    Set_v 0.3108328279264746e-3;
    Call_gen_oh 6;
    Set_a 0.5509709026935597;
    Set_b 0.2913940101706601;
    Set_v 0.3140243146201245e-3;
    Call_gen_oh 6;
    Set_a 0.5857711030329428;
    Set_b 0.3274169910910705;
    Set_v 0.3160638030977130e-3;
    Call_gen_oh 6;
    Set_a 0.6186149917404392;
    Set_b 0.3623081329317265;
    Set_v 0.3171462882206275e-3;
    Call_gen_oh 6;
    Set_a 0.3586894569557064;
    Set_b 0.3497354386450040e-1;
    Set_v 0.2812388416031796e-3;
    Call_gen_oh 6;
    Set_a 0.4035266610019441;
    Set_b 0.7129736739757095e-1;
    Set_v 0.2912137500288045e-3;
    Call_gen_oh 6;
    Set_a 0.4467775312332510;
    Set_b 0.1084758620193165;
    Set_v 0.2993241256502206e-3;
    Call_gen_oh 6;
    Set_a 0.4883638346608543;
    Set_b 0.1460915689241772;
    Set_v 0.3057101738983822e-3;
    Call_gen_oh 6;
    Set_a 0.5281908348434601;
    Set_b 0.1837790832369980;
    Set_v 0.3105319326251432e-3;
    Call_gen_oh 6;
    Set_a 0.5661542687149311;
    Set_b 0.2212075390874021;
    Set_v 0.3139565514428167e-3;
    Call_gen_oh 6;
    Set_a 0.6021450102031452;
    Set_b 0.2580682841160985;
    Set_v 0.3161543006806366e-3;
    Call_gen_oh 6;
    Set_a 0.6360520783610050;
    Set_b 0.2940656362094121;
    Set_v 0.3172985960613294e-3;
    Call_gen_oh 6;
    Set_a 0.4521611065087196;
    Set_b 0.3631055365867002e-1;
    Set_v 0.2989400336901431e-3;
    Call_gen_oh 6;
    Set_a 0.4959365651560963;
    Set_b 0.7348318468484350e-1;
    Set_v 0.3054555883947677e-3;
    Call_gen_oh 6;
    Set_a 0.5376815804038283;
    Set_b 0.1111087643812648;
    Set_v 0.3104764960807702e-3;
    Call_gen_oh 6;
    Set_a 0.5773314480243768;
    Set_b 0.1488226085145408;
    Set_v 0.3141015825977616e-3;
    Call_gen_oh 6;
    Set_a 0.6148113245575056;
    Set_b 0.1862892274135151;
    Set_v 0.3164520621159896e-3;
    Call_gen_oh 6;
    Set_a 0.6500407462842380;
    Set_b 0.2231909701714456;
    Set_v 0.3176652305912204e-3;
    Call_gen_oh 6;
    Set_a 0.5425151448707213;
    Set_b 0.3718201306118944e-1;
    Set_v 0.3105097161023939e-3;
    Call_gen_oh 6;
    Set_a 0.5841860556907931;
    Set_b 0.7483616335067346e-1;
    Set_v 0.3143014117890550e-3;
    Call_gen_oh 6;
    Set_a 0.6234632186851500;
    Set_b 0.1125990834266120;
    Set_v 0.3168172866287200e-3;
    Call_gen_oh 6;
    Set_a 0.6602934551848843;
    Set_b 0.1501303813157619;
    Set_v 0.3181401865570968e-3;
    Call_gen_oh 6;
    Set_a 0.6278573968375105;
    Set_b 0.3767559930245720e-1;
    Set_v 0.3170663659156037e-3;
    Call_gen_oh 6;
    Set_a 0.6665611711264577;
    Set_b 0.7548443301360158e-1;
    Set_v 0.3185447944625510e-3;
    Call_gen_oh 6 ].

Definition ld3890_body : list stmt :=
  [ Set_v 0.1807395252196920e-4;
    Call_gen_oh 1;
    Set_v 0.2848008782238827e-3;
    Call_gen_oh 2;
    Set_v 0.2836065837530581e-3;
    Call_gen_oh 3;
    Set_a 0.1587876419858352e-1;
    Set_v 0.7013149266673816e-4;
    Call_gen_oh 4;
    Set_a 0.4069193593751206e-1;
    Set_v 0.1162798021956766e-3;
    Call_gen_oh 4;
    Set_a 0.7025888115257997e-1;
    Set_v 0.1518728583972105e-3;
    Call_gen_oh 4;
    Set_a 0.1027495450028704;
    Set_v 0.1798796108216934e-3;
    Call_gen_oh 4;
    Set_a 0.1371457730893426;
    Set_v 0.2022593385972785e-3;
    Call_gen_oh 4;
    Set_a 0.1727758532671953;
    Set_v 0.2203093105575464e-3;
    Call_gen_oh 4;
    Set_a 0.2091492038929037;
    Set_v 0.2349294234299855e-3;
    Call_gen_oh 4;
    Set_a 0.2458813281751915;
    Set_v 0.2467682058747003e-3;
    Call_gen_oh 4;
    Set_a 0.2826545859450066;
    Set_v 0.2563092683572224e-3;
    Call_gen_oh 4;
    Set_a 0.3191957291799622;
    Set_v 0.2639253896763318e-3;
    Call_gen_oh 4;
    Set_a 0.3552621469299578;
    Set_v 0.2699137479265108e-3;
    Call_gen_oh 4;
    Set_a 0.3906329503406230;
    Set_v 0.2745196420166739e-3;
    Call_gen_oh 4;
    Set_a 0.4251028614093031;
    Set_v 0.2779529197397593e-3;
    Call_gen_oh 4;
    Set_a 0.4584777520111870;
    Set_v 0.2803996086684265e-3;
    Call_gen_oh 4;
    Set_a 0.4905711358710193;
    Set_v 0.2820302356715842e-3;
    Call_gen_oh 4;
    Set_a 0.5212011669847385;
    Set_v 0.2830056747491068e-3;
    Call_gen_oh 4;
    Set_a 0.5501878488737995;
    Set_v 0.2834808950776839e-3;
    Call_gen_oh 4;
    Set_a 0.6025037877479342;
    Set_v 0.2835282339078929e-3;
    Call_gen_oh 4;
    Set_a 0.6254572689549016;
    Set_v 0.2833819267065800e-3;
    Call_gen_oh 4;
    Set_a 0.6460107179528248;
    Set_v 0.2832858336906784e-3;
    Call_gen_oh 4;
    Set_a 0.6639541138154251;
    Set_v 0.2833268235451244e-3;
    Call_gen_oh 4;
    Set_a 0.6790688515667495;
    Set_v 0.2835432677029253e-3;
    Call_gen_oh 4;
    Set_a 0.6911338580371512;
    Set_v 0.2839091722743049e-3;
    Call_gen_oh 4;
    Set_a 0.6999385956126490;
    Set_v 0.2843308178875841e-3;
    Call_gen_oh 4;
    Set_a 0.7053037748656896;
    Set_v 0.2846703550533846e-3;
    Call_gen_oh 4;
    Set_a 0.4732224387180115e-1;
    Set_v 0.1051193406971900e-3;
    Call_gen_oh 5;
    Set_a 0.1202100529326803;
    Set_v 0.1657871838796974e-3;
    Call_gen_oh 5;
    Set_a 0.2034304820664855;
    Set_v 0.2064648113714232e-3;
    Call_gen_oh 5;
    Set_a 0.2912285643573002;
    Set_v 0.2347942745819741e-3;
    Call_gen_oh 5;
    Set_a 0.3802361792726768;
    Set_v 0.2547775326597726e-3;
    Call_gen_oh 5;
    Set_a 0.4680598511056146;
    Set_v 0.2686876684847025e-3;
    Call_gen_oh 5;
    Set_a 0.5528151052155599;
    Set_v 0.2778665755515867e-3;
    Call_gen_oh 5;
    Set_a 0.6329386307803041;
    Set_v 0.2830996616782929e-3;
    Call_gen_oh 5;
    Set_a 0.8056516651369069e-1;
    Set_b 0.2363454684003124e-1;
    Set_v 0.1403063340168372e-3;
    Call_gen_oh 6;
    Set_a 0.1156476077139389;
    Set_b 0.5191291632545936e-1;
    Set_v 0.1696504125939477e-3;
    Call_gen_oh 6;
    Set_a 0.1520473382760421;
    Set_b 0.8322715736994519e-1;
    Set_v 0.1935787242745390e-3;
    Call_gen_oh 6;
    Set_a 0.1892986699745931;
    Set_b 0.1165855667993712;
    Set_v 0.2130614510521968e-3;
    Call_gen_oh 6;
    Set_a 0.2270194446777792;
    Set_b 0.1513077167409504;
    Set_v 0.2289381265931048e-3;
    Call_gen_oh 6;
    Set_a 0.2648908185093273;
    Set_b 0.1868882025807859;
    Set_v 0.2418630292816186e-3;
    Call_gen_oh 6;
    Set_a 0.3026389259574136;
    Set_b 0.2229277629776224;
    Set_v 0.2523400495631193e-3;
    Call_gen_oh 6;
    Set_a 0.3400220296151384;
    Set_b 0.2590951840746235;
    Set_v 0.2607623973449605e-3;
    Call_gen_oh 6;
    Set_a 0.3768217953335510;
    Set_b 0.2951047291750847;
    Set_v 0.2674441032689209e-3;
    Call_gen_oh 6;
    Set_a 0.4128372900921884;
    Set_b 0.3307019714169930;
    Set_v 0.2726432360343356e-3;
    Call_gen_oh 6;
    Set_a 0.4478807131815630;
    Set_b 0.3656544101087634;
    Set_v 0.2765787685924545e-3;
    Call_gen_oh 6;
    Set_a 0.4817742034089257;
    Set_b 0.3997448951939695;
    Set_v 0.2794428690642224e-3;
    Call_gen_oh 6;
    Set_a 0.5143472814653344;
    Set_b 0.4327667110812024;
    Set_v 0.2814099002062895e-3;
    Call_gen_oh 6;
    Set_a 0.5454346213905650;
    Set_b 0.4645196123532293;
    Set_v 0.2826429531578994e-3;
    Call_gen_oh 6;
    Set_a 0.5748739313170252;
    Set_b 0.4948063555703345;
    Set_v 0.2832983542550884e-3;
    Call_gen_oh 6;
    Set_a 0.1599598738286342;
    Set_b 0.2792357590048985e-1;
    Set_v 0.1886695565284976e-3;
    Call_gen_oh 6;
    Set_a 0.1998097412500951;
    Set_b 0.5877141038139065e-1;
    Set_v 0.2081867882748234e-3;
    Call_gen_oh 6;
    Set_a 0.2396228952566202;
    Set_b 0.9164573914691377e-1;
    Set_v 0.2245148680600796e-3;
    Call_gen_oh 6;
    Set_a 0.2792228341097746;
    Set_b 0.1259049641962687;
    Set_v 0.2380370491511872e-3;
    Call_gen_oh 6;
    Set_a 0.3184251107546741;
    Set_b 0.1610594823400863;
    Set_v 0.2491398041852455e-3;
    Call_gen_oh 6;
    Set_a 0.3570481164426244;
    Set_b 0.1967151653460898;
    Set_v 0.2581632405881230e-3;
    Call_gen_oh 6;
    Set_a 0.3949164710492144;
    Set_b 0.2325404606175168;
    Set_v 0.2653965506227417e-3;
    Call_gen_oh 6;
    Set_a 0.4318617293970503;
    Set_b 0.2682461141151439;
    Set_v 0.2710857216747087e-3;
    Call_gen_oh 6;
    Set_a 0.4677221009931678;
    Set_b 0.3035720116011973;
    Set_v 0.2754434093903659e-3;
    Call_gen_oh 6;
    Set_a 0.5023417939270955;
    Set_b 0.3382781859197439;
    Set_v 0.2786579932519380e-3;
    Call_gen_oh 6;
    Set_a 0.5355701836636128;
    Set_b 0.3721383065625942;
    Set_v 0.2809011080679474e-3;
    Call_gen_oh 6;
    Set_a 0.5672608451328771;
    Set_b 0.4049346360466055;
    Set_v 0.2823336184560987e-3;
    Call_gen_oh 6;
    Set_a 0.5972704202540162;
    Set_b 0.4364538098633802;
    Set_v 0.2831101175806309e-3;
    Call_gen_oh 6;
    Set_a 0.2461687022333596;
    Set_b 0.3070423166833368e-1;
    Set_v 0.2221679970354546e-3;
    Call_gen_oh 6;
    Set_a 0.2881774566286831;
    Set_b 0.6338034669281885e-1;
    Set_v 0.2356185734270703e-3;
    Call_gen_oh 6;
    Set_a 0.3293963604116978;
    Set_b 0.9742862487067941e-1;
    Set_v 0.2469228344805590e-3;
    Call_gen_oh 6;
    Set_a 0.3697303822241377;
    Set_b 0.1323799532282290;
    Set_v 0.2562726348642046e-3;
    Call_gen_oh 6;
    Set_a 0.4090663023135127;
    Set_b 0.1678497018129336;
    Set_v 0.2638756726753028e-3;
    Call_gen_oh 6;
    Set_a 0.4472819355411712;
    Set_b 0.2035095105326114;
    Set_v 0.2699311157390862e-3;
    Call_gen_oh 6;
    Set_a 0.4842513377231437;
    Set_b 0.2390692566672091;
    Set_v 0.2746233268403837e-3;
    Call_gen_oh 6;
    Set_a 0.5198477629962928;
    Set_b 0.2742649818076149;
    Set_v 0.2781225674454771e-3;
    Call_gen_oh 6;
    Set_a 0.5539453011883145;
    Set_b 0.3088503806580094;
    Set_v 0.2805881254045684e-3;
    Call_gen_oh 6;
    Set_a 0.5864196762401251;
    Set_b 0.3425904245906614;
    Set_v 0.2821719877004913e-3;
    Call_gen_oh 6;
    Set_a 0.6171484466668390;
    Set_b 0.3752562294789468;
    Set_v 0.2830222502333124e-3;
    Call_gen_oh 6;
    Set_a 0.3350337830565727;
    Set_b 0.3261589934634747e-1;
    Set_v 0.2457995956744870e-3;
    Call_gen_oh 6;
    Set_a 0.3775773224758284;
    Set_b 0.6658438928081572e-1;
    Set_v 0.2551474407503706e-3;
    Call_gen_oh 6;
    Set_a 0.4188155229848973;
    Set_b 0.1014565797157954;
    Set_v 0.2629065335195311e-3;
    Call_gen_oh 6;
    Set_a 0.4586805892009344;
    Set_b 0.1368573320843822;
    Set_v 0.2691900449925075e-3;
    Call_gen_oh 6;
    Set_a 0.4970895714224235;
    Set_b 0.1724614851951608;
    Set_v 0.2741275485754276e-3;
    Call_gen_oh 6;
    Set_a 0.5339505133960747;
    Set_b 0.2079779381416412;
    Set_v 0.2778530970122595e-3;
    Call_gen_oh 6;
    Set_a 0.5691665792531440;
    Set_b 0.2431385788322288;
    Set_v 0.2805010567646741e-3;
    Call_gen_oh 6;
    Set_a 0.6026387682680377;
    Set_b 0.2776901883049853;
    Set_v 0.2822055834031040e-3;
    Call_gen_oh 6;
    Set_a 0.6342676150163307;
    Set_b 0.3113881356386632;
    Set_v 0.2831016901243473e-3;
    Call_gen_oh 6;
    Set_a 0.4237951119537067;
    Set_b 0.3394877848664351e-1;
    Set_v 0.2624474901131803e-3;
    Call_gen_oh 6;
    Set_a 0.4656918683234929;
    Set_b 0.6880219556291447e-1;
    Set_v 0.2688034163039377e-3;
    Call_gen_oh 6;
    Set_a 0.5058857069185980;
    Set_b 0.1041946859721635;
    Set_v 0.2738932751287636e-3;
    Call_gen_oh 6;
    Set_a 0.5443204666713996;
    Set_b 0.1398039738736393;
    Set_v 0.2777944791242523e-3;
    Call_gen_oh 6;
    Set_a 0.5809298813759742;
    Set_b 0.1753373381196155;
    Set_v 0.2806011661660987e-3;
    Call_gen_oh 6;
    Set_a 0.6156416039447128;
    Set_b 0.2105215793514010;
    Set_v 0.2824181456597460e-3;
    Call_gen_oh 6;
    Set_a 0.6483801351066604;
    Set_b 0.2450953312157051;
    Set_v 0.2833585216577828e-3;
    Call_gen_oh 6;
    Set_a 0.5103616577251688;
    Set_b 0.3485560643800719e-1;
    Set_v 0.2738165236962878e-3;
    Call_gen_oh 6;
    Set_a 0.5506738792580681;
    Set_b 0.7026308631512033e-1;
    Set_v 0.2778365208203180e-3;
    Call_gen_oh 6;
    Set_a 0.5889573040995292;
    Set_b 0.1059035061296403;
    Set_v 0.2807852940418966e-3;
    Call_gen_oh 6;
    Set_a 0.6251641589516930;
    Set_b 0.1414823925236026;
    Set_v 0.2827245949674705e-3;
    Call_gen_oh 6;
    Set_a 0.6592414921570178;
    Set_b 0.1767207908214530;
    Set_v 0.2837342344829828e-3;
    Call_gen_oh 6;
    Set_a 0.5930314017533384;
    Set_b 0.3542189339561672e-1;
    Set_v 0.2809233907610981e-3;
    Call_gen_oh 6;
    Set_a 0.6309812253390175;
    Set_b 0.7109574040369549e-1;
    Set_v 0.2829930809742694e-3;
    Call_gen_oh 6;
    Set_a 0.6666296011353230;
    Set_b 0.1067259792282730;
    Set_v 0.2841097874111479e-3;
    Call_gen_oh 6;
    Set_a 0.6703715271049922;
    Set_b 0.3569455268820809e-1;
    Set_v 0.2843455206008783e-3;
    Call_gen_oh 6 ].

Definition ld4334_body : list stmt :=
  [ Set_v 0.1449063022537883e-4;
    Call_gen_oh 1;
    Set_v 0.2546377329828424e-3;
    Call_gen_oh 3;
    Set_a 0.1462896151831013e-1;
    Set_v 0.6018432961087496e-4;
    Call_gen_oh 4;
    Set_a 0.3769840812493139e-1;
    Set_v 0.1002286583263673e-3;
    Call_gen_oh 4;
    Set_a 0.6524701904096891e-1;
    Set_v 0.1315222931028093e-3;
    Call_gen_oh 4;
    Set_a 0.9560543416134648e-1;
    Set_v 0.1564213746876724e-3;
    Call_gen_oh 4;
    Set_a 0.1278335898929198;
    Set_v 0.1765118841507736e-3;
    Call_gen_oh 4;
    Set_a 0.1613096104466031;
    Set_v 0.1928737099311080e-3;
    Call_gen_oh 4;
    Set_a 0.1955806225745371;
    Set_v 0.2062658534263270e-3;
    Call_gen_oh 4;
    Set_a 0.2302935218498028;
    Set_v 0.2172395445953787e-3;
    Call_gen_oh 4;
    Set_a 0.2651584344113027;
    Set_v 0.2262076188876047e-3;
    Call_gen_oh 4;
    Set_a 0.2999276825183209;
    Set_v 0.2334885699462397e-3;
    Call_gen_oh 4;
    Set_a 0.3343828669718798;
    Set_v 0.2393355273179203e-3;
    Call_gen_oh 4;
    Set_a 0.3683265013750518;
    Set_v 0.2439559200468863e-3;
    Call_gen_oh 4;
    Set_a 0.4015763206518108;
    Set_v 0.2475251866060002e-3;
    Call_gen_oh 4;
    Set_a 0.4339612026399770;
    Set_v 0.2501965558158773e-3;
    Call_gen_oh 4;
    Set_a 0.4653180651114582;
    Set_v 0.2521081407925925e-3;
    Call_gen_oh 4;
    Set_a 0.4954893331080803;
    Set_v 0.2533881002388081e-3;
    Call_gen_oh 4;
    Set_a 0.5243207068924930;
    Set_v 0.2541582900848261e-3;
    Call_gen_oh 4;
    Set_a 0.5516590479041704;
    Set_v 0.2545365737525860e-3;
    Call_gen_oh 4;
    Set_a 0.6012371927804176;
    Set_v 0.2545726993066799e-3;
    Call_gen_oh 4;
    Set_a 0.6231574466449819;
    Set_v 0.2544456197465555e-3;
    Call_gen_oh 4;
    Set_a 0.6429416514181271;
    Set_v 0.2543481596881064e-3;
    Call_gen_oh 4;
    Set_a 0.6604124272943595;
    Set_v 0.2543506451429194e-3;
    Call_gen_oh 4;
    Set_a 0.6753851470408250;
    Set_v 0.2544905675493763e-3;
    Call_gen_oh 4;
    Set_a 0.6876717970626160;
    Set_v 0.2547611407344429e-3;
    Call_gen_oh 4;
    Set_a 0.6970895061319234;
    Set_v 0.2551060375448869e-3;
    Call_gen_oh 4;
    Set_a 0.7034746912553310;
    Set_v 0.2554291933816039e-3;
    Call_gen_oh 4;
    Set_a 0.7067017217542295;
    Set_v 0.2556255710686343e-3;
    Call_gen_oh 4;
    Set_a 0.4382223501131123e-1;
    Set_v 0.9041339695118195e-4;
    Call_gen_oh 5;
    Set_a 0.1117474077400006;
    Set_v 0.1438426330079022e-3;
    Call_gen_oh 5;
    Set_a 0.1897153252911440;
    Set_v 0.1802523089820518e-3;
    Call_gen_oh 5;
    Set_a 0.2724023009910331;
    Set_v 0.2060052290565496e-3;
    Call_gen_oh 5;
    Set_a 0.3567163308709902;
    Set_v 0.2245002248967466e-3;
    Call_gen_oh 5;
    Set_a 0.4404784483028087;
    Set_v 0.2377059847731150e-3;
    Call_gen_oh 5;
    Set_a 0.5219833154161411;
    Set_v 0.2468118955882525e-3;
    Call_gen_oh 5;
    Set_a 0.5998179868977553;
    Set_v 0.2525410872966528e-3;
    Call_gen_oh 5;
    Set_a 0.6727803154548222;
    Set_v 0.2553101409933397e-3;
    Call_gen_oh 5;
    Set_a 0.7476563943166086e-1;
    Set_b 0.2193168509461185e-1;
    Set_v 0.1212879733668632e-3;
    Call_gen_oh 6;
    Set_a 0.1075341482001416;
    Set_b 0.4826419281533887e-1;
    Set_v 0.1472872881270931e-3;
    Call_gen_oh 6;
    Set_a 0.1416344885203259;
    Set_b 0.7751191883575742e-1;
    Set_v 0.1686846601010828e-3;
    Call_gen_oh 6;
    Set_a 0.1766325315388586;
    Set_b 0.1087558139247680;
    Set_v 0.1862698414660208e-3;
    Call_gen_oh 6;
    Set_a 0.2121744174481514;
    Set_b 0.1413661374253096;
    Set_v 0.2007430956991861e-3;
    Call_gen_oh 6;
    Set_a 0.2479669443408145;
    Set_b 0.1748768214258880;
    Set_v 0.2126568125394796e-3;
    Call_gen_oh 6;
    Set_a 0.2837600452294113;
    Set_b 0.2089216406612073;
    Set_v 0.2224394603372113e-3;
    Call_gen_oh 6;
    Set_a 0.3193344933193984;
    Set_b 0.2431987685545972;
    Set_v 0.2304264522673135e-3;
    Call_gen_oh 6;
    Set_a 0.3544935442438745;
    Set_b 0.2774497054377770;
    Set_v 0.2368854288424087e-3;
    Call_gen_oh 6;
    Set_a 0.3890571932288154;
    Set_b 0.3114460356156915;
    Set_v 0.2420352089461772e-3;
    Call_gen_oh 6;
    Set_a 0.4228581214259090;
    Set_b 0.3449806851913012;
    Set_v 0.2460597113081295e-3;
    Call_gen_oh 6;
    Set_a 0.4557387211304052;
    Set_b 0.3778618641248256;
    Set_v 0.2491181912257687e-3;
    Call_gen_oh 6;
    Set_a 0.4875487950541643;
    Set_b 0.4099086391698978;
    Set_v 0.2513528194205857e-3;
    Call_gen_oh 6;
    Set_a 0.5181436529962997;
    Set_b 0.4409474925853973;
    Set_v 0.2528943096693220e-3;
    Call_gen_oh 6;
    Set_a 0.5473824095600661;
    Set_b 0.4708094517711291;
    Set_v 0.2538660368488136e-3;
    Call_gen_oh 6;
    Set_a 0.5751263398976174;
    Set_b 0.4993275140354637;
    Set_v 0.2543868648299022e-3;
    Call_gen_oh 6;
    Set_a 0.1489515746840028;
    Set_b 0.2599381993267017e-1;
    Set_v 0.1642595537825183e-3;
    Call_gen_oh 6;
    Set_a 0.1863656444351767;
    Set_b 0.5479286532462190e-1;
    Set_v 0.1818246659849308e-3;
    Call_gen_oh 6;
    Set_a 0.2238602880356348;
    Set_b 0.8556763251425254e-1;
    Set_v 0.1966565649492420e-3;
    Call_gen_oh 6;
    Set_a 0.2612723375728160;
    Set_b 0.1177257802267011;
    Set_v 0.2090677905657991e-3;
    Call_gen_oh 6;
    Set_a 0.2984332990206190;
    Set_b 0.1508168456192700;
    Set_v 0.2193820409510504e-3;
    Call_gen_oh 6;
    Set_a 0.3351786584663333;
    Set_b 0.1844801892177727;
    Set_v 0.2278870827661928e-3;
    Call_gen_oh 6;
    Set_a 0.3713505522209120;
    Set_b 0.2184145236087598;
    Set_v 0.2348283192282090e-3;
    Call_gen_oh 6;
    Set_a 0.4067981098954663;
    Set_b 0.2523590641486229;
    Set_v 0.2404139755581477e-3;
    Call_gen_oh 6;
    Set_a 0.4413769993687534;
    Set_b 0.2860812976901373;
    Set_v 0.2448227407760734e-3;
    Call_gen_oh 6;
    Set_a 0.4749487182516394;
    Set_b 0.3193686757808996;
    Set_v 0.2482110455592573e-3;
    Call_gen_oh 6;
    Set_a 0.5073798105075426;
    Set_b 0.3520226949547602;
    Set_v 0.2507192397774103e-3;
    Call_gen_oh 6;
    Set_a 0.5385410448878654;
    Set_b 0.3838544395667890;
    Set_v 0.2524765968534880e-3;
    Call_gen_oh 6;
    Set_a 0.5683065353670530;
    Set_b 0.4146810037640963;
    Set_v 0.2536052388539425e-3;
    Call_gen_oh 6;
    Set_a 0.5965527620663510;
    Set_b 0.4443224094681121;
    Set_v 0.2542230588033068e-3;
    Call_gen_oh 6;
    Set_a 0.2299227700856157;
    Set_b 0.2865757664057584e-1;
    Set_v 0.1944817013047896e-3;
    Call_gen_oh 6;
    Set_a 0.2695752998553267;
    Set_b 0.5923421684485993e-1;
    Set_v 0.2067862362746635e-3;
    Call_gen_oh 6;
    Set_a 0.3086178716611389;
    Set_b 0.9117817776057715e-1;
    Set_v 0.2172440734649114e-3;
    Call_gen_oh 6;
    Set_a 0.3469649871659077;
    Set_b 0.1240593814082605;
    Set_v 0.2260125991723423e-3;
    Call_gen_oh 6;
    Set_a 0.3845153566319655;
    Set_b 0.1575272058259175;
    Set_v 0.2332655008689523e-3;
    Call_gen_oh 6;
    Set_a 0.4211600033403215;
    Set_b 0.1912845163525413;
    Set_v 0.2391699681532458e-3;
    Call_gen_oh 6;
    Set_a 0.4567867834329882;
    Set_b 0.2250710177858171;
    Set_v 0.2438801528273928e-3;
    Call_gen_oh 6;
    Set_a 0.4912829319232061;
    Set_b 0.2586521303440910;
    Set_v 0.2475370504260665e-3;
    Call_gen_oh 6;
    Set_a 0.5245364793303812;
    Set_b 0.2918112242865407;
    Set_v 0.2502707235640574e-3;
    Call_gen_oh 6;
    Set_a 0.5564369788915756;
    Set_b 0.3243439239067890;
    Set_v 0.2522031701054241e-3;
    Call_gen_oh 6;
    Set_a 0.5868757697775287;
    Set_b 0.3560536787835351;
    Set_v 0.2534511269978784e-3;
    Call_gen_oh 6;
    Set_a 0.6157458853519617;
    Set_b 0.3867480821242581;
    Set_v 0.2541284914955151e-3;
    Call_gen_oh 6;
    Set_a 0.3138461110672113;
    Set_b 0.3051374637507278e-1;
    Set_v 0.2161509250688394e-3;
    Call_gen_oh 6;
    Set_a 0.3542495872050569;
    Set_b 0.6237111233730755e-1;
    Set_v 0.2248778513437852e-3;
    Call_gen_oh 6;
    Set_a 0.3935751553120181;
    Set_b 0.9516223952401907e-1;
    Set_v 0.2322388803404617e-3;
    Call_gen_oh 6;
    Set_a 0.4317634668111147;
    Set_b 0.1285467341508517;
    Set_v 0.2383265471001355e-3;
    Call_gen_oh 6;
    Set_a 0.4687413842250821;
    Set_b 0.1622318931656033;
    Set_v 0.2432476675019525e-3;
    Call_gen_oh 6;
    Set_a 0.5044274237060283;
    Set_b 0.1959581153836453;
    Set_v 0.2471122223750674e-3;
    Call_gen_oh 6;
    Set_a 0.5387354077925727;
    Set_b 0.2294888081183837;
    Set_v 0.2500291752486870e-3;
    Call_gen_oh 6;
    Set_a 0.5715768898356105;
    Set_b 0.2626031152713945;
    Set_v 0.2521055942764682e-3;
    Call_gen_oh 6;
    Set_a 0.6028627200136111;
    Set_b 0.2950904075286713;
    Set_v 0.2534472785575503e-3;
    Call_gen_oh 6;
    Set_a 0.6325039812653463;
    Set_b 0.3267458451113286;
    Set_v 0.2541599713080121e-3;
    Call_gen_oh 6;
    Set_a 0.3981986708423407;
    Set_b 0.3183291458749821e-1;
    Set_v 0.2317380975862936e-3;
    Call_gen_oh 6;
    Set_a 0.4382791182133300;
    Set_b 0.6459548193880908e-1;
    Set_v 0.2378550733719775e-3;
    Call_gen_oh 6;
    Set_a 0.4769233057218166;
    Set_b 0.9795757037087952e-1;
    Set_v 0.2428884456739118e-3;
    Call_gen_oh 6;
    Set_a 0.5140823911194238;
    Set_b 0.1316307235126655;
    Set_v 0.2469002655757292e-3;
    Call_gen_oh 6;
    Set_a 0.5496977833862983;
    Set_b 0.1653556486358704;
    Set_v 0.2499657574265851e-3;
    Call_gen_oh 6;
    Set_a 0.5837047306512727;
    Set_b 0.1988931724126510;
    Set_v 0.2521676168486082e-3;
    Call_gen_oh 6;
    Set_a 0.6160349566926879;
    Set_b 0.2320174581438950;
    Set_v 0.2535935662645334e-3;
    Call_gen_oh 6;
    Set_a 0.6466185353209440;
    Set_b 0.2645106562168662;
    Set_v 0.2543356743363214e-3;
    Call_gen_oh 6;
    Set_a 0.4810835158795404;
    Set_b 0.3275917807743992e-1;
    Set_v 0.2427353285201535e-3;
    Call_gen_oh 6;
    Set_a 0.5199925041324341;
    Set_b 0.6612546183967181e-1;
    Set_v 0.2468258039744386e-3;
    Call_gen_oh 6;
    Set_a 0.5571717692207494;
    Set_b 0.9981498331474143e-1;
    Set_v 0.2500060956440310e-3;
    Call_gen_oh 6;
    Set_a 0.5925789250836378;
    Set_b 0.1335687001410374;
    Set_v 0.2523238365420979e-3;
    Call_gen_oh 6;
    Set_a 0.6261658523859670;
    Set_b 0.1671444402896463;
    Set_v 0.2538399260252846e-3;
    Call_gen_oh 6;
    Set_a 0.6578811126669331;
    Set_b 0.2003106382156076;
    Set_v 0.2546255927268069e-3;
    Call_gen_oh 6;
    Set_a 0.5609624612998100;
    Set_b 0.3337500940231335e-1;
    Set_v 0.2500583360048449e-3;
    Call_gen_oh 6;
    Set_a 0.5979959659984670;
    Set_b 0.6708750335901803e-1;
    Set_v 0.2524777638260203e-3;
    Call_gen_oh 6;
    Set_a 0.6330523711054002;
    Set_b 0.1008792126424850;
    Set_v 0.2540951193860656e-3;
    Call_gen_oh 6;
    Set_a 0.6660960998103972;
    Set_b 0.1345050343171794;
    Set_v 0.2549524085027472e-3;
    Call_gen_oh 6;
    Set_a 0.6365384364585819;
    Set_b 0.3372799460737052e-1;
    Set_v 0.2542569507009158e-3;
    Call_gen_oh 6;
    Set_a 0.6710994302899275;
    Set_b 0.6755249309678028e-1;
    Set_v 0.2552114127580376e-3;
    Call_gen_oh 6 ].

Definition ld4802_body : list stmt :=
  [ Set_v 0.9687521879420705e-4;
    Call_gen_oh 1;
    Set_v 0.2307897895367918e-3;
    Call_gen_oh 2;
    Set_v 0.2297310852498558e-3;
    Call_gen_oh 3;
    Set_a 0.2335728608887064e-1;
    Set_v 0.7386265944001919e-4;
    Call_gen_oh 4;
    Set_a 0.4352987836550653e-1;
    Set_v 0.8257977698542210e-4;
    Call_gen_oh 4;
    Set_a 0.6439200521088801e-1;
    Set_v 0.9706044762057630e-4;
    Call_gen_oh 4;
    Set_a 0.9003943631993181e-1;
    Set_v 0.1302393847117003e-3;
    Call_gen_oh 4;
    Set_a 0.1196706615548473;
    Set_v 0.1541957004600968e-3;
    Call_gen_oh 4;
    Set_a 0.1511715412838134;
    Set_v 0.1704459770092199e-3;
    Call_gen_oh 4;
    Set_a 0.1835982828503801;
    Set_v 0.1827374890942906e-3;
    Call_gen_oh 4;
    Set_a 0.2165081259155405;
    Set_v 0.1926360817436107e-3;
    Call_gen_oh 4;
    Set_a 0.2496208720417563;
    Set_v 0.2008010239494833e-3;
    Call_gen_oh 4;
    Set_a 0.2827200673567900;
    Set_v 0.2075635983209175e-3;
    Call_gen_oh 4;
    Set_a 0.3156190823994346;
    Set_v 0.2131306638690909e-3;
    Call_gen_oh 4;
    Set_a 0.3481476793749115;
    Set_v 0.2176562329937335e-3;
    Call_gen_oh 4;
    Set_a 0.3801466086947226;
    Set_v 0.2212682262991018e-3;
    Call_gen_oh 4;
    Set_a 0.4114652119634011;
    Set_v 0.2240799515668565e-3;
    Call_gen_oh 4;
    Set_a 0.4419598786519751;
    Set_v 0.2261959816187525e-3;
    Call_gen_oh 4;
    Set_a 0.4714925949329543;
    Set_v 0.2277156368808855e-3;
    Call_gen_oh 4;
    Set_a 0.4999293972879466;
    Set_v 0.2287351772128336e-3;
    Call_gen_oh 4;
    Set_a 0.5271387221431248;
    Set_v 0.2293490814084085e-3;
    Call_gen_oh 4;
    Set_a 0.5529896780837761;
    Set_v 0.2296505312376273e-3;
    Call_gen_oh 4;
    Set_a 0.6000856099481712;
    Set_v 0.2296793832318756e-3;
    Call_gen_oh 4;
    Set_a 0.6210562192785175;
    Set_v 0.2295785443842974e-3;
    Call_gen_oh 4;
    Set_a 0.6401165879934240;
    Set_v 0.2295017931529102e-3;
    Call_gen_oh 4;
    Set_a 0.6571144029244334;
    Set_v 0.2295059638184868e-3;
    Call_gen_oh 4;
    Set_a 0.6718910821718863;
    Set_v 0.2296232343237362e-3;
    Call_gen_oh 4;
    Set_a 0.6842845591099010;
    Set_v 0.2298530178740771e-3;
    Call_gen_oh 4;
    Set_a 0.6941353476269816;
    Set_v 0.2301579790280501e-3;
    Call_gen_oh 4;
    Set_a 0.7012965242212991;
    Set_v 0.2304690404996513e-3;
    Call_gen_oh 4;
    Set_a 0.7056471428242644;
    Set_v 0.2307027995907102e-3;
    Call_gen_oh 4;
    Set_a 0.4595557643585895e-1;
    Set_v 0.9312274696671092e-4;
    Call_gen_oh 5;
    Set_a 0.1049316742435023;
    Set_v 0.1199919385876926e-3;
    Call_gen_oh 5;
    Set_a 0.1773548879549274;
    Set_v 0.1598039138877690e-3;
    Call_gen_oh 5;
    Set_a 0.2559071411236127;
    Set_v 0.1822253763574900e-3;
    Call_gen_oh 5;
    Set_a 0.3358156837985898;
    Set_v 0.1988579593655040e-3;
    Call_gen_oh 5;
    Set_a 0.4155835743763893;
    Set_v 0.2112620102533307e-3;
    Call_gen_oh 5;
    Set_a 0.4937894296167472;
    Set_v 0.2201594887699007e-3;
    Call_gen_oh 5;
    Set_a 0.5691569694793316;
    Set_v 0.2261622590895036e-3;
    Call_gen_oh 5;
    Set_a 0.6405840854894251;
    Set_v 0.2296458453435705e-3;
    Call_gen_oh 5;
    Set_a 0.7345133894143348e-1;
    Set_b 0.2177844081486067e-1;
    Set_v 0.1006006990267000e-3;
    Call_gen_oh 6;
    Set_a 0.1009859834044931;
    Set_b 0.4590362185775188e-1;
    Set_v 0.1227676689635876e-3;
    Call_gen_oh 6;
    Set_a 0.1324289619748758;
    Set_b 0.7255063095690877e-1;
    Set_v 0.1467864280270117e-3;
    Call_gen_oh 6;
    Set_a 0.1654272109607127;
    Set_b 0.1017825451960684;
    Set_v 0.1644178912101232e-3;
    Call_gen_oh 6;
    Set_a 0.1990767186776461;
    Set_b 0.1325652320980364;
    Set_v 0.1777664890718961e-3;
    Call_gen_oh 6;
    Set_a 0.2330125945523278;
    Set_b 0.1642765374496765;
    Set_v 0.1884825664516690e-3;
    Call_gen_oh 6;
    Set_a 0.2670080611108287;
    Set_b 0.1965360374337889;
    Set_v 0.1973269246453848e-3;
    Call_gen_oh 6;
    Set_a 0.3008753376294316;
    Set_b 0.2290726770542238;
    Set_v 0.2046767775855328e-3;
    Call_gen_oh 6;
    Set_a 0.3344475596167860;
    Set_b 0.2616645495370823;
    Set_v 0.2107600125918040e-3;
    Call_gen_oh 6;
    Set_a 0.3675709724070786;
    Set_b 0.2941150728843141;
    Set_v 0.2157416362266829e-3;
    Call_gen_oh 6;
    Set_a 0.4001000887587812;
    Set_b 0.3262440400919066;
    Set_v 0.2197557816920721e-3;
    Call_gen_oh 6;
    Set_a 0.4318956350436028;
    Set_b 0.3578835350611916;
    Set_v 0.2229192611835437e-3;
    Call_gen_oh 6;
    Set_a 0.4628239056795531;
    Set_b 0.3888751854043678;
    Set_v 0.2253385110212775e-3;
    Call_gen_oh 6;
    Set_a 0.4927563229773636;
    Set_b 0.4190678003222840;
    Set_v 0.2271137107548774e-3;
    Call_gen_oh 6;
    Set_a 0.5215687136707969;
    Set_b 0.4483151836883852;
    Set_v 0.2283414092917525e-3;
    Call_gen_oh 6;
    Set_a 0.5491402346984905;
    Set_b 0.4764740676087880;
    Set_v 0.2291161673130077e-3;
    Call_gen_oh 6;
    Set_a 0.5753520160126075;
    Set_b 0.5034021310998277;
    Set_v 0.2295313908576598e-3;
    Call_gen_oh 6;
    Set_a 0.1388326356417754;
    Set_b 0.2435436510372806e-1;
    Set_v 0.1438204721359031e-3;
    Call_gen_oh 6;
    Set_a 0.1743686900537244;
    Set_b 0.5118897057342652e-1;
    Set_v 0.1607738025495257e-3;
    Call_gen_oh 6;
    Set_a 0.2099737037950268;
    Set_b 0.8014695048539634e-1;
    Set_v 0.1741483853528379e-3;
    Call_gen_oh 6;
    Set_a 0.2454492590908548;
    Set_b 0.1105117874155699;
    Set_v 0.1851918467519151e-3;
    Call_gen_oh 6;
    Set_a 0.2807219257864278;
    Set_b 0.1417950531570966;
    Set_v 0.1944628638070613e-3;
    Call_gen_oh 6;
    Set_a 0.3156842271975842;
    Set_b 0.1736604945719597;
    Set_v 0.2022495446275152e-3;
    Call_gen_oh 6;
    Set_a 0.3502090945177752;
    Set_b 0.2058466324693981;
    Set_v 0.2087462382438514e-3;
    Call_gen_oh 6;
    Set_a 0.3841684849519686;
    Set_b 0.2381284261195919;
    Set_v 0.2141074754818308e-3;
    Call_gen_oh 6;
    Set_a 0.4174372367906016;
    Set_b 0.2703031270422569;
    Set_v 0.2184640913748162e-3;
    Call_gen_oh 6;
    Set_a 0.4498926465011892;
    Set_b 0.3021845683091309;
    Set_v 0.2219309165220329e-3;
    Call_gen_oh 6;
    Set_a 0.4814146229807701;
    Set_b 0.3335993355165720;
    Set_v 0.2246123118340624e-3;
    Call_gen_oh 6;
    Set_a 0.5118863625734701;
    Set_b 0.3643833735518232;
    Set_v 0.2266062766915125e-3;
    Call_gen_oh 6;
    Set_a 0.5411947455119144;
    Set_b 0.3943789541958179;
    Set_v 0.2280072952230796e-3;
    Call_gen_oh 6;
    Set_a 0.5692301500357246;
    Set_b 0.4234320144403542;
    Set_v 0.2289082025202583e-3;
    Call_gen_oh 6;
    Set_a 0.5958857204139576;
    Set_b 0.4513897947419260;
    Set_v 0.2294012695120025e-3;
    Call_gen_oh 6;
    Set_a 0.2156270284785766;
    Set_b 0.2681225755444491e-1;
    Set_v 0.1722434488736947e-3;
    Call_gen_oh 6;
    Set_a 0.2532385054909710;
    Set_b 0.5557495747805614e-1;
    Set_v 0.1830237421455091e-3;
    Call_gen_oh 6;
    Set_a 0.2902564617771537;
    Set_b 0.8569368062950249e-1;
    Set_v 0.1923855349997633e-3;
    Call_gen_oh 6;
    Set_a 0.3266979823143256;
    Set_b 0.1167367450324135;
    Set_v 0.2004067861936271e-3;
    Call_gen_oh 6;
    Set_a 0.3625039627493614;
    Set_b 0.1483861994003304;
    Set_v 0.2071817297354263e-3;
    Call_gen_oh 6;
    Set_a 0.3975838937548699;
    Set_b 0.1803821503011405;
    Set_v 0.2128250834102103e-3;
    Call_gen_oh 6;
    Set_a 0.4318396099009774;
    Set_b 0.2124962965666424;
    Set_v 0.2174513719440102e-3;
    Call_gen_oh 6;
    Set_a 0.4651706555732742;
    Set_b 0.2445221837805913;
    Set_v 0.2211661839150214e-3;
    Call_gen_oh 6;
    Set_a 0.4974752649620969;
    Set_b 0.2762701224322987;
    Set_v 0.2240665257813102e-3;
    Call_gen_oh 6;
    Set_a 0.5286517579627517;
    Set_b 0.3075627775211328;
    Set_v 0.2262439516632620e-3;
    Call_gen_oh 6;
    Set_a 0.5586001195731895;
    Set_b 0.3382311089826877;
    Set_v 0.2277874557231869e-3;
    Call_gen_oh 6;
    Set_a 0.5872229902021319;
    Set_b 0.3681108834741399;
    Set_v 0.2287854314454994e-3;
    Call_gen_oh 6;
    Set_a 0.6144258616235123;
    Set_b 0.3970397446872839;
    Set_v 0.2293268499615575e-3;
    Call_gen_oh 6;
    Set_a 0.2951676508064861;
    Set_b 0.2867499538750441e-1;
    Set_v 0.1912628201529828e-3;
    Call_gen_oh 6;
    Set_a 0.3335085485472725;
    Set_b 0.5867879341903510e-1;
    Set_v 0.1992499672238701e-3;
    Call_gen_oh 6;
    Set_a 0.3709561760636381;
    Set_b 0.8961099205022284e-1;
    Set_v 0.2061275533454027e-3;
    Call_gen_oh 6;
    Set_a 0.4074722861667498;
    Set_b 0.1211627927626297;
    Set_v 0.2119318215968572e-3;
    Call_gen_oh 6;
    Set_a 0.4429923648839117;
    Set_b 0.1530748903554898;
    Set_v 0.2167416581882652e-3;
    Call_gen_oh 6;
    Set_a 0.4774428052721736;
    Set_b 0.1851176436721877;
    Set_v 0.2206430730516600e-3;
    Call_gen_oh 6;
    Set_a 0.5107446539535904;
    Set_b 0.2170829107658179;
    Set_v 0.2237186938699523e-3;
    Call_gen_oh 6;
    Set_a 0.5428151370542935;
    Set_b 0.2487786689026271;
    Set_v 0.2260480075032884e-3;
    Call_gen_oh 6;
    Set_a 0.5735699292556964;
    Set_b 0.2800239952795016;
    Set_v 0.2277098884558542e-3;
    Call_gen_oh 6;
    Set_a 0.6029253794562866;
    Set_b 0.3106445702878119;
    Set_v 0.2287845715109671e-3;
    Call_gen_oh 6;
    Set_a 0.6307998987073145;
    Set_b 0.3404689500841194;
    Set_v 0.2293547268236294e-3;
    Call_gen_oh 6;
    Set_a 0.3752652273692719;
    Set_b 0.2997145098184479e-1;
    Set_v 0.2056073839852528e-3;
    Call_gen_oh 6;
    Set_a 0.4135383879344028;
    Set_b 0.6086725898678011e-1;
    Set_v 0.2114235865831876e-3;
    Call_gen_oh 6;
    Set_a 0.4506113885153907;
    Set_b 0.9238849548435643e-1;
    Set_v 0.2163175629770551e-3;
    Call_gen_oh 6;
    Set_a 0.4864401554606072;
    Set_b 0.1242786603851851;
    Set_v 0.2203392158111650e-3;
    Call_gen_oh 6;
    Set_a 0.5209708076611709;
    Set_b 0.1563086731483386;
    Set_v 0.2235473176847839e-3;
    Call_gen_oh 6;
    Set_a 0.5541422135830122;
    Set_b 0.1882696509388506;
    Set_v 0.2260024141501235e-3;
    Call_gen_oh 6;
    Set_a 0.5858880915113817;
    Set_b 0.2199672979126059;
    Set_v 0.2277675929329182e-3;
    Call_gen_oh 6;
    Set_a 0.6161399390603444;
    Set_b 0.2512165482924867;
    Set_v 0.2289102112284834e-3;
    Call_gen_oh 6;
    Set_a 0.6448296482255090;
    Set_b 0.2818368701871888;
    Set_v 0.2295027954625118e-3;
    Call_gen_oh 6;
    Set_a 0.4544796274917948;
    Set_b 0.3088970405060312e-1;
    Set_v 0.2161281589879992e-3;
    Call_gen_oh 6;
    Set_a 0.4919389072146628;
    Set_b 0.6240947677636835e-1;
    Set_v 0.2201980477395102e-3;
    Call_gen_oh 6;
    Set_a 0.5279313026985183;
    Set_b 0.9430706144280313e-1;
    Set_v 0.2234952066593166e-3;
    Call_gen_oh 6;
    Set_a 0.5624169925571135;
    Set_b 0.1263547818770374;
    Set_v 0.2260540098520838e-3;
    Call_gen_oh 6;
    Set_a 0.5953484627093287;
    Set_b 0.1583430788822594;
    Set_v 0.2279157981899988e-3;
    Call_gen_oh 6;
    Set_a 0.6266730715339185;
    Set_b 0.1900748462555988;
    Set_v 0.2291296918565571e-3;
    Call_gen_oh 6;
    Set_a 0.6563363204278871;
    Set_b 0.2213599519592567;
    Set_v 0.2297533752536649e-3;
    Call_gen_oh 6;
    Set_a 0.5314574716585696;
    Set_b 0.3152508811515374e-1;
    Set_v 0.2234927356465995e-3;
    Call_gen_oh 6;
    Set_a 0.5674614932298185;
    Set_b 0.6343865291465561e-1;
    Set_v 0.2261288012985219e-3;
    Call_gen_oh 6;
    Set_a 0.6017706004970264;
    Set_b 0.9551503504223951e-1;
    Set_v 0.2280818160923688e-3;
    Call_gen_oh 6;
    Set_a 0.6343471270264178;
    Set_b 0.1275440099801196;
    Set_v 0.2293773295180159e-3;
    Call_gen_oh 6;
    Set_a 0.6651494599127802;
    Set_b 0.1593252037671960;
    Set_v 0.2300528767338634e-3;
    Call_gen_oh 6;
    Set_a 0.6050184986005704;
    Set_b 0.3192538338496105e-1;
    Set_v 0.2281893855065666e-3;
    Call_gen_oh 6;
    Set_a 0.6390163550880400;
    Set_b 0.6402824353962306e-1;
    Set_v 0.2295720444840727e-3;
    Call_gen_oh 6;
    Set_a 0.6711199107088448;
    Set_b 0.9609805077002909e-1;
    Set_v 0.2303227649026753e-3;
    Call_gen_oh 6;
    Set_a 0.6741354429572275;
    Set_b 0.3211853196273233e-1;
    Set_v 0.2304831913227114e-3;
    Call_gen_oh 6 ].

Definition ld5294_body : list stmt :=
  [ Set_v 0.9080510764308163e-4;
    Call_gen_oh 1;
    Set_v 0.2084824361987793e-3;
    Call_gen_oh 3;
    Set_a 0.2303261686261450e-1;
    Set_v 0.5011105657239616e-4;
    Call_gen_oh 4;
    Set_a 0.3757208620162394e-1;
    Set_v 0.5942520409683854e-4;
    Call_gen_oh 4;
    Set_a 0.5821912033821852e-1;
    Set_v 0.9564394826109721e-4;
    Call_gen_oh 4;
    Set_a 0.8403127529194872e-1;
    Set_v 0.1185530657126338e-3;
    Call_gen_oh 4;
    Set_a 0.1122927798060578;
    Set_v 0.1364510114230331e-3;
    Call_gen_oh 4;
    Set_a 0.1420125319192987;
    Set_v 0.1505828825605415e-3;
    Call_gen_oh 4;
    Set_a 0.1726396437341978;
    Set_v 0.1619298749867023e-3;
    Call_gen_oh 4;
    Set_a 0.2038170058115696;
    Set_v 0.1712450504267789e-3;
    Call_gen_oh 4;
    Set_a 0.2352849892876508;
    Set_v 0.1789891098164999e-3;
    Call_gen_oh 4;
    Set_a 0.2668363354312461;
    Set_v 0.1854474955629795e-3;
    Call_gen_oh 4;
    Set_a 0.2982941279900452;
    Set_v 0.1908148636673661e-3;
    Call_gen_oh 4;
    Set_a 0.3295002922087076;
    Set_v 0.1952377405281833e-3;
    Call_gen_oh 4;
    Set_a 0.3603094918363593;
    Set_v 0.1988349254282232e-3;
    Call_gen_oh 4;
    Set_a 0.3905857895173920;
    Set_v 0.2017079807160050e-3;
    Call_gen_oh 4;
    Set_a 0.4202005758160837;
    Set_v 0.2039473082709094e-3;
    Call_gen_oh 4;
    Set_a 0.4490310061597227;
    Set_v 0.2056360279288953e-3;
    Call_gen_oh 4;
    Set_a 0.4769586160311491;
    Set_v 0.2068525823066865e-3;
    Call_gen_oh 4;
    Set_a 0.5038679887049750;
    Set_v 0.2076724877534488e-3;
    Call_gen_oh 4;
    Set_a 0.5296454286519961;
    Set_v 0.2081694278237885e-3;
    Call_gen_oh 4;
    Set_a 0.5541776207164850;
    Set_v 0.2084157631219326e-3;
    Call_gen_oh 4;
    Set_a 0.5990467321921213;
    Set_v 0.2084381531128593e-3;
    Call_gen_oh 4;
    Set_a 0.6191467096294587;
    Set_v 0.2083476277129307e-3;
    Call_gen_oh 4;
    Set_a 0.6375251212901849;
    Set_v 0.2082686194459732e-3;
    Call_gen_oh 4;
    Set_a 0.6540514381131168;
    Set_v 0.2082475686112415e-3;
    Call_gen_oh 4;
    Set_a 0.6685899064391510;
    Set_v 0.2083139860289915e-3;
    Call_gen_oh 4;
    Set_a 0.6810013009681648;
    Set_v 0.2084745561831237e-3;
    Call_gen_oh 4;
    Set_a 0.6911469578730340;
    Set_v 0.2087091313375890e-3;
    Call_gen_oh 4;
    Set_a 0.6988956915141736;
    Set_v 0.2089718413297697e-3;
    Call_gen_oh 4;
    Set_a 0.7041335794868720;
    Set_v 0.2092003303479793e-3;
    Call_gen_oh 4;
    Set_a 0.7067754398018567;
    Set_v 0.2093336148263241e-3;
    Call_gen_oh 4;
    Set_a 0.3840368707853623e-1;
    Set_v 0.7591708117365267e-4;
    Call_gen_oh 5;
    Set_a 0.9835485954117399e-1;
    Set_v 0.1083383968169186e-3;
    Call_gen_oh 5;
    Set_a 0.1665774947612998;
    Set_v 0.1403019395292510e-3;
    Call_gen_oh 5;
    Set_a 0.2405702335362910;
    Set_v 0.1615970179286436e-3;
    Call_gen_oh 5;
    Set_a 0.3165270770189046;
    Set_v 0.1771144187504911e-3;
    Call_gen_oh 5;
    Set_a 0.3927386145645443;
    Set_v 0.1887760022988168e-3;
    Call_gen_oh 5;
    Set_a 0.4678825918374656;
    Set_v 0.1973474670768214e-3;
    Call_gen_oh 5;
    Set_a 0.5408022024266935;
    Set_v 0.2033787661234659e-3;
    Call_gen_oh 5;
    Set_a 0.6104967445752438;
    Set_v 0.2072343626517331e-3;
    Call_gen_oh 5;
    Set_a 0.6760910702685738;
    Set_v 0.2091177834226918e-3;
    Call_gen_oh 5;
    Set_a 0.6655644120217392e-1;
    Set_b 0.1936508874588424e-1;
    Set_v 0.9316684484675566e-4;
    Call_gen_oh 6;
    Set_a 0.9446246161270182e-1;
    Set_b 0.4252442002115869e-1;
    Set_v 0.1116193688682976e-3;
    Call_gen_oh 6;
    Set_a 0.1242651925452509;
    Set_b 0.6806529315354374e-1;
    Set_v 0.1298623551559414e-3;
    Call_gen_oh 6;
    Set_a 0.1553438064846751;
    Set_b 0.9560957491205369e-1;
    Set_v 0.1450236832456426e-3;
    Call_gen_oh 6;
    Set_a 0.1871137110542670;
    Set_b 0.1245931657452888;
    Set_v 0.1572719958149914e-3;
    Call_gen_oh 6;
    Set_a 0.2192612628836257;
    Set_b 0.1545385828778978;
    Set_v 0.1673234785867195e-3;
    Call_gen_oh 6;
    Set_a 0.2515682807206955;
    Set_b 0.1851004249723368;
    Set_v 0.1756860118725188e-3;
    Call_gen_oh 6;
    Set_a 0.2838535866287290;
    Set_b 0.2160182608272384;
    Set_v 0.1826776290439367e-3;
    Call_gen_oh 6;
    Set_a 0.3159578817528521;
    Set_b 0.2470799012277111;
    Set_v 0.1885116347992865e-3;
    Call_gen_oh 6;
    Set_a 0.3477370882791392;
    Set_b 0.2781014208986402;
    Set_v 0.1933457860170574e-3;
    Call_gen_oh 6;
    Set_a 0.3790576960890540;
    Set_b 0.3089172523515731;
    Set_v 0.1973060671902064e-3;
    Call_gen_oh 6;
    Set_a 0.4097938317810200;
    Set_b 0.3393750055472244;
    Set_v 0.2004987099616311e-3;
    Call_gen_oh 6;
    Set_a 0.4398256572859637;
    Set_b 0.3693322470987730;
    Set_v 0.2030170909281499e-3;
    Call_gen_oh 6;
    Set_a 0.4690384114718480;
    Set_b 0.3986541005609877;
    Set_v 0.2049461460119080e-3;
    Call_gen_oh 6;
    Set_a 0.4973216048301053;
    Set_b 0.4272112491408562;
    Set_v 0.2063653565200186e-3;
    Call_gen_oh 6;
    Set_a 0.5245681526132446;
    Set_b 0.4548781735309936;
    Set_v 0.2073507927381027e-3;
    Call_gen_oh 6;
    Set_a 0.5506733911803888;
    Set_b 0.4815315355023251;
    Set_v 0.2079764593256122e-3;
    Call_gen_oh 6;
    Set_a 0.5755339829522475;
    Set_b 0.5070486445801855;
    Set_v 0.2083150534968778e-3;
    Call_gen_oh 6;
    Set_a 0.1305472386056362;
    Set_b 0.2284970375722366e-1;
    Set_v 0.1262715121590664e-3;
    Call_gen_oh 6;
    Set_a 0.1637327908216477;
    Set_b 0.4812254338288384e-1;
    Set_v 0.1414386128545972e-3;
    Call_gen_oh 6;
    Set_a 0.1972734634149637;
    Set_b 0.7531734457511935e-1;
    Set_v 0.1538740401313898e-3;
    Call_gen_oh 6;
    Set_a 0.2308694653110130;
    Set_b 0.1039043639882017;
    Set_v 0.1642434942331432e-3;
    Call_gen_oh 6;
    Set_a 0.2643899218338160;
    Set_b 0.1334526587117626;
    Set_v 0.1729790609237496e-3;
    Call_gen_oh 6;
    Set_a 0.2977171599622171;
    Set_b 0.1636414868936382;
    Set_v 0.1803505190260828e-3;
    Call_gen_oh 6;
    Set_a 0.3307293903032310;
    Set_b 0.1942195406166568;
    Set_v 0.1865475350079657e-3;
    Call_gen_oh 6;
    Set_a 0.3633069198219073;
    Set_b 0.2249752879943753;
    Set_v 0.1917182669679069e-3;
    Call_gen_oh 6;
    Set_a 0.3953346955922727;
    Set_b 0.2557218821820032;
    Set_v 0.1959851709034382e-3;
    Call_gen_oh 6;
    Set_a 0.4267018394184914;
    Set_b 0.2862897925213193;
    Set_v 0.1994529548117882e-3;
    Call_gen_oh 6;
    Set_a 0.4573009622571704;
    Set_b 0.3165224536636518;
    Set_v 0.2022138911146548e-3;
    Call_gen_oh 6;
    Set_a 0.4870279559856109;
    Set_b 0.3462730221636496;
    Set_v 0.2043518024208592e-3;
    Call_gen_oh 6;
    Set_a 0.5157819581450322;
    Set_b 0.3754016870282835;
    Set_v 0.2059450313018110e-3;
    Call_gen_oh 6;
    Set_a 0.5434651666465393;
    Set_b 0.4037733784993613;
    Set_v 0.2070685715318472e-3;
    Call_gen_oh 6;
    Set_a 0.5699823887764627;
    Set_b 0.4312557784139123;
    Set_v 0.2077955310694373e-3;
    Call_gen_oh 6;
    Set_a 0.5952403350947741;
    Set_b 0.4577175367122110;
    Set_v 0.2081980387824712e-3;
    Call_gen_oh 6;
    Set_a 0.2025152599210369;
    Set_b 0.2520253617719557e-1;
    Set_v 0.1521318610377956e-3;
    Call_gen_oh 6;
    Set_a 0.2381066653274425;
    Set_b 0.5223254506119000e-1;
    Set_v 0.1622772720185755e-3;
    Call_gen_oh 6;
    Set_a 0.2732823383651612;
    Set_b 0.8060669688588620e-1;
    Set_v 0.1710498139420709e-3;
    Call_gen_oh 6;
    Set_a 0.3080137692611118;
    Set_b 0.1099335754081255;
    Set_v 0.1785911149448736e-3;
    Call_gen_oh 6;
    Set_a 0.3422405614587601;
    Set_b 0.1399120955959857;
    Set_v 0.1850125313687736e-3;
    Call_gen_oh 6;
    Set_a 0.3758808773890420;
    Set_b 0.1702977801651705;
    Set_v 0.1904229703933298e-3;
    Call_gen_oh 6;
    Set_a 0.4088458383438932;
    Set_b 0.2008799256601680;
    Set_v 0.1949259956121987e-3;
    Call_gen_oh 6;
    Set_a 0.4410450550841152;
    Set_b 0.2314703052180836;
    Set_v 0.1986161545363960e-3;
    Call_gen_oh 6;
    Set_a 0.4723879420561312;
    Set_b 0.2618972111375892;
    Set_v 0.2015790585641370e-3;
    Call_gen_oh 6;
    Set_a 0.5027843561874343;
    Set_b 0.2920013195600270;
    Set_v 0.2038934198707418e-3;
    Call_gen_oh 6;
    Set_a 0.5321453674452458;
    Set_b 0.3216322555190551;
    Set_v 0.2056334060538251e-3;
    Call_gen_oh 6;
    Set_a 0.5603839113834030;
    Set_b 0.3506456615934198;
    Set_v 0.2068705959462289e-3;
    Call_gen_oh 6;
    Set_a 0.5874150706875146;
    Set_b 0.3789007181306267;
    Set_v 0.2076753906106002e-3;
    Call_gen_oh 6;
    Set_a 0.6131559381660038;
    Set_b 0.4062580170572782;
    Set_v 0.2081179391734803e-3;
    Call_gen_oh 6;
    Set_a 0.2778497016394506;
    Set_b 0.2696271276876226e-1;
    Set_v 0.1700345216228943e-3;
    Call_gen_oh 6;
    Set_a 0.3143733562261912;
    Set_b 0.5523469316960465e-1;
    Set_v 0.1774906779990410e-3;
    Call_gen_oh 6;
    Set_a 0.3501485810261827;
    Set_b 0.8445193201626464e-1;
    Set_v 0.1839659377002642e-3;
    Call_gen_oh 6;
    Set_a 0.3851430322303653;
    Set_b 0.1143263119336083;
    Set_v 0.1894987462975169e-3;
    Call_gen_oh 6;
    Set_a 0.4193013979470415;
    Set_b 0.1446177898344475;
    Set_v 0.1941548809452595e-3;
    Call_gen_oh 6;
    Set_a 0.4525585960458567;
    Set_b 0.1751165438438091;
    Set_v 0.1980078427252384e-3;
    Call_gen_oh 6;
    Set_a 0.4848447779622947;
    Set_b 0.2056338306745660;
    Set_v 0.2011296284744488e-3;
    Call_gen_oh 6;
    Set_a 0.5160871208276894;
    Set_b 0.2359965487229226;
    Set_v 0.2035888456966776e-3;
    Call_gen_oh 6;
    Set_a 0.5462112185696926;
    Set_b 0.2660430223139146;
    Set_v 0.2054516325352142e-3;
    Call_gen_oh 6;
    Set_a 0.5751425068101757;
    Set_b 0.2956193664498032;
    Set_v 0.2067831033092635e-3;
    Call_gen_oh 6;
    Set_a 0.6028073872853596;
    Set_b 0.3245763905312779;
    Set_v 0.2076485320284876e-3;
    Call_gen_oh 6;
    Set_a 0.6291338275278409;
    Set_b 0.3527670026206972;
    Set_v 0.2081141439525255e-3;
    Call_gen_oh 6;
    Set_a 0.3541797528439391;
    Set_b 0.2823853479435550e-1;
    Set_v 0.1834383015469222e-3;
    Call_gen_oh 6;
    Set_a 0.3908234972074657;
    Set_b 0.5741296374713106e-1;
    Set_v 0.1889540591777677e-3;
    Call_gen_oh 6;
    Set_a 0.4264408450107590;
    Set_b 0.8724646633650199e-1;
    Set_v 0.1936677023597375e-3;
    Call_gen_oh 6;
    Set_a 0.4609949666553286;
    Set_b 0.1175034422915616;
    Set_v 0.1976176495066504e-3;
    Call_gen_oh 6;
    Set_a 0.4944389496536006;
    Set_b 0.1479755652628428;
    Set_v 0.2008536004560983e-3;
    Call_gen_oh 6;
    Set_a 0.5267194884346086;
    Set_b 0.1784740659484352;
    Set_v 0.2034280351712291e-3;
    Call_gen_oh 6;
    Set_a 0.5577787810220990;
    Set_b 0.2088245700431244;
    Set_v 0.2053944466027758e-3;
    Call_gen_oh 6;
    Set_a 0.5875563763536670;
    Set_b 0.2388628136570763;
    Set_v 0.2068077642882360e-3;
    Call_gen_oh 6;
    Set_a 0.6159910016391269;
    Set_b 0.2684308928769185;
    Set_v 0.2077250949661599e-3;
    Call_gen_oh 6;
    Set_a 0.6430219602956268;
    Set_b 0.2973740761960252;
    Set_v 0.2082062440705320e-3;
    Call_gen_oh 6;
    Set_a 0.4300647036213646;
    Set_b 0.2916399920493977e-1;
    Set_v 0.1934374486546626e-3;
    Call_gen_oh 6;
    Set_a 0.4661486308935531;
    Set_b 0.5898803024755659e-1;
    Set_v 0.1974107010484300e-3;
    Call_gen_oh 6;
    Set_a 0.5009658555287261;
    Set_b 0.8924162698525409e-1;
    Set_v 0.2007129290388658e-3;
    Call_gen_oh 6;
    Set_a 0.5344824270447704;
    Set_b 0.1197185199637321;
    Set_v 0.2033736947471293e-3;
    Call_gen_oh 6;
    Set_a 0.5666575997416371;
    Set_b 0.1502300756161382;
    Set_v 0.2054287125902493e-3;
    Call_gen_oh 6;
    Set_a 0.5974457471404752;
    Set_b 0.1806004191913564;
    Set_v 0.2069184936818894e-3;
    Call_gen_oh 6;
    Set_a 0.6267984444116886;
    Set_b 0.2106621764786252;
    Set_v 0.2078883689808782e-3;
    Call_gen_oh 6;
    Set_a 0.6546664713575417;
    Set_b 0.2402526932671914;
    Set_v 0.2083886366116359e-3;
    Call_gen_oh 6;
    Set_a 0.5042711004437253;
    Set_b 0.2982529203607657e-1;
    Set_v 0.2006593275470817e-3;
    Call_gen_oh 6;
    Set_a 0.5392127456774380;
    Set_b 0.6008728062339922e-1;
    Set_v 0.2033728426135397e-3;
    Call_gen_oh 6;
    Set_a 0.5726819437668618;
    Set_b 0.9058227674571398e-1;
    Set_v 0.2055008781377608e-3;
    Call_gen_oh 6;
    Set_a 0.6046469254207278;
    Set_b 0.1211219235803400;
    Set_v 0.2070651783518502e-3;
    Call_gen_oh 6;
    Set_a 0.6350716157434952;
    Set_b 0.1515286404791580;
    Set_v 0.2080953335094320e-3;
    Call_gen_oh 6;
    Set_a 0.6639177679185454;
    Set_b 0.1816314681255552;
    Set_v 0.2086284998988521e-3;
    Call_gen_oh 6;
    Set_a 0.5757276040972253;
    Set_b 0.3026991752575440e-1;
    Set_v 0.2055549387644668e-3;
    Call_gen_oh 6;
    Set_a 0.6090265823139755;
    Set_b 0.6078402297870770e-1;
    Set_v 0.2071871850267654e-3;
    Call_gen_oh 6;
    Set_a 0.6406735344387661;
    Set_b 0.9135459984176636e-1;
    Set_v 0.2082856600431965e-3;
    Call_gen_oh 6;
    Set_a 0.6706397927793709;
    Set_b 0.1218024155966590;
    Set_v 0.2088705858819358e-3;
    Call_gen_oh 6;
    Set_a 0.6435019674426665;
    Set_b 0.3052608357660639e-1;
    Set_v 0.2083995867536322e-3;
    Call_gen_oh 6;
    Set_a 0.6747218676375681;
    Set_b 0.6112185773983089e-1;
    Set_v 0.2090509712889637e-3;
    Call_gen_oh 6 ].

Definition ld5810_body : list stmt :=
  [ Set_v 0.9735347946175486e-5;
    Call_gen_oh 1;
    Set_v 0.1907581241803167e-3;
    Call_gen_oh 2;
    Set_v 0.1901059546737578e-3;
    Call_gen_oh 3;
    Set_a 0.1182361662400277e-1;
    Set_v 0.3926424538919212e-4;
    Call_gen_oh 4;
    Set_a 0.3062145009138958e-1;
    Set_v 0.6667905467294382e-4;
    Call_gen_oh 4;
    Set_a 0.5329794036834243e-1;
    Set_v 0.8868891315019135e-4;
    Call_gen_oh 4;
    Set_a 0.7848165532862220e-1;
    Set_v 0.1066306000958872e-3;
    Call_gen_oh 4;
    Set_a 0.1054038157636201;
    Set_v 0.1214506743336128e-3;
    Call_gen_oh 4;
    Set_a 0.1335577797766211;
    Set_v 0.1338054681640871e-3;
    Call_gen_oh 4;
    Set_a 0.1625769955502252;
    Set_v 0.1441677023628504e-3;
    Call_gen_oh 4;
    Set_a 0.1921787193412792;
    Set_v 0.1528880200826557e-3;
    Call_gen_oh 4;
    Set_a 0.2221340534690548;
    Set_v 0.1602330623773609e-3;
    Call_gen_oh 4;
    Set_a 0.2522504912791132;
    Set_v 0.1664102653445244e-3;
    Call_gen_oh 4;
    Set_a 0.2823610860679697;
    Set_v 0.1715845854011323e-3;
    Call_gen_oh 4;
    Set_a 0.3123173966267560;
    Set_v 0.1758901000133069e-3;
    Call_gen_oh 4;
    Set_a 0.3419847036953789;
    Set_v 0.1794382485256736e-3;
    Call_gen_oh 4;
    Set_a 0.3712386456999758;
    Set_v 0.1823238106757407e-3;
    Call_gen_oh 4;
    Set_a 0.3999627649876828;
    Set_v 0.1846293252959976e-3;
    Call_gen_oh 4;
    Set_a 0.4280466458648093;
    Set_v 0.1864284079323098e-3;
    Call_gen_oh 4;
    Set_a 0.4553844360185711;
    Set_v 0.1877882694626914e-3;
    Call_gen_oh 4;
    Set_a 0.4818736094437834;
    Set_v 0.1887716321852025e-3;
    Call_gen_oh 4;
    Set_a 0.5074138709260629;
    Set_v 0.1894381638175673e-3;
    Call_gen_oh 4;
    Set_a 0.5319061304570707;
    Set_v 0.1898454899533629e-3;
    Call_gen_oh 4;
    Set_a 0.5552514978677286;
    Set_v 0.1900497929577815e-3;
    Call_gen_oh 4;
    Set_a 0.5981009025246183;
    Set_v 0.1900671501924092e-3;
    Call_gen_oh 4;
    Set_a 0.6173990192228116;
    Set_v 0.1899837555533510e-3;
    Call_gen_oh 4;
    Set_a 0.6351365239411131;
    Set_v 0.1899014113156229e-3;
    Call_gen_oh 4;
    Set_a 0.6512010228227200;
    Set_v 0.1898581257705106e-3;
    Call_gen_oh 4;
    Set_a 0.6654758363948120;
    Set_v 0.1898804756095753e-3;
    Call_gen_oh 4;
    Set_a 0.6778410414853370;
    Set_v 0.1899793610426402e-3;
    Call_gen_oh 4;
    Set_a 0.6881760887484110;
    Set_v 0.1901464554844117e-3;
    Call_gen_oh 4;
    Set_a 0.6963645267094598;
    Set_v 0.1903533246259542e-3;
    Call_gen_oh 4;
    Set_a 0.7023010617153579;
    Set_v 0.1905556158463228e-3;
    Call_gen_oh 4;
    Set_a 0.7059004636628753;
    Set_v 0.1907037155663528e-3;
    Call_gen_oh 4;
    Set_a 0.3552470312472575e-1;
    Set_v 0.5992997844249967e-4;
    Call_gen_oh 5;
    Set_a 0.9151176620841283e-1;
    Set_v 0.9749059382456978e-4;
    Call_gen_oh 5;
    Set_a 0.1566197930068980;
    Set_v 0.1241680804599158e-3;
    Call_gen_oh 5;
    Set_a 0.2265467599271907;
    Set_v 0.1437626154299360e-3;
    Call_gen_oh 5;
    Set_a 0.2988242318581361;
    Set_v 0.1584200054793902e-3;
    Call_gen_oh 5;
    Set_a 0.3717482419703886;
    Set_v 0.1694436550982744e-3;
    Call_gen_oh 5;
    Set_a 0.4440094491758889;
    Set_v 0.1776617014018108e-3;
    Call_gen_oh 5;
    Set_a 0.5145337096756642;
    Set_v 0.1836132434440077e-3;
    Call_gen_oh 5;
    Set_a 0.5824053672860230;
    Set_v 0.1876494727075983e-3;
    Call_gen_oh 5;
    Set_a 0.6468283961043370;
    Set_v 0.1899906535336482e-3;
    Call_gen_oh 5;
    Set_a 0.6095964259104373e-1;
    Set_b 0.1787828275342931e-1;
    Set_v 0.8143252820767350e-4;
    Call_gen_oh 6;
    Set_a 0.8811962270959388e-1;
    Set_b 0.3953888740792096e-1;
    Set_v 0.9998859890887728e-4;
    Call_gen_oh 6;
    Set_a 0.1165936722428831;
    Set_b 0.6378121797722990e-1;
    Set_v 0.1156199403068359e-3;
    Call_gen_oh 6;
    Set_a 0.1460232857031785;
    Set_b 0.8985890813745037e-1;
    Set_v 0.1287632092635513e-3;
    Call_gen_oh 6;
    Set_a 0.1761197110181755;
    Set_b 0.1172606510576162;
    Set_v 0.1398378643365139e-3;
    Call_gen_oh 6;
    Set_a 0.2066471190463718;
    Set_b 0.1456102876970995;
    Set_v 0.1491876468417391e-3;
    Call_gen_oh 6;
    Set_a 0.2374076026328152;
    Set_b 0.1746153823011775;
    Set_v 0.1570855679175456e-3;
    Call_gen_oh 6;
    Set_a 0.2682305474337051;
    Set_b 0.2040383070295584;
    Set_v 0.1637483948103775e-3;
    Call_gen_oh 6;
    Set_a 0.2989653312142369;
    Set_b 0.2336788634003698;
    Set_v 0.1693500566632843e-3;
    Call_gen_oh 6;
    Set_a 0.3294762752772209;
    Set_b 0.2633632752654219;
    Set_v 0.1740322769393633e-3;
    Call_gen_oh 6;
    Set_a 0.3596390887276086;
    Set_b 0.2929369098051601;
    Set_v 0.1779126637278296e-3;
    Call_gen_oh 6;
    Set_a 0.3893383046398812;
    Set_b 0.3222592785275512;
    Set_v 0.1810908108835412e-3;
    Call_gen_oh 6;
    Set_a 0.4184653789358347;
    Set_b 0.3512004791195743;
    Set_v 0.1836529132600190e-3;
    Call_gen_oh 6;
    Set_a 0.4469172319076166;
    Set_b 0.3796385677684537;
    Set_v 0.1856752841777379e-3;
    Call_gen_oh 6;
    Set_a 0.4745950813276976;
    Set_b 0.4074575378263879;
    Set_v 0.1872270566606832e-3;
    Call_gen_oh 6;
    Set_a 0.5014034601410262;
    Set_b 0.4345456906027828;
    Set_v 0.1883722645591307e-3;
    Call_gen_oh 6;
    Set_a 0.5272493404551239;
    Set_b 0.4607942515205134;
    Set_v 0.1891714324525297e-3;
    Call_gen_oh 6;
    Set_a 0.5520413051846366;
    Set_b 0.4860961284181720;
    Set_v 0.1896827480450146e-3;
    Call_gen_oh 6;
    Set_a 0.5756887237503077;
    Set_b 0.5103447395342790;
    Set_v 0.1899628417059528e-3;
    Call_gen_oh 6;
    Set_a 0.1225039430588352;
    Set_b 0.2136455922655793e-1;
    Set_v 0.1123301829001669e-3;
    Call_gen_oh 6;
    Set_a 0.1539113217321372;
    Set_b 0.4520926166137188e-1;
    Set_v 0.1253698826711277e-3;
    Call_gen_oh 6;
    Set_a 0.1856213098637712;
    Set_b 0.7086468177864818e-1;
    Set_v 0.1366266117678531e-3;
    Call_gen_oh 6;
    Set_a 0.2174998728035131;
    Set_b 0.9785239488772918e-1;
    Set_v 0.1462736856106918e-3;
    Call_gen_oh 6;
    Set_a 0.2494128336938330;
    Set_b 0.1258106396267210;
    Set_v 0.1545076466685412e-3;
    Call_gen_oh 6;
    Set_a 0.2812321562143480;
    Set_b 0.1544529125047001;
    Set_v 0.1615096280814007e-3;
    Call_gen_oh 6;
    Set_a 0.3128372276456111;
    Set_b 0.1835433512202753;
    Set_v 0.1674366639741759e-3;
    Call_gen_oh 6;
    Set_a 0.3441145160177973;
    Set_b 0.2128813258619585;
    Set_v 0.1724225002437900e-3;
    Call_gen_oh 6;
    Set_a 0.3749567714853510;
    Set_b 0.2422913734880829;
    Set_v 0.1765810822987288e-3;
    Call_gen_oh 6;
    Set_a 0.4052621732015610;
    Set_b 0.2716163748391453;
    Set_v 0.1800104126010751e-3;
    Call_gen_oh 6;
    Set_a 0.4349335453522385;
    Set_b 0.3007127671240280;
    Set_v 0.1827960437331284e-3;
    Call_gen_oh 6;
    Set_a 0.4638776641524965;
    Set_b 0.3294470677216479;
    Set_v 0.1850140300716308e-3;
    Call_gen_oh 6;
    Set_a 0.4920046410462687;
    Set_b 0.3576932543699155;
    Set_v 0.1867333507394938e-3;
    Call_gen_oh 6;
    Set_a 0.5192273554861704;
    Set_b 0.3853307059757764;
    Set_v 0.1880178688638289e-3;
    Call_gen_oh 6;
    Set_a 0.5454609081136522;
    Set_b 0.4122425044452694;
    Set_v 0.1889278925654758e-3;
    Call_gen_oh 6;
    Set_a 0.5706220661424140;
    Set_b 0.4383139587781027;
    Set_v 0.1895213832507346e-3;
    Call_gen_oh 6;
    Set_a 0.5946286755181518;
    Set_b 0.4634312536300553;
    Set_v 0.1898548277397420e-3;
    Call_gen_oh 6;
    Set_a 0.1905370790924295;
    Set_b 0.2371311537781979e-1;
    Set_v 0.1349105935937341e-3;
    Call_gen_oh 6;
    Set_a 0.2242518717748009;
    Set_b 0.4917878059254806e-1;
    Set_v 0.1444060068369326e-3;
    Call_gen_oh 6;
    Set_a 0.2577190808025936;
    Set_b 0.7595498960495142e-1;
    Set_v 0.1526797390930008e-3;
    Call_gen_oh 6;
    Set_a 0.2908724534927187;
    Set_b 0.1036991083191100;
    Set_v 0.1598208771406474e-3;
    Call_gen_oh 6;
    Set_a 0.3236354020056219;
    Set_b 0.1321348584450234;
    Set_v 0.1659354368615331e-3;
    Call_gen_oh 6;
    Set_a 0.3559267359304543;
    Set_b 0.1610316571314789;
    Set_v 0.1711279910946440e-3;
    Call_gen_oh 6;
    Set_a 0.3876637123676956;
    Set_b 0.1901912080395707;
    Set_v 0.1754952725601440e-3;
    Call_gen_oh 6;
    Set_a 0.4187636705218842;
    Set_b 0.2194384950137950;
    Set_v 0.1791247850802529e-3;
    Call_gen_oh 6;
    Set_a 0.4491449019883107;
    Set_b 0.2486155334763858;
    Set_v 0.1820954300877716e-3;
    Call_gen_oh 6;
    Set_a 0.4787270932425445;
    Set_b 0.2775768931812335;
    Set_v 0.1844788524548449e-3;
    Call_gen_oh 6;
    Set_a 0.5074315153055574;
    Set_b 0.3061863786591120;
    Set_v 0.1863409481706220e-3;
    Call_gen_oh 6;
    Set_a 0.5351810507738336;
    Set_b 0.3343144718152556;
    Set_v 0.1877433008795068e-3;
    Call_gen_oh 6;
    Set_a 0.5619001025975381;
    Set_b 0.3618362729028427;
    Set_v 0.1887444543705232e-3;
    Call_gen_oh 6;
    Set_a 0.5875144035268046;
    Set_b 0.3886297583620408;
    Set_v 0.1894009829375006e-3;
    Call_gen_oh 6;
    Set_a 0.6119507308734495;
    Set_b 0.4145742277792031;
    Set_v 0.1897683345035198e-3;
    Call_gen_oh 6;
    Set_a 0.2619733870119463;
    Set_b 0.2540047186389353e-1;
    Set_v 0.1517327037467653e-3;
    Call_gen_oh 6;
    Set_a 0.2968149743237949;
    Set_b 0.5208107018543989e-1;
    Set_v 0.1587740557483543e-3;
    Call_gen_oh 6;
    Set_a 0.3310451504860488;
    Set_b 0.7971828470885599e-1;
    Set_v 0.1649093382274097e-3;
    Call_gen_oh 6;
    Set_a 0.3646215567376676;
    Set_b 0.1080465999177927;
    Set_v 0.1701915216193265e-3;
    Call_gen_oh 6;
    Set_a 0.3974916785279360;
    Set_b 0.1368413849366629;
    Set_v 0.1746847753144065e-3;
    Call_gen_oh 6;
    Set_a 0.4295967403772029;
    Set_b 0.1659073184763559;
    Set_v 0.1784555512007570e-3;
    Call_gen_oh 6;
    Set_a 0.4608742854473447;
    Set_b 0.1950703730454614;
    Set_v 0.1815687562112174e-3;
    Call_gen_oh 6;
    Set_a 0.4912598858949903;
    Set_b 0.2241721144376724;
    Set_v 0.1840864370663302e-3;
    Call_gen_oh 6;
    Set_a 0.5206882758945558;
    Set_b 0.2530655255406489;
    Set_v 0.1860676785390006e-3;
    Call_gen_oh 6;
    Set_a 0.5490940914019819;
    Set_b 0.2816118409731066;
    Set_v 0.1875690583743703e-3;
    Call_gen_oh 6;
    Set_a 0.5764123302025542;
    Set_b 0.3096780504593238;
    Set_v 0.1886453236347225e-3;
    Call_gen_oh 6;
    Set_a 0.6025786004213506;
    Set_b 0.3371348366394987;
    Set_v 0.1893501123329645e-3;
    Call_gen_oh 6;
    Set_a 0.6275291964794956;
    Set_b 0.3638547827694396;
    Set_v 0.1897366184519868e-3;
    Call_gen_oh 6;
    Set_a 0.3348189479861771;
    Set_b 0.2664841935537443e-1;
    Set_v 0.1643908815152736e-3;
    Call_gen_oh 6;
    Set_a 0.3699515545855295;
    Set_b 0.5424000066843495e-1;
    Set_v 0.1696300350907768e-3;
    Call_gen_oh 6;
    Set_a 0.4042003071474669;
    Set_b 0.8251992715430854e-1;
    Set_v 0.1741553103844483e-3;
    Call_gen_oh 6;
    Set_a 0.4375320100182624;
    Set_b 0.1112695182483710;
    Set_v 0.1780015282386092e-3;
    Call_gen_oh 6;
    Set_a 0.4699054490335947;
    Set_b 0.1402964116467816;
    Set_v 0.1812116787077125e-3;
    Call_gen_oh 6;
    Set_a 0.5012739879431952;
    Set_b 0.1694275117584291;
    Set_v 0.1838323158085421e-3;
    Call_gen_oh 6;
    Set_a 0.5315874883754966;
    Set_b 0.1985038235312689;
    Set_v 0.1859113119837737e-3;
    Call_gen_oh 6;
    Set_a 0.5607937109622117;
    Set_b 0.2273765660020893;
    Set_v 0.1874969220221698e-3;
    Call_gen_oh 6;
    Set_a 0.5888393223495521;
    Set_b 0.2559041492849764;
    Set_v 0.1886375612681076e-3;
    Call_gen_oh 6;
    Set_a 0.6156705979160163;
    Set_b 0.2839497251976899;
    Set_v 0.1893819575809276e-3;
    Call_gen_oh 6;
    Set_a 0.6412338809078123;
    Set_b 0.3113791060500690;
    Set_v 0.1897794748256767e-3;
    Call_gen_oh 6;
    Set_a 0.4076051259257167;
    Set_b 0.2757792290858463e-1;
    Set_v 0.1738963926584846e-3;
    Call_gen_oh 6;
    Set_a 0.4423788125791520;
    Set_b 0.5584136834984293e-1;
    Set_v 0.1777442359873466e-3;
    Call_gen_oh 6;
    Set_a 0.4760480917328258;
    Set_b 0.8457772087727143e-1;
    Set_v 0.1810010815068719e-3;
    Call_gen_oh 6;
    Set_a 0.5085838725946297;
    Set_b 0.1135975846359248;
    Set_v 0.1836920318248129e-3;
    Call_gen_oh 6;
    Set_a 0.5399513637391218;
    Set_b 0.1427286904765053;
    Set_v 0.1858489473214328e-3;
    Call_gen_oh 6;
    Set_a 0.5701118433636380;
    Set_b 0.1718112740057635;
    Set_v 0.1875079342496592e-3;
    Call_gen_oh 6;
    Set_a 0.5990240530606021;
    Set_b 0.2006944855985351;
    Set_v 0.1887080239102310e-3;
    Call_gen_oh 6;
    Set_a 0.6266452685139695;
    Set_b 0.2292335090598907;
    Set_v 0.1894905752176822e-3;
    Call_gen_oh 6;
    Set_a 0.6529320971415942;
    Set_b 0.2572871512353714;
    Set_v 0.1898991061200695e-3;
    Call_gen_oh 6;
    Set_a 0.4791583834610126;
    Set_b 0.2826094197735932e-1;
    Set_v 0.1809065016458791e-3;
    Call_gen_oh 6;
    Set_a 0.5130373952796940;
    Set_b 0.5699871359683649e-1;
    Set_v 0.1836297121596799e-3;
    Call_gen_oh 6;
    Set_a 0.5456252429628476;
    Set_b 0.8602712528554394e-1;
    Set_v 0.1858426916241869e-3;
    Call_gen_oh 6;
    Set_a 0.5768956329682385;
    Set_b 0.1151748137221281;
    Set_v 0.1875654101134641e-3;
    Call_gen_oh 6;
    Set_a 0.6068186944699046;
    Set_b 0.1442811654136362;
    Set_v 0.1888240751833503e-3;
    Call_gen_oh 6;
    Set_a 0.6353622248024907;
    Set_b 0.1731930321657680;
    Set_v 0.1896497383866979e-3;
    Call_gen_oh 6;
    Set_a 0.6624927035731797;
    Set_b 0.2017619958756061;
    Set_v 0.1900775530219121e-3;
    Call_gen_oh 6;
    Set_a 0.5484933508028488;
    Set_b 0.2874219755907391e-1;
    Set_v 0.1858525041478814e-3;
    Call_gen_oh 6;
    Set_a 0.5810207682142106;
    Set_b 0.5778312123713695e-1;
    Set_v 0.1876248690077947e-3;
    Call_gen_oh 6;
    Set_a 0.6120955197181352;
    Set_b 0.8695262371439526e-1;
    Set_v 0.1889404439064607e-3;
    Call_gen_oh 6;
    Set_a 0.6416944284294319;
    Set_b 0.1160893767057166;
    Set_v 0.1898168539265290e-3;
    Call_gen_oh 6;
    Set_a 0.6697926391731260;
    Set_b 0.1450378826743251;
    Set_v 0.1902779940661772e-3;
    Call_gen_oh 6;
    Set_a 0.6147594390585488;
    Set_b 0.2904957622341456e-1;
    Set_v 0.1890125641731815e-3;
    Call_gen_oh 6;
    Set_a 0.6455390026356783;
    Set_b 0.5823809152617197e-1;
    Set_v 0.1899434637795751e-3;
    Call_gen_oh 6;
    Set_a 0.6747258588365477;
    Set_b 0.8740384899884715e-1;
    Set_v 0.1904520856831751e-3;
    Call_gen_oh 6;
    Set_a 0.6772135750395347;
    Set_b 0.2919946135808105e-1;
    Set_v 0.1905534498734563e-3;
    Call_gen_oh 6 ].

Section Rules.
Context {F : Type} {D : DoubleOps F}.

Definition ld0006 : M F Z := ld ld0006_body.
Definition ld0014 : M F Z := ld ld0014_body.
Definition ld0026 : M F Z := ld ld0026_body.
Definition ld0038 : M F Z := ld ld0038_body.
Definition ld0050 : M F Z := ld ld0050_body.
Definition ld0074 : M F Z := ld ld0074_body.
Definition ld0086 : M F Z := ld ld0086_body.
Definition ld0110 : M F Z := ld ld0110_body.
Definition ld0146 : M F Z := ld ld0146_body.
Definition ld0170 : M F Z := ld ld0170_body.
Definition ld0194 : M F Z := ld ld0194_body.
Definition ld0230 : M F Z := ld ld0230_body.
Definition ld0266 : M F Z := ld ld0266_body.
Definition ld0302 : M F Z := ld ld0302_body.
Definition ld0350 : M F Z := ld ld0350_body.
Definition ld0434 : M F Z := ld ld0434_body.
Definition ld0590 : M F Z := ld ld0590_body.
Definition ld0770 : M F Z := ld ld0770_body.
Definition ld0974 : M F Z := ld ld0974_body.
Definition ld1202 : M F Z := ld ld1202_body.
Definition ld1454 : M F Z := ld ld1454_body.
Definition ld1730 : M F Z := ld ld1730_body.
Definition ld2030 : M F Z := ld ld2030_body.
Definition ld2354 : M F Z := ld ld2354_body.
Definition ld2702 : M F Z := ld ld2702_body.
Definition ld3074 : M F Z := ld ld3074_body.
Definition ld3470 : M F Z := ld ld3470_body.
Definition ld3890 : M F Z := ld ld3890_body.
Definition ld4334 : M F Z := ld ld4334_body.
Definition ld4802 : M F Z := ld ld4802_body.
Definition ld5294 : M F Z := ld ld5294_body.
Definition ld5810 : M F Z := ld ld5810_body.

(** [int n = 0; if (order == 6) { n = ld0006(x, y, z, w); } else if ...
    else { fprintf(stderr, ...); } return n;] *)
Definition leb_order_routing (order : Z) : M F Z :=
  if order =? 6 then ld0006
  else if order =? 14 then ld0014
  else if order =? 26 then ld0026
  else if order =? 38 then ld0038
  else if order =? 50 then ld0050
  else if order =? 74 then ld0074
  else if order =? 86 then ld0086
  else if order =? 110 then ld0110
  else if order =? 146 then ld0146
  else if order =? 170 then ld0170
  else if order =? 194 then ld0194
  else if order =? 230 then ld0230
  else if order =? 266 then ld0266
  else if order =? 302 then ld0302
  else if order =? 350 then ld0350
  else if order =? 434 then ld0434
  else if order =? 590 then ld0590
  else if order =? 770 then ld0770
  else if order =? 974 then ld0974
  else if order =? 1202 then ld1202
  else if order =? 1454 then ld1454
  else if order =? 1730 then ld1730
  else if order =? 2030 then ld2030
  else if order =? 2354 then ld2354
  else if order =? 2702 then ld2702
  else if order =? 3074 then ld3074
  else if order =? 3470 then ld3470
  else if order =? 3890 then ld3890
  else if order =? 4334 then ld4334
  else if order =? 4802 then ld4802
  else if order =? 5294 then ld5294
  else if order =? 5810 then ld5810
  else bind (fprintf_stderr ld_by_order_message) (fun _ => ret 0).

End Rules.

(** ** Reference definitions

    What a run leaves in the arrays, described without running it. *)

Section Reference.
Context {F : Type} {D : DoubleOps F}.

(** A quadrature node with its weight. *)
Record point : Type := Pt { px : F; py : F; pz : F; pw : F }.

(** [blit l p vs] overwrites [l] from index [p] on with [vs]. *)
Fixpoint blit (l : list F) (p : nat) (vs : list F) : list F :=
  match vs with
  | [] => l
  | v :: rest => blit (<[p := v]> l) (S p) rest
  end.

(** The state after the points [pts] have been stored at [p], [p+1], ... *)
Definition write_block (s : state F) (p : Z) (pts : list point) : state F :=
  State (blit (xs s) (Z.to_nat p) (map px pts))
        (blit (ys s) (Z.to_nat p) (map py pts))
        (blit (zs s) (Z.to_nat p) (map pz pts))
        (blit (ws s) (Z.to_nat p) (map pw pts))
        (stderr s).

(** The state after [msg] has been printed. *)
Definition report (s : state F) (msg : string) : state F :=
  State (xs s) (ys s) (zs s) (ws s) (stderr s ++ [msg]).

(** Each array has room for [n] entries from index [p] on. *)
Definition fits (s : state F) (p n : Z) : Prop :=
  0 <= p /\ forall arr, p + n <= Z.of_nat (length (get arr s)).

(** The store groups that write [pts] at indices 0, 1, 2, ... *)
Definition indexed (pts : list point) : list (row F) :=
  imap (fun i q => (Z.of_nat i, px q, py q, pz q, pw q)) pts.

(** Sign changes of one, two and three coordinates, the first coordinate
    changing fastest. *)
Definition flips1 (mk : F -> point) (t : F) : list point :=
  [mk t; mk (fneg t)].

Definition flips2 (mk : F -> F -> point) (t u : F) : list point :=
  [mk t u; mk (fneg t) u; mk t (fneg u); mk (fneg t) (fneg u)].

Definition flips3 (v : F) (t : F * F * F) : list point :=
  let '(x, y, z) := t in
  flips2 (fun x' y' => Pt x' y' z v) x y ++
  flips2 (fun x' y' => Pt x' y' (fneg z) v) x y.

(** The six arrangements of three magnitudes on the axes. *)
Definition arrangements (a b c : F) : list (F * F * F) :=
  [(a, b, c); (a, c, b); (b, a, c); (b, c, a); (c, a, b); (c, b, a)].

(** The orbit of each symmetry class: axis points, face diagonals, body
    diagonals, and the patterns (a,a,b), (a,b,0) and (a,b,c). *)
Definition orbit1 (v : F) : list point :=
  let a := lit 1.0 in
  flips1 (fun t => Pt t (lit 0) (lit 0) v) a ++
  flips1 (fun t => Pt (lit 0) t (lit 0) v) a ++
  flips1 (fun t => Pt (lit 0) (lit 0) t v) a.

Definition orbit2 (v : F) : list point :=
  let a := fsqrt (lit 0.5) in
  flips2 (fun t u => Pt (lit 0) t u v) a a ++
  flips2 (fun t u => Pt t (lit 0) u v) a a ++
  flips2 (fun t u => Pt t u (lit 0) v) a a.

Definition orbit3 (v : F) : list point :=
  let a := fsqrt (fdiv (lit 1.0) (lit 3.0)) in
  flips3 v (a, a, a).

Definition orbit4 (a v : F) : list point :=
  let b := fsqrt (fsub (lit 1.0) (fmul (fmul (lit 2.0) a) a)) in
  flips3 v (a, a, b) ++ flips3 v (a, b, a) ++ flips3 v (b, a, a).

Definition orbit5 (a v : F) : list point :=
  let b := fsqrt (fsub (lit 1.0) (fmul a a)) in
  flips2 (fun t u => Pt t u (lit 0) v) a b ++
  flips2 (fun t u => Pt t u (lit 0) v) b a ++
  flips2 (fun t u => Pt t (lit 0) u v) a b ++
  flips2 (fun t u => Pt t (lit 0) u v) b a ++
  flips2 (fun t u => Pt (lit 0) t u v) a b ++
  flips2 (fun t u => Pt (lit 0) t u v) b a.

Definition orbit6 (a b v : F) : list point :=
  let c := fsqrt (fsub (fsub (lit 1.0) (fmul a a)) (fmul b b)) in
  flat_map (flips3 v) (arrangements a b c).

(** The coordinate or weight of a node that goes to array [arr]. *)
Definition coord (arr : array) (q : point) : F :=
  match arr with AX => px q | AY => py q | AZ => pz q | AW => pw q end.

Definition valid_code (code : Z) : Prop := 1 <= code <= 6.

(** The points of a call, none for an illegal code. *)
Definition orbit (code : Z) (a b v : F) : list point :=
  if code =? 1 then orbit1 v
  else if code =? 2 then orbit2 v
  else if code =? 3 then orbit3 v
  else if code =? 4 then orbit4 a v
  else if code =? 5 then orbit5 a v
  else if code =? 6 then orbit6 a b v
  else [].

(** What [gen_oh] returns. *)
Definition gen_oh_result (code : Z) : Z :=
  if code =? 1 then 6
  else if code =? 2 then 12
  else if code =? 3 then 8
  else if code =? 4 then 24
  else if code =? 5 then 24
  else if code =? 6 then 48
  else 1.

(** The sum of the values the calls of a body return. *)
Fixpoint total (body : list stmt) : Z :=
  match body with
  | [] => 0
  | Call_gen_oh code :: rest => gen_oh_result code + total rest
  | _ :: rest => total rest
  end.

Definition is_set (v : option F) : bool :=
  match v with Some _ => true | None => false end.

(** Every call has a legal code and happens after [v] is assigned;
    [vset] tells whether [v] holds a value on entry. *)
Fixpoint well_formed (vset : bool) (body : list stmt) : bool :=
  match body with
  | [] => true
  | Set_v _ :: rest => well_formed true rest
  | Call_gen_oh code :: rest =>
      vset && (1 <=? code) && (code <=? 6) && well_formed vset rest
  | _ :: rest => well_formed vset rest
  end.

(** The points a body generates, in the order of its calls. *)
Fixpoint points (body : list stmt) (a b : F) (v : option F) : list point :=
  match body with
  | [] => []
  | Set_a c :: rest => points rest (lit c) b v
  | Set_b c :: rest => points rest a (lit c) v
  | Set_v c :: rest => points rest a b (Some (lit c))
  | Call_gen_oh code :: rest =>
      match v with
      | Some v' => orbit code a b v'
      | None => []
      end ++ points rest a b v
  end.

(** The points of a rule routine. *)
Definition rule_points (body : list stmt) : list point :=
  points body (lit 0.0) (lit 0.0) None.

(** The calls of a body: how many points each returns, and their weight. *)
Fixpoint calls (body : list stmt) (v : option F) : list (nat * F) :=
  match body with
  | [] => []
  | Set_v c :: rest => calls rest (Some (lit c))
  | Call_gen_oh code :: rest =>
      match v with
      | Some v' => [(Z.to_nat (gen_oh_result code), v')]
      | None => []
      end ++ calls rest v
  | _ :: rest => calls rest v
  end.

(** The weights of the points of these calls, one after the other. *)
Definition spread (cs : list (nat * F)) : list F :=
  flat_map (fun c => replicate (fst c) (snd c)) cs.

End Reference.

Arguments point F : clear implicits.

(** The routines by the number of points their name announces. *)
Definition rule_bodies : list (Z * list stmt) :=
  [ (6, ld0006_body); (14, ld0014_body); (26, ld0026_body);
    (38, ld0038_body); (50, ld0050_body); (74, ld0074_body);
    (86, ld0086_body); (110, ld0110_body); (146, ld0146_body);
    (170, ld0170_body); (194, ld0194_body); (230, ld0230_body);
    (266, ld0266_body); (302, ld0302_body); (350, ld0350_body);
    (434, ld0434_body); (590, ld0590_body); (770, ld0770_body);
    (974, ld0974_body); (1202, ld1202_body); (1454, ld1454_body);
    (1730, ld1730_body); (2030, ld2030_body); (2354, ld2354_body);
    (2702, ld2702_body); (3074, ld3074_body); (3470, ld3470_body);
    (3890, ld3890_body); (4334, ld4334_body); (4802, ld4802_body);
    (5294, ld5294_body); (5810, ld5810_body) ].

Definition supported_orders : list Z := map fst rule_bodies.

(** ** Measuring a rule *)

(** Arrays of [k] zeros and an empty diagnostic stream. *)
Definition blank (k : nat) : state float :=
  State (replicate k 0%float) (replicate k 0%float)
        (replicate k 0%float) (replicate k 0%float) [].

(** The node is on the unit sphere up to rounding:
    [fabs(x*x + y*y + z*z - 1.0) <= 1e-15] in binary64. *)
Definition near_sphere (q : point float) : bool :=
  (PrimFloat.abs (px q * px q + py q * py q + pz q * pz q - 1) <=? 1e-15)%float.

Definition Rsum (l : list R) : R := fold_right Rplus 0%R l.

Definition Zsum (l : list Z) : Z := fold_right Z.add 0 l.

(** The running sum [s = 0.0; for (i...) s += w[i];] in binary64. *)
Definition fsum (l : list float) : float := fold_left PrimFloat.add l 0%float.

(** Binary64 numbers that are multiples of [2^-grid] are counted in that
    unit, which turns sums of them into sums of integers. *)
Definition grid : Z := 128.

Definition scaled (c : float) : Z :=
  match Prim2SF c with
  | S754_finite sg m e => (if sg then -1 else 1) * Z.pos m * 2 ^ (e + grid)
  | _ => 0
  end.

Definition on_grid (c : float) : bool :=
  match Prim2SF c with
  | S754_finite _ _ e => - grid <=? e
  | S754_zero _ => true
  | _ => false
  end.

(** [k * 2^-grid] differs from 1 by at most [1/T]. *)
Definition near_one (T k : Z) : bool :=
  Z.abs (k - 2 ^ grid) * T <=? 2 ^ grid.

(** The weights of the calls [cs] are on the grid, and their exact sum and
    their running sum in binary64 differ from 1 by at most [1/T]. *)
Definition weights_checked (T : Z) (cs : list (nat * float)) : bool :=
  forallb (fun c => on_grid (snd c)) cs
  && near_one T (Zsum (map (fun c => Z.of_nat (fst c) * scaled (snd c)) cs))
  && on_grid (fsum (spread cs))
  && near_one T (scaled (fsum (spread cs))).

(** The tolerance to which the weights of a rule add up. *)
Definition tolerance : R := 1e-13%R.

(** ** Further notions *)

(** The index of a store group. *)
Definition row_index {F : Type} (r : row F) : Z :=
  let '(i, _, _, _, _) := r in i.

(** The nodes held by the entries [p, p + n) of the four arrays. *)
Fixpoint zip_nodes {F : Type} (x y z w : list F) : list (point F) :=
  match x, y, z, w with
  | x0 :: x', y0 :: y', z0 :: z', w0 :: w' =>
      Pt x0 y0 z0 w0 :: zip_nodes x' y' z' w'
  | _, _, _, _ => []
  end.

Definition nodes {F : Type} (s : state F) (p n : Z) : list (point F) :=
  let part l := take (Z.to_nat n) (drop (Z.to_nat p) l) in
  zip_nodes (part (xs s)) (part (ys s)) (part (zs s)) (part (ws s)).

(** Change of sign of one coordinate and exchange of two axes. *)
Definition flip_x (q : point R) : point R := Pt (- px q)%R (py q) (pz q) (pw q).
Definition flip_y (q : point R) : point R := Pt (px q) (- py q)%R (pz q) (pw q).
Definition flip_z (q : point R) : point R := Pt (px q) (py q) (- pz q)%R (pw q).
Definition swap_xy (q : point R) : point R := Pt (py q) (px q) (pz q) (pw q).
Definition swap_yz (q : point R) : point R := Pt (px q) (pz q) (py q) (pw q).

(** Arrays of [k] real zeros and an empty diagnostic stream. *)
Definition blank_real (k : nat) : state R :=
  State (replicate k 0%R) (replicate k 0%R)
        (replicate k 0%R) (replicate k 0%R) [].

(** The orders whose rules contain a negative weight. *)
Definition signed_orders : list Z := [74; 230; 266].

Definition weight_signs_checked (r : Z * list stmt) : bool :=
  let cs := calls (F := float) (snd r) None in
  if existsb (Z.eqb (fst r)) signed_orders
  then existsb (fun w => (w <? 0)%float) (spread cs)
  else forallb (fun c => (0 <? snd c)%float) cs.

(** The number of calls of a body with a code outside 1..6. *)
Fixpoint illegal_calls (body : list stmt) : nat :=
  match body with
  | [] => 0
  | Call_gen_oh code :: rest =>
      (if (1 <=? code) && (code <=? 6) then 0 else 1) + illegal_calls rest
  | _ :: rest => illegal_calls rest
  end.

(** *** The arguments of the calls *)





(** *** Moments in binary64 *)

(** [s = 0.0; for (i...) s += w[i] * f(i);] *)
Definition fquad (f : point float -> float) (pts : list (point float))
    : float :=
  fold_left (fun acc q => acc + pw q * f q)%float pts 0%float.

Definition small (x : float) : bool := (PrimFloat.abs x <=? 1e-13)%float.

Definition moments_checked (pts : list (point float)) : bool :=
  small (fquad px pts) && small (fquad py pts) && small (fquad pz pts)
  && small (fquad (fun q => px q * py q)%float pts)
  && small (fquad (fun q => py q * pz q)%float pts)
  && small (fquad (fun q => px q * pz q)%float pts)
  && small (fquad (fun q => px q * px q)%float pts - 1 / 3)%float
  && small (fquad (fun q => py q * py q)%float pts - 1 / 3)%float
  && small (fquad (fun q => pz q * pz q)%float pts - 1 / 3)%float.

(** *** Keys of nodes *)

(** Where a node is. *)
Definition position (q : point float) : float * float * float :=
  (px q, py q, pz q).

Definition int_0 : PrimInt63.int := Eval vm_compute in Uint63.of_Z 0.
Definition int_1 : PrimInt63.int := Eval vm_compute in Uint63.of_Z 1.
Definition int_54 : PrimInt63.int := Eval vm_compute in Uint63.of_Z 54.
Definition mult_1 : PrimInt63.int :=
  Eval vm_compute in Uint63.of_Z 6364136223846793005.
Definition mult_2 : PrimInt63.int :=
  Eval vm_compute in Uint63.of_Z 1442695040888963407.

(** A machine integer computed from a position.  Nothing is assumed of
    it: two positions with different keys are different positions,
    whatever the function. *)
Definition key_of_float (x : float) : PrimInt63.int :=
  let '(m, e) := PrimFloat.frshiftexp x in
  PrimInt63.add
    (PrimInt63.add (PrimInt63.lsl (normfr_mantissa m) int_1)
                   (PrimInt63.lsl e int_54))
    (if (x <? 0)%float then int_1 else int_0).

Definition key_of_position (t : float * float * float) : PrimInt63.int :=
  let '(x, y, z) := t in
  PrimInt63.add
    (PrimInt63.mul
       (PrimInt63.add (PrimInt63.mul (key_of_float x) mult_1) (key_of_float y))
       mult_2)
    (key_of_float z).

(** Each element is below the next one. *)
Fixpoint increasing (l : list PrimInt63.int) : bool :=
  match l with
  | x :: (y :: _) as rest => PrimInt63.ltb x y && increasing rest
  | _ => true
  end.

(** No coordinate is a negative zero, so that positions that differ as
    binary64 numbers differ as numbers. *)
Definition no_negative_zero (q : point float) : bool :=
  negb (is_zero (px q) && get_sign (px q))
  && negb (is_zero (py q) && get_sign (py q))
  && negb (is_zero (pz q) && get_sign (pz q)).

(** Machine integers in their order, for sorting. *)
Module KeyOrder <: TotalLeBool.
Definition t : Type := PrimInt63.int.
Definition leb : t -> t -> bool := PrimInt63.leb.
Lemma leb_total (x y : t) : leb x y = true \/ leb y x = true.
Proof. unfold leb. rewrite !Uint63.leb_spec. lia. Qed.
End KeyOrder.

Module KeySort := Sort KeyOrder.

(** * Properties *)

Section Expander.
Context {F : Type} {D : DoubleOps F}.
Implicit Types (s : state F) (l : list F) (pts : list (point F)).

Lemma length_blit l p vs : length (blit l p vs) = length l.
Proof.
  revert l p. induction vs as [|v vs IH]; intros l p; simpl; [done|].
  by rewrite IH, length_insert.
Qed.

Lemma blit_app l p vs1 vs2 :
  blit l p (vs1 ++ vs2) = blit (blit l p vs1) (p + length vs1) vs2.
Proof.
  revert l p. induction vs1 as [|v vs1 IH]; intros l p; simpl.
  - by rewrite Nat.add_0_r.
  - rewrite IH. by replace (S p + length vs1)%nat with (p + S (length vs1))%nat by lia.
Qed.

Lemma lookup_blit_outside l p vs (i : nat) :
  (i < p \/ p + length vs <= i)%nat -> blit l p vs !! i = l !! i.
Proof.
  revert l p. induction vs as [|v vs IH]; intros l p Hi; simpl in *; [done|].
  rewrite IH by lia. apply list_lookup_insert_ne. lia.
Qed.

Lemma lookup_blit_inside l p vs (i : nat) :
  (p + length vs <= length l)%nat -> (i < length vs)%nat ->
  blit l p vs !! (p + i)%nat = vs !! i.
Proof.
  revert l p i. induction vs as [|v vs IH]; intros l p i Hl Hi; simpl in *.
  - lia.
  - destruct i as [|i].
    + rewrite Nat.add_0_r, lookup_blit_outside by lia.
      simpl. apply list_lookup_insert_eq. lia.
    + replace (p + S i)%nat with (S p + i)%nat by lia.
      apply IH; rewrite ?length_insert; lia.
Qed.

Lemma blit_take_drop l p vs :
  (p + length vs <= length l)%nat ->
  blit l p vs = take p l ++ vs ++ drop (p + length vs) l.
Proof.
  revert l p. induction vs as [|v vs IH]; intros l p Hl; simpl in *.
  - by rewrite Nat.add_0_r, take_drop.
  - rewrite IH by (rewrite length_insert; lia).
    rewrite (take_S_r _ _ v) by (apply list_lookup_insert_eq; lia).
    rewrite take_insert_ge, drop_insert_lt by lia.
    rewrite <- app_assoc. simpl.
    by replace (p + S (length vs))%nat with (S (p + length vs)) by lia.
Qed.

(** *** Stores *)

Lemma store_in_range arr (i : Z) (val : F) s :
  0 <= i < Z.of_nat (length (get arr s)) ->
  store arr i val s = Returns tt (set arr (<[Z.to_nat i := val]> (get arr s)) s).
Proof. intros Hi. unfold store. by rewrite decide_True. Qed.

Lemma store_out_of_range arr (i : Z) (val : F) s :
  ~ (0 <= i < Z.of_nat (length (get arr s))) ->
  store arr i val s = Undefined.
Proof. intros Hi. unfold store. by rewrite decide_False. Qed.

Lemma stores_from pts : forall (j : nat) (p : Z) s,
  fits s (p + Z.of_nat j) (Z.of_nat (length pts)) -> 0 <= p ->
  stores p (imap (fun i q => (Z.of_nat (j + i), px q, py q, pz q, pw q)) pts) s
  = Returns tt (write_block s (p + Z.of_nat j) pts).
Proof.
  induction pts as [|q pts IH]; intros j p s [Hp Hfit] Hp0.
  - by destruct s.
  - pose proof (Hfit AX) as HX. pose proof (Hfit AY) as HY.
    pose proof (Hfit AZ) as HZ. pose proof (Hfit AW) as HW.
    simpl in HX, HY, HZ, HW.
    cbn [imap stores store_row]. rewrite Nat.add_0_r.
    unfold bind at 1. unfold bind at 1.
    rewrite store_in_range by (simpl; lia). unfold bind at 1.
    rewrite store_in_range by (simpl; lia). unfold bind at 1.
    rewrite store_in_range by (simpl; lia).
    rewrite store_in_range by (simpl; lia).
    erewrite imap_ext; [rewrite (IH (S j))|]; cycle 1.
    + split; [lia|]. intros []; simpl; rewrite length_insert; lia.
    + lia.
    + intros i x _. simpl. by replace (j + S i)%nat with (S (j + i)) by lia.
    + f_equal. unfold write_block; simpl.
      replace (Z.to_nat (p + Z.of_nat (S j))) with (S (Z.to_nat (p + Z.of_nat j))) by lia.
      done.
Qed.

Lemma stores_indexed pts (p : Z) s :
  fits s p (Z.of_nat (length pts)) ->
  stores p (indexed pts) s = Returns tt (write_block s p pts).
Proof.
  intros Hfit. pose proof (stores_from pts 0 p s) as H.
  rewrite Z.add_0_r in H. apply H; [done|]. by destruct Hfit.
Qed.

(** *** [gen_oh] *)

Lemma valid_code_cases (code : Z) :
  valid_code code ->
  code = 1 \/ code = 2 \/ code = 3 \/ code = 4 \/ code = 5 \/ code = 6.
Proof. unfold valid_code. lia. Qed.

(** The store groups of each branch of [gen_oh] are those of the orbit of
    its class, at indices 0, 1, 2, ... *)
Lemma gen_oh_branch (code : Z) (a b v : F) (p : Z) :
  valid_code code ->
  gen_oh code a b v p
  = bind (stores p (indexed (orbit code a b v)))
         (fun _ => ret (gen_oh_result code)).
Proof.
  intros H. destruct (valid_code_cases code H) as [-> | [-> | [-> | [-> | [-> | ->]]]]];
    reflexivity.
Qed.

Lemma gen_oh_else (code : Z) (a b v : F) (p : Z) :
  ~ valid_code code ->
  gen_oh code a b v p
  = bind (fprintf_stderr gen_oh_message) (fun _ => ret 1).
Proof.
  unfold valid_code, gen_oh. intros H.
  repeat match goal with
         | |- context [?c =? ?k] => destruct (Z.eqb_spec c k); [lia|]
         end.
  reflexivity.
Qed.

Lemma length_orbit (code : Z) (a b v : F) :
  valid_code code ->
  Z.of_nat (length (orbit code a b v)) = gen_oh_result code.
Proof.
  intros H. destruct (valid_code_cases code H) as [-> | [-> | [-> | [-> | [-> | ->]]]]];
    reflexivity.
Qed.

Lemma gen_oh_valid (code : Z) (a b v : F) (p : Z) s :
  valid_code code -> fits s p (gen_oh_result code) ->
  gen_oh code a b v p s
  = Returns (gen_oh_result code) (write_block s p (orbit code a b v)).
Proof.
  intros Hc Hfit. rewrite gen_oh_branch by done. unfold bind.
  rewrite stores_indexed; [done|]. by rewrite length_orbit.
Qed.

Lemma gen_oh_illegal (code : Z) (a b v : F) (p : Z) s :
  ~ valid_code code ->
  gen_oh code a b v p s = Returns 1 (report s gen_oh_message).
Proof. intros Hc. by rewrite gen_oh_else. Qed.

End Expander.

(** *** Rule routines *)

Section Routines.
Context {F : Type} {D : DoubleOps F}.
Implicit Types (s : state F) (pts : list (point F)).

Lemma write_block_nil s (p : Z) : write_block s p [] = s.
Proof. by destruct s. Qed.

Lemma write_block_app s (p : Z) pts1 pts2 :
  0 <= p ->
  write_block (write_block s p pts1) (p + Z.of_nat (length pts1)) pts2
  = write_block s p (pts1 ++ pts2).
Proof.
  intros Hp. unfold write_block; simpl.
  rewrite !map_app, !blit_app, !length_map.
  by replace (Z.to_nat (p + Z.of_nat (length pts1)))
    with (Z.to_nat p + length pts1)%nat by lia.
Qed.

Lemma get_write_block arr s (p : Z) pts :
  length (get arr (write_block s p pts)) = length (get arr s).
Proof. destruct arr; simpl; apply length_blit. Qed.

Lemma fits_write_block s (p q n : Z) pts :
  fits s q n -> fits (write_block s p pts) q n.
Proof.
  intros [Hq H]. split; [done|]. intros arr. by rewrite get_write_block.
Qed.

Lemma gen_oh_result_pos (code : Z) : 0 < gen_oh_result code.
Proof.
  unfold gen_oh_result.
  repeat match goal with |- context [if ?c then _ else _] => destruct c end; lia.
Qed.

Lemma total_nonneg (body : list stmt) : 0 <= total body.
Proof.
  induction body as [|[] body IH]; simpl; try lia.
  pose proof (gen_oh_result_pos code). lia.
Qed.

Lemma fits_less s (p n n' : Z) : n' <= n -> fits s p n -> fits s p n'.
Proof. intros Hn [Hp H]. split; [done|]. intros arr. specialize (H arr). lia. Qed.

(** A well-formed body runs to its end when the arrays have room, writes
    its points one after the other from index [n] on, and advances [n] by
    as many. *)
Lemma exec_well_formed (body : list stmt) :
  forall (a b : F) (v : option F) (n : Z) s,
  well_formed (is_set v) body = true ->
  fits s n (total body) ->
  exists l',
    exec body (Locals a b v n) s
    = Returns l' (write_block s n (points body a b v))
    /\ ln l' = n + total body.
Proof.
  induction body as [|st body IH]; intros a b v n s Hwf Hfit.
  - exists (Locals a b v n). simpl. rewrite write_block_nil.
    split; [done|]. simpl. lia.
  - destruct st as [c|c|c|code]; simpl in Hwf, Hfit.
    + apply (IH (lit c) b v n s); done.
    + apply (IH a (lit c) v n s); done.
    + apply (IH a b (Some (lit c)) n s); done.
    + destruct v as [v|]; [|done]. simpl in Hwf.
      apply andb_prop in Hwf as [Hwf Hrest].
      apply andb_prop in Hwf as [Hlo Hhi].
      assert (Hc : valid_code code) by (unfold valid_code; lia).
      pose proof (total_nonneg body) as Hnn.
      pose proof (gen_oh_result_pos code) as Hpos.
      assert (Hn : 0 <= n) by (by destruct Hfit).
      destruct (IH a b (Some v) (n + gen_oh_result code)
                  (write_block s n (orbit code a b v))) as (l' & Hrun & Hl').
      * done.
      * apply fits_write_block. destruct Hfit as [? Hfit].
        split; [lia|]. intros arr. specialize (Hfit arr). lia.
      * exists l'. split; [|simpl; lia].
        cbn [exec exec_stmt lv la lb ln points]. unfold bind at 1. unfold bind at 1.
        rewrite gen_oh_valid; [|done|by apply (fits_less s n (gen_oh_result code + total body)); [lia|]].
        unfold ret at 1. rewrite Hrun. f_equal.
        rewrite <- (length_orbit code a b v Hc).
        apply write_block_app. lia.
Qed.

Lemma length_points (body : list stmt) :
  forall (a b : F) (v : option F),
  well_formed (is_set v) body = true ->
  Z.of_nat (length (points body a b v)) = total body.
Proof.
  induction body as [|[c|c|c|code] body IH]; intros a b v Hwf; simpl in *;
    [done|by apply IH..|].
  destruct v as [v|]; [|done]. simpl in Hwf.
  apply andb_prop in Hwf as [Hwf Hrest].
  apply andb_prop in Hwf as [Hlo Hhi].
  rewrite length_app, Nat2Z.inj_add, IH by done.
  rewrite length_orbit; [done|]. unfold valid_code. lia.
Qed.

(** A rule routine with a well-formed body returns the total of its calls
    and leaves its points at the start of the arrays. *)
Lemma ld_well_formed (body : list stmt) s :
  well_formed false body = true ->
  fits s 0 (total body) ->
  ld body s = Returns (total body) (write_block s 0 (rule_points body)).
Proof.
  intros Hwf Hfit. unfold ld, bind.
  destruct (exec_well_formed body (lit 0) (lit 0) None 0 s Hwf Hfit)
    as (l' & -> & Hl').
  unfold ret, rule_points. f_equal. lia.
Qed.

End Routines.

(** The tables themselves: legal codes throughout, [v] assigned before
    the first call, and the announced number of points. *)
Lemma rule_bodies_checked :
  forallb (fun r => well_formed false (snd r) && (total (snd r) =? fst r))
          rule_bodies = true.
Proof. vm_compute. reflexivity. Qed.

Lemma rule_body_ok (N : Z) (body : list stmt) :
  In (N, body) rule_bodies ->
  well_formed false body = true /\ total body = N.
Proof.
  intros Hin. pose proof rule_bodies_checked as H.
  rewrite forallb_forall in H. specialize (H _ Hin). simpl in H.
  apply andb_prop in H as [? ?]. split; [done|lia].
Qed.

Lemma supported_orders_eq :
  supported_orders =
  [6; 14; 26; 38; 50; 74; 86; 110; 146; 170; 194; 230; 266; 302; 350; 434;
   590; 770; 974; 1202; 1454; 1730; 2030; 2354; 2702; 3074; 3470; 3890;
   4334; 4802; 5294; 5810].
Proof. reflexivity. Qed.

Section Routing.
Context {F : Type} {D : DoubleOps F}.

(** The dispatcher calls the routine whose name carries the order. *)
Lemma routing_supported (N : Z) (body : list stmt) :
  In (N, body) rule_bodies ->
  leb_order_routing N = ld (F := F) body.
Proof.
  unfold rule_bodies. intros Hin.
  repeat (destruct Hin as [Hin | Hin];
          [injection Hin as <- <-; reflexivity|]).
  destruct Hin.
Qed.

Lemma routing_unsupported (order : Z) (s : state F) :
  ~ In order supported_orders ->
  leb_order_routing order s = Returns 0 (report s ld_by_order_message).
Proof.
  rewrite supported_orders_eq. intros Hout. unfold leb_order_routing.
  repeat match goal with
         | |- context [?c =? ?k] =>
             destruct (Z.eqb_spec c k); [exfalso; apply Hout; simpl; lia|]
         end.
  reflexivity.
Qed.

End Routing.

(** *** Exact values of binary64 numbers *)

Lemma IZR_pow2 (z : Z) : 0 <= z -> IZR (2 ^ z) = powerRZ 2 z.
Proof.
  intros Hz. destruct z as [|p|p]; [reflexivity| |lia].
  apply (Zpower_pos_powerRZ 2 p).
Qed.

Lemma float_to_R_scaled (c : float) :
  on_grid c = true ->
  float_to_R c = (IZR (scaled c) * powerRZ 2 (- grid))%R.
Proof.
  unfold on_grid, float_to_R, scaled.
  destruct (Prim2SF c) as [sg| | |sg m e]; intros Hc; try discriminate.
  - simpl. lra.
  - apply Z.leb_le in Hc.
    assert (He : powerRZ 2 e = (powerRZ 2 (e + grid) * powerRZ 2 (- grid))%R).
    { rewrite <- powerRZ_add by lra. f_equal. lia. }
    rewrite !mult_IZR, IZR_pow2 by lia. rewrite He.
    destruct sg; ring.
Qed.

Lemma Rsum_scaled (w : list float) :
  forallb on_grid w = true ->
  Rsum (map float_to_R w) = (IZR (Zsum (map scaled w)) * powerRZ 2 (- grid))%R.
Proof.
  induction w as [|c w IH]; intros Hw.
  - unfold Rsum, Zsum. simpl. lra.
  - apply andb_prop in Hw as [Hc Hw].
    change (Rsum (map float_to_R (c :: w)))
      with (float_to_R c + Rsum (map float_to_R w))%R.
    change (Zsum (map scaled (c :: w)))
      with (scaled c + Zsum (map scaled w)).
    rewrite IH, plus_IZR, float_to_R_scaled by done. ring.
Qed.

Lemma near_one_sound (T k : Z) :
  0 < T -> near_one T k = true ->
  (Rabs (IZR k * powerRZ 2 (- grid) - 1) <= / IZR T)%R.
Proof.
  unfold near_one. intros HT Hk. apply Z.leb_le in Hk.
  assert (HK : (0 < IZR (2 ^ grid))%R) by (apply IZR_lt; unfold grid; lia).
  assert (Hu : (powerRZ 2 (- grid) * IZR (2 ^ grid) = 1)%R).
  { rewrite IZR_pow2 by (unfold grid; lia).
    rewrite <- powerRZ_add by lra.
    replace (- grid + grid) with 0 by lia. reflexivity. }
  assert (Hpos : (0 < powerRZ 2 (- grid))%R) by (apply powerRZ_lt; lra).
  assert (HTR : (0 < IZR T)%R) by (by apply IZR_lt).
  apply IZR_le in Hk. rewrite mult_IZR, abs_IZR, minus_IZR in Hk.
  set (u := powerRZ 2 (- grid)) in *. set (K := IZR (2 ^ grid)) in *.
  replace (IZR k * u - 1)%R with ((IZR k - K) * u)%R by (rewrite <- Hu; ring).
  rewrite Rabs_mult, (Rabs_pos_eq u) by lra.
  apply (Rmult_le_reg_r (IZR T)); [done|].
  rewrite Rinv_l by lra.
  apply (Rmult_le_reg_r K); [done|].
  replace (Rabs (IZR k - K) * u * IZR T * K)%R
    with (Rabs (IZR k - K) * IZR T * (u * K))%R by ring.
  rewrite Hu. lra.
Qed.

Lemma tolerance_eq : tolerance = (/ IZR (10 ^ 13))%R.
Proof. unfold tolerance. change (Z.pow_pos 10 13) with (10 ^ 13). lra. Qed.

Lemma forallb_on_grid_spread (cs : list (nat * float)) :
  forallb (fun c => on_grid (snd c)) cs = true ->
  forallb on_grid (spread cs) = true.
Proof.
  unfold spread. induction cs as [|[k c] cs IH]; simpl; intros H; [done|].
  apply andb_prop in H as [Hc H]. rewrite forallb_app, IH by done.
  rewrite andb_true_r. clear IH H. induction k as [|k IHk]; simpl; [done|].
  by rewrite Hc, IHk.
Qed.

Lemma Zsum_app (l1 l2 : list Z) : Zsum (l1 ++ l2) = Zsum l1 + Zsum l2.
Proof.
  induction l1 as [|x l1 IH]; [done|].
  change (Zsum ((x :: l1) ++ l2)) with (x + Zsum (l1 ++ l2)).
  change (Zsum (x :: l1)) with (x + Zsum l1). lia.
Qed.

Lemma Zsum_replicate (k : nat) (x : Z) :
  Zsum (replicate k x) = Z.of_nat k * x.
Proof.
  induction k as [|k IH]; [done|].
  change (Zsum (replicate (S k) x)) with (x + Zsum (replicate k x)). lia.
Qed.

Lemma Zsum_scaled_spread (cs : list (nat * float)) :
  Zsum (map scaled (spread cs))
  = Zsum (map (fun c => Z.of_nat (fst c) * scaled (snd c)) cs).
Proof.
  unfold spread. induction cs as [|[k c] cs IH]; [done|].
  cbn [flat_map map fst snd]. rewrite map_app, Zsum_app, IH.
  change (Zsum (Z.of_nat k * scaled c
                  :: map (fun c0 => Z.of_nat (c0.1) * scaled (c0.2)) cs))
    with (Z.of_nat k * scaled c
          + Zsum (map (fun c0 => Z.of_nat (c0.1) * scaled (c0.2)) cs)).
  f_equal. clear IH. induction k as [|k IHk]; [done|].
  cbn [replicate map].
  change (Zsum (scaled c :: map scaled (replicate k c)))
    with (scaled c + Zsum (map scaled (replicate k c))).
  lia.
Qed.

Lemma weights_checked_sound (cs : list (nat * float)) :
  weights_checked (10 ^ 13) cs = true ->
  (Rabs (Rsum (map float_to_R (spread cs)) - 1) <= tolerance)%R
  /\ (Rabs (float_to_R (fsum (spread cs)) - 1) <= tolerance)%R.
Proof.
  unfold weights_checked. intros H.
  apply andb_prop in H as [H H4]. apply andb_prop in H as [H H3].
  apply andb_prop in H as [H1 H2].
  rewrite tolerance_eq, Rsum_scaled, Zsum_scaled_spread, float_to_R_scaled
    by (done || by apply forallb_on_grid_spread).
  split; apply near_one_sound; done.
Qed.

Lemma Rabs_le_between (x y : R) : (Rabs x <= y)%R -> (- y <= x <= y)%R.
Proof. unfold Rabs. destruct (Rcase_abs x); lra. Qed.

Lemma tolerance_small : (0 < tolerance < 1)%R.
Proof.
  rewrite tolerance_eq. change (10 ^ 13) with 10000000000000. lra.
Qed.

(** *** The contents of a written block *)

Section Blocks.
Context {F : Type} {D : DoubleOps F}.
Implicit Types (s : state F) (pts : list (point F)).

Lemma get_write_block_blit arr s (p : Z) pts :
  get arr (write_block s p pts)
  = blit (get arr s) (Z.to_nat p) (map (coord arr) pts).
Proof. by destruct arr. Qed.

Lemma write_block_contents arr s (p : Z) pts :
  fits s p (Z.of_nat (length pts)) ->
  get arr (write_block s p pts)
  = take (Z.to_nat p) (get arr s) ++ map (coord arr) pts
    ++ drop (Z.to_nat p + length pts) (get arr s).
Proof.
  intros [Hp Hfit]. specialize (Hfit arr).
  rewrite get_write_block_blit, blit_take_drop; rewrite length_map; [done|lia].
Qed.

Lemma write_block_outside arr s (p : Z) pts (i : nat) :
  0 <= p ->
  Z.of_nat i < p \/ p + Z.of_nat (length pts) <= Z.of_nat i ->
  get arr (write_block s p pts) !! i = get arr s !! i.
Proof.
  intros Hp Hi. rewrite get_write_block_blit.
  apply lookup_blit_outside. rewrite length_map. lia.
Qed.

Lemma write_block_inside arr s (p : Z) pts (i : nat) :
  fits s p (Z.of_nat (length pts)) -> (i < length pts)%nat ->
  get arr (write_block s p pts) !! (Z.to_nat p + i)%nat
  = map (coord arr) pts !! i.
Proof.
  intros [Hp Hfit] Hi. specialize (Hfit arr).
  rewrite get_write_block_blit.
  apply lookup_blit_inside; rewrite length_map; lia.
Qed.

Lemma write_block_prefix arr s pts :
  fits s 0 (Z.of_nat (length pts)) ->
  take (length pts) (get arr (write_block s 0 pts)) = map (coord arr) pts.
Proof.
  intros Hfit. rewrite write_block_contents by done. simpl.
  rewrite <- (length_map (coord arr) pts). apply take_app_length.
Qed.

Lemma zip_nodes_coords pts :
  zip_nodes (map px pts) (map py pts) (map pz pts) (map pw pts) = pts.
Proof. induction pts as [|[x y z w] pts IH]; simpl; [done|]. by rewrite IH. Qed.

(** Reading back a block that was written gives the points written. *)
Lemma nodes_write_block s (p : Z) pts :
  fits s p (Z.of_nat (length pts)) ->
  nodes (write_block s p pts) p (Z.of_nat (length pts)) = pts.
Proof.
  intros Hfit.
  assert (Hpart : forall arr,
             take (Z.to_nat (Z.of_nat (length pts)))
                  (drop (Z.to_nat p) (get arr (write_block s p pts)))
             = map (coord arr) pts).
  { intros arr. rewrite write_block_contents by done.
    destruct Hfit as [Hp Hfit]. specialize (Hfit arr).
    rewrite drop_app_length' by (rewrite length_take; lia).
    rewrite Nat2Z.id, <- (length_map (coord arr) pts).
    apply take_app_length. }
  unfold nodes.
  change (xs (write_block s p pts)) with (get AX (write_block s p pts)).
  change (ys (write_block s p pts)) with (get AY (write_block s p pts)).
  change (zs (write_block s p pts)) with (get AZ (write_block s p pts)).
  change (ws (write_block s p pts)) with (get AW (write_block s p pts)).
  rewrite !Hpart. apply zip_nodes_coords.
Qed.

End Blocks.

(** *** Weights of the rules *)

Lemma pw_orbit {F : Type} {D : DoubleOps F} (code : Z) (a b v : F) :
  valid_code code ->
  map pw (orbit code a b v) = replicate (Z.to_nat (gen_oh_result code)) v.
Proof.
  intros H.
  destruct (valid_code_cases code H) as [-> | [-> | [-> | [-> | [-> | ->]]]]];
    reflexivity.
Qed.

Lemma pw_points {F : Type} {D : DoubleOps F} (body : list stmt) :
  forall (a b : F) (v : option F),
  well_formed (is_set v) body = true ->
  map pw (points body a b v) = spread (calls body v).
Proof.
  induction body as [|[c|c|c|code] body IH]; intros a b v Hwf; simpl in *;
    [done|by apply IH..|].
  destruct v as [v|]; [|done]. simpl in Hwf.
  apply andb_prop in Hwf as [Hwf Hrest].
  apply andb_prop in Hwf as [Hlo Hhi].
  rewrite map_app, (IH a b (Some v)) by done.
  rewrite pw_orbit by (unfold valid_code; lia).
  unfold spread. by simpl.
Qed.

Lemma rule_weights_checked :
  forallb (fun r => weights_checked (10 ^ 13) (calls (F := float) (snd r) None))
          rule_bodies = true.
Proof. vm_compute. reflexivity. Qed.

Lemma rule_weights_near_one (N : Z) (body : list stmt) :
  In (N, body) rule_bodies ->
  let w := map pw (rule_points (F := float) body) in
  (Rabs (Rsum (map float_to_R w) - 1) <= tolerance)%R
  /\ (Rabs (float_to_R (fsum w) - 1) <= tolerance)%R.
Proof.
  intros Hin. pose proof rule_weights_checked as H.
  rewrite forallb_forall in H. specialize (H _ Hin).
  destruct (rule_body_ok N body Hin) as [Hwf _].
  cbv zeta. unfold rule_points. rewrite pw_points by done.
  by apply weights_checked_sound.
Qed.

(** In binary64 every point of every rule is on the unit sphere up to
    rounding. *)
Lemma rule_points_near_sphere :
  forallb (fun r => forallb near_sphere (rule_points (snd r))) rule_bodies
  = true.
Proof. vm_compute. reflexivity. Qed.

(** A rule for which the arrays have room runs to its end, and the first
    [N] weights are those of its points. *)
Lemma rule_run {F : Type} {D : DoubleOps F} (N : Z) (body : list stmt)
    (s : state F) :
  In (N, body) rule_bodies -> fits s 0 N ->
  ld body s = Returns N (write_block s 0 (rule_points body))
  /\ Z.of_nat (length (rule_points (F := F) body)) = N
  /\ forall arr,
       take (Z.to_nat N) (get arr (write_block s 0 (rule_points body)))
       = map (coord arr) (rule_points body).
Proof.
  intros Hin Hfit. destruct (rule_body_ok N body Hin) as [Hwf Htot].
  assert (Hlen : Z.of_nat (length (rule_points (F := F) body)) = N).
  { rewrite <- Htot. by apply (length_points body (lit 0) (lit 0) None). }
  split; [|split; [done|]].
  - rewrite <- Htot at 1. apply ld_well_formed; [done|by rewrite Htot].
  - intros arr. rewrite <- Hlen, Nat2Z.id.
    apply write_block_prefix. by rewrite Hlen.
Qed.

Lemma fits_blank (k : nat) (p n : Z) :
  0 <= p -> p + n <= Z.of_nat k -> fits (blank k) p n.
Proof.
  intros Hp Hn. split; [done|].
  intros []; simpl; rewrite length_replicate; lia.
Qed.

(** * Main results *)

(** ** Orbit expander *)

(** C3: with symmetry class 1 the expander returns 6 and writes the six
    signed unit-axis points, each with weight [v]; the arguments [a] and
    [b] have no influence, [a] being replaced by 1.0. *)
Theorem gen_oh_class1 {F : Type} {D : DoubleOps F} (a b v : F) (p : Z)
    (s : state F) :
  fits s p 6 ->
  gen_oh 1 a b v p s
  = Returns 6
      (write_block s p
         [Pt (lit 1) (lit 0) (lit 0) v; Pt (fneg (lit 1)) (lit 0) (lit 0) v;
          Pt (lit 0) (lit 1) (lit 0) v; Pt (lit 0) (fneg (lit 1)) (lit 0) v;
          Pt (lit 0) (lit 0) (lit 1) v; Pt (lit 0) (lit 0) (fneg (lit 1)) v])
  /\ forall a' b' : F, gen_oh 1 a' b' v p s = gen_oh 1 a b v p s.
Proof.
  intros Hfit. split; [|reflexivity].
  by rewrite (gen_oh_valid 1 a b v p s) by (done || (unfold valid_code; lia)).
Qed.

Lemma gen_oh_class1_witness :
  fits (blank 8) 2 6
  /\ gen_oh 1 0.3%float 0.4%float 0.25%float 2 (blank 8)
     = Returns 6
         (State [0; 0; 1; -1; 0; 0; 0; 0]%float [0; 0; 0; 0; 1; -1; 0; 0]%float
                [0; 0; 0; 0; 0; 0; 1; -1]%float
                [0; 0; 0.25; 0.25; 0.25; 0.25; 0.25; 0.25]%float []).
Proof.
  assert (Hfit : fits (blank 8) 2 6) by (apply fits_blank; lia).
  split; [exact Hfit|].
  destruct (gen_oh_class1 0.3%float 0.4%float 0.25%float 2 (blank 8) Hfit)
    as [Hrun _].
  rewrite Hrun. reflexivity.
Defined.








(** C8: a call with a legal code and room in the arrays changes the
    entries at indices [p, p + n) of the four arrays, [n] being the value
    it returns, and nothing else; what it writes there is determined by
    its arguments alone, whatever the arrays held before. *)
Theorem gen_oh_frame {F : Type} {D : DoubleOps F} (code : Z) (a b v : F)
    (p : Z) (s : state F) :
  valid_code code -> fits s p (gen_oh_result code) ->
  exists s' : state F,
    gen_oh code a b v p s = Returns (gen_oh_result code) s'
    /\ stderr s' = stderr s
    /\ (forall arr, length (get arr s') = length (get arr s))
    /\ (forall arr (i : nat),
          Z.of_nat i < p \/ p + gen_oh_result code <= Z.of_nat i ->
          get arr s' !! i = get arr s !! i)
    /\ (forall arr (i : nat),
          Z.of_nat i < gen_oh_result code ->
          get arr s' !! (Z.to_nat p + i)%nat
          = map (coord arr) (orbit code a b v) !! i)
    /\ (forall s2 : state F,
          fits s2 p (gen_oh_result code) ->
          exists s2' : state F,
            gen_oh code a b v p s2 = Returns (gen_oh_result code) s2'
            /\ forall arr (i : nat),
                 Z.of_nat i < gen_oh_result code ->
                 get arr s2' !! (Z.to_nat p + i)%nat
                 = get arr s' !! (Z.to_nat p + i)%nat).
Proof.
  intros Hc Hfit. pose proof (length_orbit code a b v Hc) as Hlen.
  assert (Hp : 0 <= p) by (by destruct Hfit).
  assert (Hin : forall s0 arr (i : nat),
             fits s0 p (gen_oh_result code) ->
             Z.of_nat i < gen_oh_result code ->
             get arr (write_block s0 p (orbit code a b v))
               !! (Z.to_nat p + i)%nat
             = map (coord arr) (orbit code a b v) !! i).
  { intros s0 arr i H0 Hi. apply write_block_inside; [by rewrite Hlen|lia]. }
  exists (write_block s p (orbit code a b v)).
  split; [by apply gen_oh_valid|]. split; [reflexivity|].
  split; [intros arr; apply get_write_block|].
  split; [intros arr i Hi; apply write_block_outside; [done|lia]|].
  split; [intros arr i Hi; by apply Hin|].
  intros s2 Hfit2. exists (write_block s2 p (orbit code a b v)).
  split; [by apply gen_oh_valid|].
  intros arr i Hi. by rewrite !Hin.
Qed.

Lemma gen_oh_frame_witness :
  exists s' : state float,
    gen_oh 3 0%float 0%float 0.075%float 6 (blank 14) = Returns 8 s'
    /\ take 6 (xs s') = replicate 6 0%float
    /\ take 6 (ws s') = replicate 6 0%float.
Proof.
  assert (Hc : valid_code 3) by (unfold valid_code; lia).
  assert (Hfit : fits (blank 14) 6 8) by (apply fits_blank; lia).
  destruct (gen_oh_frame 3 0%float 0%float 0.075%float 6 (blank 14) Hc Hfit)
    as (s' & Hrun & _).
  exists s'. split; [exact Hrun|].
  assert (Hs : Returns 8 s'
               = gen_oh 3 0%float 0%float 0.075%float 6 (blank 14))
    by (symmetry; exact Hrun).
  vm_compute in Hs. injection Hs as ->. split; reflexivity.
Defined.

(** C9: for the classes 1, 2 and 3 the run does not depend on [a] and
    [b] at all; the coordinates written are 0 and plus or minus
    [sqrt 0.5] for class 2, plus or minus [sqrt (1/3)] for class 3. *)
Theorem gen_oh_ignores_a_b {F : Type} {D : DoubleOps F} (code : Z)
    (a b a' b' v : F) (p : Z) (s : state F) :
  code = 1 \/ code = 2 \/ code = 3 ->
  gen_oh code a b v p s = gen_oh code a' b' v p s
  /\ orbit code a b v = orbit code a' b' v
  /\ (fits s p (gen_oh_result code) ->
      gen_oh code a b v p s
      = Returns (gen_oh_result code) (write_block s p (orbit code a' b' v)))
  /\ (code = 2 ->
      let r := fsqrt (lit 0.5) in
      Forall (fun q => forall arr, arr <> AW ->
                In (coord arr q) [lit 0; r; fneg r])
             (orbit code a b v))
  /\ (code = 3 ->
      let r := fsqrt (fdiv (lit 1) (lit 3)) in
      Forall (fun q => forall arr, arr <> AW ->
                In (coord arr q) [r; fneg r])
             (orbit code a b v)).
Proof.
  intros Hcode.
  assert (Horb : orbit code a b v = orbit code a' b' v)
    by (by destruct Hcode as [-> | [-> | ->]]).
  split; [by destruct Hcode as [-> | [-> | ->]]|]. split; [done|].
  split; [|split].
  - intros Hfit. rewrite <- Horb. apply gen_oh_valid; [|done].
    unfold valid_code. lia.
  - intros -> r. cbn [orbit Z.eqb Pos.eqb]. unfold orbit2, flips2.
    cbn [app]. fold r.
    repeat (apply List.Forall_cons;
            [intros [] Harr; cbn [coord px py pz In]; tauto|]).
    apply List.Forall_nil.
  - intros -> r. cbn [orbit Z.eqb Pos.eqb]. unfold orbit3, flips3, flips2.
    cbn [app]. fold r.
    repeat (apply List.Forall_cons;
            [intros [] Harr; cbn [coord px py pz In]; tauto|]).
    apply List.Forall_nil.
Qed.

Lemma gen_oh_ignores_a_b_witness :
  gen_oh 2 0.1%float 0.2%float 0.5%float 0 (blank 12)
  = gen_oh 2 0.7%float 0.9%float 0.5%float 0 (blank 12).
Proof.
  apply (gen_oh_ignores_a_b 2 0.1%float 0.2%float 0.7%float 0.9%float
           0.5%float 0 (blank 12)).
  right. left. reflexivity.
Defined.

(** C10: with a code outside 1..6 the expander writes to no array, prints
    its message and returns 1; the calling line of a rule routine then
    advances [n] by one. *)
Theorem illegal_code_returns_one {F : Type} {D : DoubleOps F} (code : Z)
    (a b v : F) (p n : Z) (s : state F) :
  ~ valid_code code ->
  gen_oh code a b v p s = Returns 1 (report s gen_oh_message)
  /\ (forall arr, get arr (report s gen_oh_message) = get arr s)
  /\ exec_stmt (Call_gen_oh code) (Locals a b (Some v) n) s
     = Returns (Locals a b (Some v) (n + 1)) (report s gen_oh_message).
Proof.
  intros Hc. split; [by apply gen_oh_illegal|]. split; [by intros []|].
  cbn [exec_stmt lv la lb ln]. unfold bind. by rewrite gen_oh_illegal.
Qed.

Lemma illegal_code_returns_one_witness :
  ~ valid_code 0
  /\ gen_oh 0 0.5%float 0.5%float 1%float 3 (blank 2)
     = Returns 1 (State [0; 0]%float [0; 0]%float [0; 0]%float [0; 0]%float
                        [gen_oh_message]).
Proof.
  assert (Hc : ~ valid_code 0) by (unfold valid_code; lia).
  split; [exact Hc|].
  apply (illegal_code_returns_one 0 0.5%float 0.5%float 1%float 3 0 (blank 2) Hc).
Defined.

(** C6: an illegal code does not stop the run.  The call returns 1, and
    the rule routine around it goes on: a body with such a call in front
    of a class-1 call ends with 7, having left index 0 as it was and
    written its six points behind it. *)
Theorem illegal_code_is_not_fatal :
  gen_oh 7 0%float 0%float 1%float 0 (blank 6)
  = Returns 1 (report (blank 6) gen_oh_message)
  /\ ld [Set_v 1; Call_gen_oh 7; Call_gen_oh 1] (blank 7)
     = Returns 7
         (State [0; 1; -1; 0; 0; 0; 0]%float [0; 0; 0; 1; -1; 0; 0]%float
                [0; 0; 0; 0; 0; 1; -1]%float [0; 1; 1; 1; 1; 1; 1]%float
                [gen_oh_message]).
Proof. split; vm_compute; reflexivity. Qed.

(** ** Rule routines and dispatcher *)

(** C1: for every order of the list, the routine of that order, called
    directly or through [leb_order_routing], returns the order and
    leaves in the first [N] entries of the four arrays the coordinates
    and weights of its [N] points, orbit after orbit in the order of its
    calls; the entries from [N] on keep their values. *)
Theorem rule_returns_order {F : Type} {D : DoubleOps F} (N : Z)
    (s : state F) :
  In N [6; 14; 26; 38; 50; 74; 86; 110; 146; 170; 194; 230; 266; 302; 350;
        434; 590; 770; 974; 1202; 1454; 1730; 2030; 2354; 2702; 3074; 3470;
        3890; 4334; 4802; 5294; 5810] ->
  fits s 0 N ->
  exists (body : list stmt) (s' : state F),
    In (N, body) rule_bodies
    /\ ld body s = Returns N s'
    /\ leb_order_routing N s = Returns N s'
    /\ Z.of_nat (length (rule_points (F := F) body)) = N
    /\ nodes s' 0 N = rule_points body
    /\ (forall arr,
          get arr s'
          = map (coord arr) (rule_points body)
            ++ drop (Z.to_nat N) (get arr s))
    /\ stderr s' = stderr s.
Proof.
  rewrite <- supported_orders_eq. unfold supported_orders.
  intros HN Hfit. apply in_map_iff in HN as ([N' body] & E & Hin).
  simpl in E. subst N'.
  destruct (rule_run N body s Hin Hfit) as (Hrun & Hlen & _).
  set (pts := rule_points (F := F) body) in *.
  assert (Hfit' : fits s 0 (Z.of_nat (length pts))) by (by rewrite Hlen).
  exists body, (write_block s 0 pts).
  split; [done|]. split; [done|].
  split; [by rewrite (routing_supported N body Hin)|].
  split; [done|]. split; [|split; [|done]].
  - rewrite <- Hlen. by apply nodes_write_block.
  - intros arr. rewrite write_block_contents by done. simpl.
    by rewrite <- Hlen, Nat2Z.id.
Qed.

Lemma rule_returns_order_witness :
  exists (body : list stmt) (s' : state float),
    In (26, body) rule_bodies
    /\ ld body (blank 26) = Returns 26 s'
    /\ leb_order_routing 26 (blank 26) = Returns 26 s'
    /\ length (nodes s' 0 26) = 26%nat.
Proof.
  assert (HN : In 26 [6; 14; 26; 38; 50; 74; 86; 110; 146; 170; 194; 230;
                      266; 302; 350; 434; 590; 770; 974; 1202; 1454; 1730;
                      2030; 2354; 2702; 3074; 3470; 3890; 4334; 4802; 5294;
                      5810]) by (simpl; tauto).
  assert (Hfit : fits (blank 26) 0 26) by (apply fits_blank; lia).
  destruct (rule_returns_order 26 (blank 26) HN Hfit)
    as (body & s' & Hin & Hrun & Hroute & Hlen & Hnodes & _).
  exists body, s'. split; [exact Hin|]. split; [exact Hrun|].
  split; [exact Hroute|]. rewrite Hnodes. lia.
Defined.

(** C2, as the routines have it: the weights a routine writes add up to
    1, not to the area of the sphere.  The exact sum of the [N] binary64
    weights and their running sum in binary64 both differ from 1 by at
    most [1e-13], rules with negative weights included. *)
Theorem rule_weights_sum_to_one (N : Z) (body : list stmt)
    (s : state float) :
  In (N, body) rule_bodies -> fits s 0 N ->
  exists s' : state float,
    ld body s = Returns N s'
    /\ leb_order_routing N s = Returns N s'
    /\ let w := take (Z.to_nat N) (ws s') in
       length w = Z.to_nat N
       /\ (Rabs (Rsum (map float_to_R w) - 1) <= tolerance)%R
       /\ (Rabs (float_to_R (fsum w) - 1) <= tolerance)%R.
Proof.
  intros Hin Hfit.
  destruct (rule_run N body s Hin Hfit) as (Hrun & Hlen & Htake).
  exists (write_block s 0 (rule_points body)). split; [done|].
  split; [by rewrite (routing_supported N body Hin)|].
  change (ws (write_block s 0 (rule_points body)))
    with (get AW (write_block s 0 (rule_points body))).
  rewrite (Htake AW). change (coord AW) with (pw (F := float)). split.
  - rewrite length_map. lia.
  - by apply (rule_weights_near_one N body).
Qed.

Lemma rule_weights_sum_to_one_witness :
  exists s' : state float,
    ld ld0050_body (blank 50) = Returns 50 s'
    /\ leb_order_routing 50 (blank 50) = Returns 50 s'
    /\ let w := take (Z.to_nat 50) (ws s') in
       length w = Z.to_nat 50
       /\ (Rabs (Rsum (map float_to_R w) - 1) <= tolerance)%R
       /\ (Rabs (float_to_R (fsum w) - 1) <= tolerance)%R.
Proof.
  apply (rule_weights_sum_to_one 50 ld0050_body (blank 50)).
  - simpl. tauto.
  - apply fits_blank; lia.
Defined.

(** C2 as stated fails already for the smallest rule: the six weights of
    [ld0006] add up to about 1, which is further than 1 from [4 * PI]. *)
Lemma rule_weights_do_not_sum_to_4pi :
  ~ (forall (N : Z) (body : list stmt) (s : state float),
       In (N, body) rule_bodies -> fits s 0 N ->
       exists s' : state float,
         ld body s = Returns N s'
         /\ (Rabs (Rsum (map float_to_R (take (Z.to_nat N) (ws s')))
                   - 4 * PI) <= 1)%R).
Proof.
  intros H.
  assert (Hin : In (6, ld0006_body) rule_bodies) by (simpl; tauto).
  assert (Hfit : fits (blank 6) 0 6) by (apply fits_blank; lia).
  destruct (H 6 ld0006_body (blank 6) Hin Hfit) as (s' & Hrun & Hsum).
  destruct (rule_run 6 ld0006_body (blank 6) Hin Hfit) as (Hrun' & _ & Htake).
  rewrite Hrun' in Hrun. injection Hrun as <-.
  change (ws (write_block (blank 6) 0 (rule_points ld0006_body)))
    with (get AW (write_block (blank 6) 0 (rule_points (F := float) ld0006_body)))
    in Hsum.
  rewrite (Htake AW) in Hsum. change (coord AW) with (pw (F := float)) in Hsum.
  destruct (rule_weights_near_one 6 ld0006_body Hin) as [Hone _].
  cbv zeta in Hone.
  pose proof PI2_3_2 as Hpi. pose proof tolerance_small as Htol.
  apply Rabs_le_between in Hsum. apply Rabs_le_between in Hone. lra.
Qed.

(** C5: the routine for order 6 returns 6 and writes the points
    (1,0,0), (-1,0,0), (0,1,0), (0,-1,0), (0,0,1), (0,0,-1), each with the
    weight 0.1666666666666667; nothing else in the arrays changes. *)
Theorem ld0006_points {F : Type} {D : DoubleOps F} (s : state F) :
  fits s 0 6 ->
  let one := lit 1 in
  let zero := lit 0 in
  let w := lit 0.1666666666666667 in
  exists s' : state F,
    ld0006 s = Returns 6 s'
    /\ leb_order_routing 6 s = Returns 6 s'
    /\ xs s' = [one; fneg one; zero; zero; zero; zero] ++ drop 6 (xs s)
    /\ ys s' = [zero; zero; one; fneg one; zero; zero] ++ drop 6 (ys s)
    /\ zs s' = [zero; zero; zero; zero; one; fneg one] ++ drop 6 (zs s)
    /\ ws s' = [w; w; w; w; w; w] ++ drop 6 (ws s)
    /\ stderr s' = stderr s.
Proof.
  intros Hfit one zero w.
  assert (Hin : In (6, ld0006_body) rule_bodies) by (simpl; tauto).
  destruct (rule_run 6 ld0006_body s Hin Hfit) as (Hrun & _ & _).
  exists (write_block s 0 (rule_points ld0006_body)).
  split; [exact Hrun|]. split; [exact Hrun|].
  pose proof (fun arr => write_block_contents arr s 0
                           (rule_points ld0006_body) Hfit) as Hget.
  split; [exact (Hget AX)|]. split; [exact (Hget AY)|].
  split; [exact (Hget AZ)|]. split; [exact (Hget AW)|]. reflexivity.
Qed.

Lemma ld0006_points_witness :
  ld0006 (blank 7)
  = Returns 6
      (State [1; -1; 0; 0; 0; 0; 0]%float [0; 0; 1; -1; 0; 0; 0]%float
             [0; 0; 0; 0; 1; -1; 0]%float
             [0.1666666666666667; 0.1666666666666667; 0.1666666666666667;
              0.1666666666666667; 0.1666666666666667; 0.1666666666666667;
              0]%float []).
Proof.
  assert (Hfit : fits (blank 7) 0 6) by (apply fits_blank; lia).
  destruct (ld0006_points (blank 7) Hfit)
    as (s' & Hrun & _ & Hx & Hy & Hz & Hw & He).
  rewrite Hrun. f_equal. destruct s'. simpl in *. by subst.
Defined.

(** C7: an order outside the list makes the dispatcher print its message
    and return 0; the arrays stay as they were. *)
Theorem unsupported_order_reported {F : Type} {D : DoubleOps F} (order : Z)
    (s : state F) :
  ~ In order [6; 14; 26; 38; 50; 74; 86; 110; 146; 170; 194; 230; 266; 302;
              350; 434; 590; 770; 974; 1202; 1454; 1730; 2030; 2354; 2702;
              3074; 3470; 3890; 4334; 4802; 5294; 5810] ->
  exists s' : state F,
    leb_order_routing order s = Returns 0 s'
    /\ stderr s' = stderr s ++ [ld_by_order_message]
    /\ forall arr, get arr s' = get arr s.
Proof.
  rewrite <- supported_orders_eq. intros Hout.
  exists (report s ld_by_order_message).
  split; [by apply routing_unsupported|]. split; [done|]. by intros [].
Qed.

Lemma unsupported_order_reported_witness :
  exists s' : state float,
    leb_order_routing 7 (blank 7) = Returns 0 s'
    /\ stderr s' = stderr (blank 7) ++ [ld_by_order_message]
    /\ forall arr, get arr s' = get arr (blank 7).
Proof.
  apply (unsupported_order_reported 7 (blank 7)).
  simpl. lia.
Defined.

(** * Further properties *)

(** ** Room in the arrays *)

Section Room.
Context {F : Type} {D : DoubleOps F}.
Implicit Types (s : state F) (pts : list (point F)).

Lemma store_returns arr (i : Z) (val : F) s s1 :
  store arr i val s = Returns tt s1 ->
  0 <= i < Z.of_nat (length (get arr s))
  /\ forall arr', length (get arr' s1) = length (get arr' s).
Proof.
  unfold store. destruct (decide _) as [Hi|Hi]; [|discriminate].
  intros [= <-]. split; [done|].
  intros arr'. destruct arr, arr'; simpl; by rewrite ?length_insert.
Qed.

Lemma store_row_returns (p : Z) (r : row F) s s1 :
  store_row p r s = Returns tt s1 ->
  (forall arr, 0 <= p + row_index r < Z.of_nat (length (get arr s)))
  /\ forall arr, length (get arr s1) = length (get arr s).
Proof.
  destruct r as [[[[i x] y] z] w]. unfold store_row, bind. simpl.
  destruct (store AX (p + i) x s) as [[] sx|] eqn:Ex; [|discriminate].
  destruct (store AY (p + i) y sx) as [[] sy|] eqn:Ey; [|discriminate].
  destruct (store AZ (p + i) z sy) as [[] sz|] eqn:Ez; [|discriminate].
  intros Ew.
  apply store_returns in Ex as [Hx Lx]. apply store_returns in Ey as [Hy Ly].
  apply store_returns in Ez as [Hz Lz]. apply store_returns in Ew as [Hw Lw].
  split.
  - intros []; [done| | |].
    + by rewrite <- (Lx AY).
    + by rewrite <- (Lx AZ), <- (Ly AZ).
    + by rewrite <- (Lx AW), <- (Ly AW), <- (Lz AW).
  - intros arr. by rewrite Lw, Lz, Ly, Lx.
Qed.

(** Stores that all succeed stayed inside the arrays. *)
Lemma stores_returns (p : Z) (rows : list (row F)) : forall s s1,
  stores p rows s = Returns tt s1 ->
  forall r, In r rows ->
  forall arr, 0 <= p + row_index r < Z.of_nat (length (get arr s)).
Proof.
  induction rows as [|r0 rows IH]; intros s s1 Hrun r Hin arr; [destruct Hin|].
  cbn [stores] in Hrun. unfold bind in Hrun.
  destruct (store_row p r0 s) as [[] s0|] eqn:E0; [|discriminate].
  apply store_row_returns in E0 as [H0 L0].
  destruct Hin as [<-|Hin]; [apply H0|].
  rewrite <- (L0 arr). by apply (IH s0 s1).
Qed.

Lemma indexed_in pts (i : nat) :
  (i < length pts)%nat ->
  exists r, In r (indexed pts) /\ row_index r = Z.of_nat i.
Proof.
  intros Hi. destruct (lookup_lt_is_Some_2 pts i Hi) as [q Hq].
  exists (Z.of_nat i, px q, py q, pz q, pw q). split; [|done].
  apply list_elem_of_In, (list_elem_of_lookup_2 _ i).
  unfold indexed. by rewrite list_lookup_imap, Hq.
Qed.

Lemma gen_oh_returns_fits (code : Z) (a b v : F) (p r : Z) s s1 :
  valid_code code ->
  gen_oh code a b v p s = Returns r s1 ->
  fits s p (gen_oh_result code).
Proof.
  intros Hc Hrun. rewrite gen_oh_branch in Hrun by done. unfold bind in Hrun.
  destruct (stores p (indexed (orbit code a b v)) s) as [[] s0|] eqn:E;
    [|discriminate].
  pose proof (length_orbit code a b v Hc) as Hlen.
  pose proof (gen_oh_result_pos code) as Hpos.
  destruct (indexed_in (orbit code a b v) 0) as (r0 & Hin0 & Hi0); [lia|].
  destruct (indexed_in (orbit code a b v)
              (Z.to_nat (gen_oh_result code - 1))) as (r1 & Hin1 & Hi1); [lia|].
  pose proof (stores_returns _ _ _ _ E r0 Hin0) as H0.
  pose proof (stores_returns _ _ _ _ E r1 Hin1) as H1.
  split.
  - specialize (H0 AX). lia.
  - intros arr. specialize (H1 arr). lia.
Qed.

Lemma gen_oh_keeps_lengths (code : Z) (a b v : F) (p r : Z) s s1 :
  valid_code code ->
  gen_oh code a b v p s = Returns r s1 ->
  r = gen_oh_result code
  /\ forall arr, length (get arr s1) = length (get arr s).
Proof.
  intros Hc Hrun. pose proof (gen_oh_returns_fits _ _ _ _ _ _ _ _ Hc Hrun) as Hfit.
  rewrite gen_oh_valid in Hrun by done. injection Hrun as <- <-.
  split; [done|]. intros arr. apply get_write_block.
Qed.

(** A well-formed body that runs to its end had room for all its points. *)
Lemma exec_returns_fits (body : list stmt) :
  forall (a b : F) (v : option F) (n : Z) s l1 s1,
  well_formed (is_set v) body = true ->
  0 <= n -> (forall arr, n <= Z.of_nat (length (get arr s))) ->
  exec body (Locals a b v n) s = Returns l1 s1 ->
  fits s n (total body).
Proof.
  induction body as [|st body IH]; intros a b v n s l1 s1 Hwf Hn Hlen Hrun.
  - split; [done|]. intros arr. specialize (Hlen arr). simpl. lia.
  - destruct st as [c|c|c|code]; simpl in Hwf; cbn [total].
    + by apply (IH (lit c) b v n s l1 s1).
    + by apply (IH a (lit c) v n s l1 s1).
    + by apply (IH a b (Some (lit c)) n s l1 s1).
    + destruct v as [v|]; [|done]. simpl in Hwf.
      apply andb_prop in Hwf as [Hwf Hrest].
      apply andb_prop in Hwf as [Hlo Hhi].
      assert (Hc : valid_code code) by (unfold valid_code; lia).
      cbn [exec exec_stmt lv la lb ln] in Hrun. unfold bind at 1 in Hrun.
      unfold bind at 1 in Hrun.
      destruct (gen_oh code a b v n s) as [r s0|] eqn:E; [|discriminate].
      pose proof (gen_oh_returns_fits _ _ _ _ _ _ _ _ Hc E) as [_ Hfit].
      destruct (gen_oh_keeps_lengths _ _ _ _ _ _ _ _ Hc E) as [-> Hkeep].
      pose proof (gen_oh_result_pos code) as Hpos.
      unfold ret at 1 in Hrun.
      destruct (IH a b (Some v) (n + gen_oh_result code) s0 l1 s1)
        as [_ Hrest']; [done|lia| |done|].
      * intros arr. rewrite Hkeep. specialize (Hfit arr). lia.
      * split; [done|]. intros arr. specialize (Hrest' arr).
        rewrite Hkeep in Hrest'. lia.
Qed.

Lemma ld_returns_fits (body : list stmt) (r : Z) s s1 :
  well_formed false body = true ->
  ld body s = Returns r s1 ->
  fits s 0 (total body).
Proof.
  intros Hwf Hrun. unfold ld, bind in Hrun.
  destruct (exec body (Locals (lit 0) (lit 0) None 0) s) as [l1 s0|] eqn:E;
    [|discriminate].
  apply (exec_returns_fits body (lit 0) (lit 0) None 0 s l1 s0); try done.
  intros arr. lia.
Qed.

End Room.

(** X1: [gen_oh] checks no bound.  With a legal code the call runs into
    undefined behaviour exactly when one of the arrays has fewer than
    [p + n] entries (or [p] is negative), [n] being the size of the orbit. *)
Theorem gen_oh_undefined_iff {F : Type} {D : DoubleOps F} (code : Z)
    (a b v : F) (p : Z) (s : state F) :
  valid_code code ->
  gen_oh code a b v p s = Undefined <-> ~ fits s p (gen_oh_result code).
Proof.
  intros Hc. split.
  - intros Hrun Hfit. by rewrite gen_oh_valid in Hrun.
  - intros Hno. destruct (gen_oh code a b v p s) as [r s1|] eqn:E; [|done].
    destruct Hno. by apply (gen_oh_returns_fits code a b v p r s s1).
Qed.

Lemma gen_oh_undefined_iff_witness :
  valid_code 2 /\ gen_oh 2 0%float 0%float 1%float 0 (blank 11) = Undefined.
Proof.
  assert (Hc : valid_code 2) by (unfold valid_code; lia).
  split; [exact Hc|].
  apply (gen_oh_undefined_iff 2 0%float 0%float 1%float 0 (blank 11) Hc).
  intros [_ H]. specialize (H AX). vm_compute in H. exact (H eq_refl).
Defined.

(** X2: a rule routine, called directly or through the dispatcher, needs
    arrays of at least [N] entries: with less it runs into undefined
    behaviour, and only then. *)
Theorem rule_undefined_iff {F : Type} {D : DoubleOps F} (N : Z)
    (body : list stmt) (s : state F) :
  In (N, body) rule_bodies ->
  (ld body s = Undefined <-> ~ fits s 0 N)
  /\ (leb_order_routing N s = Undefined <-> ~ fits s 0 N).
Proof.
  intros Hin. destruct (rule_body_ok N body Hin) as [Hwf Htot].
  rewrite (routing_supported N body Hin).
  assert (H : ld body s = Undefined <-> ~ fits s 0 N); [|done].
  split.
  - intros Hrun Hfit. rewrite <- Htot in Hfit.
    by rewrite ld_well_formed in Hrun.
  - intros Hno. destruct (ld body s) as [r s1|] eqn:E; [|done].
    destruct Hno. rewrite <- Htot. by apply (ld_returns_fits body r s s1).
Qed.

Lemma rule_undefined_iff_witness :
  ld0014 (blank 13) = Undefined
  /\ leb_order_routing 14 (blank 13) = Undefined.
Proof.
  assert (Hin : In (14, ld0014_body) rule_bodies) by (simpl; tauto).
  assert (Hno : ~ fits (blank 13) 0 14).
  { intros [_ H]. specialize (H AX). vm_compute in H. exact (H eq_refl). }
  destruct (rule_undefined_iff 14 ld0014_body (blank 13) Hin) as [H1 H2].
  split; [by apply H1|by apply H2].
Defined.

(** ** What a rule leaves in the arrays *)

Lemma state_eq {F : Type} (s1 s2 : state F) :
  (forall arr, get arr s1 = get arr s2) -> stderr s1 = stderr s2 -> s1 = s2.
Proof.
  intros H He. destruct s1, s2. simpl in He.
  pose proof (H AX). pose proof (H AY). pose proof (H AZ). pose proof (H AW).
  simpl in *. by subst.
Qed.

(** X3: a rule routine with room overwrites the first [N] entries of each
    array with values that depend on the order alone, leaves the entries
    from [N] on and the diagnostic stream as they were, and run once more
    on its own result changes nothing. *)
Theorem rule_frame {F : Type} {D : DoubleOps F} (N : Z) (body : list stmt)
    (s : state F) :
  In (N, body) rule_bodies -> fits s 0 N ->
  exists s' : state F,
    ld body s = Returns N s'
    /\ leb_order_routing N s = Returns N s'
    /\ stderr s' = stderr s
    /\ (forall arr,
          get arr s'
          = map (coord arr) (rule_points body)
            ++ drop (Z.to_nat N) (get arr s))
    /\ ld body s' = Returns N s'.
Proof.
  intros Hin Hfit.
  destruct (rule_run N body s Hin Hfit) as (Hrun & Hlen & _).
  set (pts := rule_points (F := F) body) in *.
  assert (Hfit' : fits s 0 (Z.of_nat (length pts))) by (by rewrite Hlen).
  assert (Hget : forall arr,
             get arr (write_block s 0 pts)
             = map (coord arr) pts ++ drop (Z.to_nat N) (get arr s)).
  { intros arr. rewrite write_block_contents by done. simpl.
    by rewrite <- Hlen, Nat2Z.id. }
  exists (write_block s 0 pts).
  split; [done|]. split; [by rewrite (routing_supported N body Hin)|].
  split; [done|]. split; [done|].
  assert (Hfit2 : fits (write_block s 0 pts) 0 N) by (by apply fits_write_block).
  destruct (rule_run N body _ Hin Hfit2) as (Hrun2 & _ & _).
  fold pts in Hrun2. rewrite Hrun2. f_equal.
  apply state_eq; [|done]. intros arr.
  rewrite write_block_contents
    by (apply fits_write_block; by rewrite Hlen).
  simpl. rewrite Hget.
  rewrite <- Hlen, Nat2Z.id, <- (length_map (coord arr) pts).
  by rewrite drop_app_length.
Qed.

Lemma rule_frame_witness :
  exists s' : state float,
    ld0014 (blank 16) = Returns 14 s'
    /\ drop 14 (ws s') = [0; 0]%float
    /\ ld0014 s' = Returns 14 s'.
Proof.
  assert (Hin : In (14, ld0014_body) rule_bodies) by (simpl; tauto).
  assert (Hfit : fits (blank 16) 0 14) by (apply fits_blank; lia).
  destruct (rule_frame 14 ld0014_body (blank 16) Hin Hfit)
    as (s' & Hrun & _ & _ & Hget & Hagain).
  exists s'. split; [exact Hrun|]. split; [|exact Hagain].
  change (ws s') with (get AW s'). rewrite (Hget AW).
  reflexivity.
Defined.

(** X4: in binary64 every node a rule routine writes is on the unit
    sphere up to rounding: [fabs(x*x + y*y + z*z - 1.0) <= 1e-15] holds
    at every index below [N]; in particular no coordinate is a NaN. *)
Theorem rule_nodes_near_sphere (N : Z) (body : list stmt) (s : state float)
    (i : nat) :
  In (N, body) rule_bodies -> fits s 0 N -> Z.of_nat i < N ->
  exists (s' : state float) (x y z : float),
    ld body s = Returns N s'
    /\ xs s' !! i = Some x /\ ys s' !! i = Some y /\ zs s' !! i = Some z
    /\ (PrimFloat.abs (x * x + y * y + z * z - 1) <=? 1e-15)%float = true.
Proof.
  intros Hin Hfit Hi.
  destruct (rule_run N body s Hin Hfit) as (Hrun & Hlen & Htake).
  set (pts := rule_points (F := float) body) in *.
  destruct (lookup_lt_is_Some_2 pts i) as [q Hq]; [lia|].
  assert (Hget : forall arr,
             get arr (write_block s 0 pts) !! i = Some (coord arr q)).
  { intros arr. rewrite <- (lookup_take_lt _ (Z.to_nat N)) by lia.
    by rewrite Htake, list_lookup_fmap, Hq. }
  exists (write_block s 0 pts), (px q), (py q), (pz q).
  split; [done|]. split; [exact (Hget AX)|]. split; [exact (Hget AY)|].
  split; [exact (Hget AZ)|].
  pose proof rule_points_near_sphere as H.
  rewrite forallb_forall in H. specialize (H _ Hin). simpl in H.
  rewrite forallb_forall in H. apply (H q).
  apply list_elem_of_In. by apply (list_elem_of_lookup_2 _ i).
Qed.

Lemma rule_nodes_near_sphere_witness :
  exists (s' : state float) (x y z : float),
    ld0026 (blank 26) = Returns 26 s'
    /\ xs s' !! 10%nat = Some x /\ ys s' !! 10%nat = Some y
    /\ zs s' !! 10%nat = Some z
    /\ (PrimFloat.abs (x * x + y * y + z * z - 1) <=? 1e-15)%float = true.
Proof.
  apply (rule_nodes_near_sphere 26 ld0026_body (blank 26) 10).
  - simpl. tauto.
  - apply fits_blank; lia.
  - lia.
Defined.

(** ** The arrangement of an orbit *)

Lemma float_to_R_0 : float_to_R 0 = 0%R.
Proof. reflexivity. Qed.

Lemma float_to_R_1 : float_to_R 1 = 1%R.
Proof.
  unfold float_to_R.
  replace (Prim2SF 1) with (S754_finite false 4503599627370496 (-52))
    by (vm_compute; reflexivity).
  simpl. lra.
Qed.

Lemma float_to_R_2 : float_to_R 2 = 2%R.
Proof.
  unfold float_to_R.
  replace (Prim2SF 2) with (S754_finite false 4503599627370496 (-51))
    by (vm_compute; reflexivity).
  simpl. lra.
Qed.

Lemma float_to_R_3 : float_to_R 3 = 3%R.
Proof.
  unfold float_to_R.
  replace (Prim2SF 3) with (S754_finite false 6755399441055744 (-51))
    by (vm_compute; reflexivity).
  simpl. lra.
Qed.

Lemma float_to_R_half : float_to_R 0.5 = (1 / 2)%R.
Proof.
  unfold float_to_R.
  replace (Prim2SF 0.5) with (S754_finite false 4503599627370496 (-53))
    by (vm_compute; reflexivity).
  simpl. lra.
Qed.

(** The orbit of a class as a list of real points. *)
Ltac real_orbit :=
  cbn [orbit Z.eqb Pos.eqb];
  unfold orbit1, orbit2, orbit3, orbit4, orbit5, orbit6, arrangements,
    flips3, flips2, flips1;
  cbn [flat_map app lit fneg fsqrt fsub fmul fdiv ideal];
  rewrite ?float_to_R_0, ?float_to_R_1, ?float_to_R_2, ?float_to_R_3,
    ?float_to_R_half.

Lemma fits_blank_real (k : nat) (p n : Z) :
  0 <= p -> p + n <= Z.of_nat k -> fits (blank_real k) p n.
Proof.
  intros Hp Hn. split; [done|].
  intros []; simpl; rewrite length_replicate; lia.
Qed.

(** *** Symmetry *)

Ltac find_point := repeat first [left; reflexivity | right].

Lemma orbit_symmetric (code : Z) (a b v : R) (q : point R) :
  valid_code code -> In q (orbit code a b v) ->
  In (flip_x q) (orbit code a b v) /\ In (flip_y q) (orbit code a b v)
  /\ In (flip_z q) (orbit code a b v) /\ In (swap_xy q) (orbit code a b v)
  /\ In (swap_yz q) (orbit code a b v).
Proof.
  intros Hc.
  destruct (valid_code_cases code Hc) as [-> | [-> | [-> | [-> | [-> | ->]]]]];
    real_orbit;
    repeat match goal with
           | |- context [sqrt ?e] => generalize (sqrt e); intros ?r
           end;
    intros Hq; cbn [In] in Hq;
    repeat (destruct Hq as [<-|Hq];
            [unfold flip_x, flip_y, flip_z, swap_xy, swap_yz;
             cbn [px py pz pw In];
             rewrite ?Ropp_involutive, ?Ropp_0;
             repeat split; find_point|]);
    destruct Hq.
Qed.



(** ** Distinct nodes *)

Lemma increasing_below (x : PrimInt63.int) (l : list PrimInt63.int) :
  increasing (x :: l) = true ->
  Forall (fun y => Uint63.to_Z x < Uint63.to_Z y) l.
Proof.
  revert x. induction l as [|y l IH]; intros x H; [apply List.Forall_nil|].
  cbn [increasing] in H. apply andb_prop in H as [Hxy Hrest].
  apply Uint63.ltb_spec in Hxy.
  apply List.Forall_cons; [done|].
  eapply Forall_impl; [by apply IH|]. intros z Hz. simpl in Hz. lia.
Qed.

Lemma increasing_distinct (l : list PrimInt63.int) :
  increasing l = true -> List.NoDup l.
Proof.
  induction l as [|x l IH]; intros H; [apply List.NoDup_nil|].
  apply List.NoDup_cons.
  - intros Hin. pose proof (increasing_below x l H) as Hall.
    rewrite Forall_forall in Hall.
    apply list_elem_of_In in Hin. specialize (Hall x Hin). lia.
  - apply IH. destruct l as [|y l]; [done|].
    cbn [increasing] in H. by apply andb_prop in H as [_ H].
Qed.

(** Positions whose sorted keys increase are pairwise different. *)
Lemma keys_distinct (l : list (float * float * float)) :
  increasing (KeySort.sort (map key_of_position l)) = true -> List.NoDup l.
Proof.
  intros H. apply (List.NoDup_map_inv key_of_position).
  apply (Permutation_NoDup (l := KeySort.sort (map key_of_position l))).
  - symmetry. apply KeySort.Permuted_sort.
  - by apply increasing_distinct.
Qed.

Lemma rule_positions_checked :
  forallb (fun r =>
             increasing
               (KeySort.sort
                  (map key_of_position (map position (rule_points (snd r)))))
             && forallb no_negative_zero (rule_points (snd r)))
          rule_bodies = true.
Proof. vm_compute. reflexivity. Qed.

(** X7: in binary64 the [N] nodes a rule routine writes are pairwise
    different points: no two of them have the same three coordinates, and
    no coordinate is a negative zero, so that they differ as numbers too.
    The value a routine returns is the number of different nodes. *)
Theorem rule_nodes_distinct (N : Z) (body : list stmt) (s : state float) :
  In (N, body) rule_bodies -> fits s 0 N ->
  exists s' : state float,
    ld body s = Returns N s'
    /\ Z.of_nat (length (nodes s' 0 N)) = N
    /\ List.NoDup (map position (nodes s' 0 N))
    /\ Forall (fun q => no_negative_zero q = true) (nodes s' 0 N).
Proof.
  intros Hin Hfit.
  destruct (rule_run N body s Hin Hfit) as (Hrun & Hlen & _).
  set (pts := rule_points (F := float) body) in *.
  exists (write_block s 0 pts). split; [done|].
  assert (Hnodes : nodes (write_block s 0 pts) 0 N = pts).
  { rewrite <- Hlen. apply nodes_write_block. by rewrite Hlen. }
  rewrite Hnodes. split; [done|].
  pose proof rule_positions_checked as H.
  rewrite forallb_forall in H. specialize (H _ Hin). cbn [snd] in H.
  apply andb_prop in H as [Hkeys Hzero]. fold pts in Hkeys, Hzero.
  split; [by apply keys_distinct|].
  apply Forall_forall. intros q Hq. apply list_elem_of_In in Hq.
  rewrite forallb_forall in Hzero. by apply Hzero.
Qed.

Lemma rule_nodes_distinct_witness :
  exists s' : state float,
    ld0110 (blank 110) = Returns 110 s'
    /\ Z.of_nat (length (nodes s' 0 110)) = 110
    /\ List.NoDup (map position (nodes s' 0 110))
    /\ Forall (fun q => no_negative_zero q = true) (nodes s' 0 110).
Proof.
  apply (rule_nodes_distinct 110 ld0110_body (blank 110)).
  - simpl. tauto.
  - apply fits_blank; lia.
Defined.

(** ** The dispatcher on arbitrary orders *)

Lemma supported_order_bounds (N : Z) :
  In N supported_orders -> 6 <= N <= 5810.
Proof. rewrite supported_orders_eq. simpl. lia. Qed.

(** X8: with arrays of 5810 entries the dispatcher is safe for every
    value of [order] whatsoever.  For a supported order it returns the
    order and prints nothing; for any other it returns 0, prints its
    message and leaves the arrays alone.  The return value 0 therefore
    tells the caller that the order was not supported. *)
Theorem routing_total {F : Type} {D : DoubleOps F} (order : Z) (s : state F) :
  fits s 0 5810 ->
  exists (r : Z) (s' : state F),
    leb_order_routing order s = Returns r s'
    /\ (In order supported_orders -> r = order /\ stderr s' = stderr s)
    /\ (~ In order supported_orders ->
        r = 0 /\ s' = report s ld_by_order_message)
    /\ (r = 0 <-> ~ In order supported_orders).
Proof.
  intros Hfit. destruct (in_dec Z.eq_dec order supported_orders) as [Hin|Hout].
  - pose proof (supported_order_bounds order Hin) as Hb.
    unfold supported_orders in Hin.
    apply in_map_iff in Hin as ([N body] & E & Hin'). simpl in E. subst N.
    assert (Hfit' : fits s 0 order) by (apply (fits_less s 0 5810); [lia|done]).
    destruct (rule_run order body s Hin' Hfit') as (Hrun & _ & _).
    exists order, (write_block s 0 (rule_points body)).
    rewrite (routing_supported order body Hin').
    assert (Hsup : In order supported_orders).
    { unfold supported_orders. apply in_map_iff. by exists (order, body). }
    split; [done|]. split; [done|]. split; [done|].
    split; [lia|done].
  - exists 0, (report s ld_by_order_message).
    split; [by apply routing_unsupported|]. split; [done|]. split; done.
Qed.

Lemma routing_total_witness :
  exists (r : Z) (s' : state float),
    leb_order_routing 0 (blank (Z.to_nat 5810)) = Returns r s'
    /\ (In 0 supported_orders -> r = 0 /\ stderr s' = stderr (blank (Z.to_nat 5810)))
    /\ (~ In 0 supported_orders ->
        r = 0 /\ s' = report (blank (Z.to_nat 5810)) ld_by_order_message)
    /\ (r = 0 <-> ~ In 0 supported_orders).
Proof.
  apply (routing_total 0 (blank (Z.to_nat 5810))).
  apply fits_blank; lia.
Defined.

(** ** Signs of the weights *)

Lemma forallb_spread (P : float -> bool) (cs : list (nat * float)) :
  forallb (fun c => P (snd c)) cs = true -> forallb P (spread cs) = true.
Proof.
  unfold spread. induction cs as [|[k c] cs IH]; simpl; intros H; [done|].
  apply andb_prop in H as [Hc H]. rewrite forallb_app, IH by done.
  rewrite andb_true_r. clear IH H. induction k as [|k IHk]; simpl; [done|].
  by rewrite Hc, IHk.
Qed.

Lemma weight_signs_of_rules_checked :
  forallb weight_signs_checked rule_bodies = true.
Proof. vm_compute. reflexivity. Qed.

(** X9: the rules of orders 74, 230 and 266 write a negative weight; all
    weights of every other rule are positive (binary64). *)
Theorem rule_weight_signs (N : Z) (body : list stmt) (s : state float) :
  In (N, body) rule_bodies -> fits s 0 N ->
  exists s' : state float,
    ld body s = Returns N s'
    /\ (In N signed_orders ->
        exists (i : nat) (w : float),
          Z.of_nat i < N /\ ws s' !! i = Some w /\ (w <? 0)%float = true)
    /\ (~ In N signed_orders ->
        forall (i : nat) (w : float),
          Z.of_nat i < N -> ws s' !! i = Some w -> (0 <? w)%float = true).
Proof.
  intros Hin Hfit.
  destruct (rule_run N body s Hin Hfit) as (Hrun & Hlen & Htake).
  destruct (rule_body_ok N body Hin) as [Hwf _].
  set (pts := rule_points (F := float) body) in *.
  exists (write_block s 0 pts). split; [done|].
  assert (Hw : take (Z.to_nat N) (ws (write_block s 0 pts))
               = spread (calls body None)).
  { change (ws (write_block s 0 pts)) with (get AW (write_block s 0 pts)).
    rewrite (Htake AW). by apply (pw_points body (lit 0) (lit 0) None). }
  assert (Hlenw : length (spread (calls (F := float) body None)) = Z.to_nat N).
  { rewrite <- (pw_points body (lit 0) (lit 0) None Hwf), length_map.
    fold (rule_points (F := float) body). fold pts. lia. }
  pose proof weight_signs_of_rules_checked as H.
  rewrite forallb_forall in H. specialize (H _ Hin).
  unfold weight_signs_checked in H. cbn [fst snd] in H.
  split.
  - intros Hs.
    assert (E : existsb (Z.eqb N) signed_orders = true).
    { apply existsb_exists. exists N. split; [done|apply Z.eqb_refl]. }
    rewrite E in H. apply existsb_exists in H as (w & Hwin & Hneg).
    apply list_elem_of_In, list_elem_of_lookup_1 in Hwin as [i Hi].
    exists i, w. pose proof (lookup_lt_Some _ _ _ Hi) as Hlt.
    split; [lia|]. split; [|done].
    rewrite <- Hi, <- Hw. symmetry. apply lookup_take_lt. lia.
  - intros Hs i w Hi Hlook.
    assert (E : existsb (Z.eqb N) signed_orders = false).
    { apply not_true_is_false. intros E. apply existsb_exists in E as (k & Hk & Ek).
      apply Z.eqb_eq in Ek. by subst. }
    rewrite E in H. apply forallb_spread in H.
    rewrite forallb_forall in H. apply H.
    apply list_elem_of_In, (list_elem_of_lookup_2 _ i).
    rewrite <- Hw, lookup_take_lt by lia. done.
Qed.

Lemma rule_weight_signs_witness :
  exists s' : state float,
    ld0074 (blank 74) = Returns 74 s'
    /\ exists (i : nat) (w : float),
         Z.of_nat i < 74 /\ ws s' !! i = Some w /\ (w <? 0)%float = true.
Proof.
  assert (Hin : In (74, ld0074_body) rule_bodies) by (simpl; tauto).
  assert (Hfit : fits (blank 74) 0 74) by (apply fits_blank; lia).
  destruct (rule_weight_signs 74 ld0074_body (blank 74) Hin Hfit)
    as (s' & Hrun & Hneg & _).
  exists s'. split; [exact Hrun|]. apply Hneg. simpl. tauto.
Defined.

(** ** Bodies with illegal codes *)

Section Illegal.
Context {F : Type} {D : DoubleOps F}.

Lemma gen_oh_returns (code : Z) (a b v : F) (p r : Z) (s s1 : state F) :
  gen_oh code a b v p s = Returns r s1 ->
  r = gen_oh_result code
  /\ stderr s1
     = stderr s ++ (if (1 <=? code) && (code <=? 6) then []
                    else [gen_oh_message]).
Proof.
  intros Hrun. destruct ((1 <=? code) && (code <=? 6)) eqn:E.
  - apply andb_prop in E as [Hlo Hhi].
    assert (Hc : valid_code code) by (unfold valid_code; lia).
    pose proof (gen_oh_returns_fits _ _ _ _ _ _ _ _ Hc Hrun) as Hfit.
    rewrite gen_oh_valid in Hrun by done. injection Hrun as <- <-.
    split; [done|]. simpl. by rewrite app_nil_r.
  - assert (Hc : ~ valid_code code).
    { unfold valid_code. intros [Hlo Hhi].
      apply Z.leb_le in Hlo, Hhi. by rewrite Hlo, Hhi in E. }
    rewrite gen_oh_illegal in Hrun by done. injection Hrun as <- <-.
    split; [|done]. unfold gen_oh_result.
    repeat match goal with
           | |- context [?c =? ?k] =>
               destruct (Z.eqb_spec c k); [unfold valid_code in Hc; lia|]
           end.
    done.
Qed.

Lemma exec_returns (body : list stmt) :
  forall (l l1 : locals F) (s s1 : state F),
  exec body l s = Returns l1 s1 ->
  ln l1 = ln l + total body
  /\ stderr s1 = stderr s ++ replicate (illegal_calls body) gen_oh_message.
Proof.
  induction body as [|st body IH]; intros l l1 s s1 Hrun.
  - injection Hrun as <- <-. simpl. split; [lia|by rewrite app_nil_r].
  - cbn [exec] in Hrun. unfold bind at 1 in Hrun.
    destruct st as [c|c|c|code]; cbn [exec_stmt total illegal_calls] in *.
    + apply IH in Hrun as [Hn He]. done.
    + apply IH in Hrun as [Hn He]. done.
    + apply IH in Hrun as [Hn He]. done.
    + destruct (lv l) as [v|]; [|discriminate].
      unfold bind at 1 in Hrun.
      destruct (gen_oh code (la l) (lb l) v (ln l) s) as [r s0|] eqn:E;
        [|discriminate].
      unfold ret at 1 in Hrun.
      apply gen_oh_returns in E as [-> He0].
      apply IH in Hrun as [Hn He]. cbn [ln] in Hn.
      split; [lia|]. rewrite He, He0, <- app_assoc. f_equal.
      by destruct ((1 <=? code) && (code <=? 6)).
Qed.

End Illegal.

(** X11: whatever the codes of its calls, a routine body that returns
    returns the sum of what its calls returned, each illegal code
    counting as one point, and has printed the [gen_oh] message once for
    each illegal code. *)
Theorem ld_counts_illegal_calls {F : Type} {D : DoubleOps F}
    (body : list stmt) (r : Z) (s s1 : state F) :
  ld body s = Returns r s1 ->
  r = total body
  /\ stderr s1 = stderr s ++ replicate (illegal_calls body) gen_oh_message.
Proof.
  unfold ld, bind. intros Hrun.
  destruct (exec body (Locals (lit 0) (lit 0) None 0) s) as [l1 s0|] eqn:E;
    [|discriminate].
  injection Hrun as <- <-. apply exec_returns in E as [Hn He].
  split; [simpl in Hn; lia|done].
Qed.

Lemma ld_counts_illegal_calls_witness :
  exists s1 : state float,
    ld [Set_v 1; Call_gen_oh 9; Call_gen_oh 3; Call_gen_oh 0] (blank 9)
    = Returns 10 s1
    /\ stderr s1 = [gen_oh_message; gen_oh_message].
Proof.
  destruct (ld [Set_v 1; Call_gen_oh 9; Call_gen_oh 3; Call_gen_oh 0] (blank 9))
    as [r s1|] eqn:E; [|vm_compute in E; discriminate E].
  destruct (ld_counts_illegal_calls _ r (blank 9) s1 E) as [-> He].
  exists s1. split; [reflexivity|exact He].
Defined.

(** ** Symmetry and moments of a rule *)

Lemma points_symmetric (body : list stmt) :
  forall (a b : R) (v : option R) (q : point R),
  well_formed (is_set v) body = true ->
  In q (points body a b v) ->
  In (flip_x q) (points body a b v) /\ In (flip_y q) (points body a b v)
  /\ In (flip_z q) (points body a b v) /\ In (swap_xy q) (points body a b v)
  /\ In (swap_yz q) (points body a b v).
Proof.
  induction body as [|[c|c|c|code] body IH]; intros a b v q Hwf Hq;
    cbn [points well_formed] in *.
  - destruct Hq.
  - by apply IH.
  - by apply IH.
  - by apply IH.
  - destruct v as [v|]; [|done]. simpl in Hwf.
    apply andb_prop in Hwf as [Hwf Hrest].
    apply andb_prop in Hwf as [Hlo Hhi].
    apply in_app_or in Hq as [Hq|Hq].
    + apply orbit_symmetric in Hq as (H1 & H2 & H3 & H4 & H5);
        [|unfold valid_code; lia].
      repeat split; apply in_or_app; by left.
    + apply IH in Hq as (H1 & H2 & H3 & H4 & H5); [|done].
      repeat split; apply in_or_app; by right.
Qed.

(** X12: the node set of every rule is invariant under the octahedral
    group: with a node [(x, y, z)] of weight [w] the rule also writes
    the nodes with one coordinate negated and with two axes exchanged,
    with the same weight (real arithmetic). *)
Theorem rule_symmetric (N : Z) (body : list stmt) (s : state R) :
  In (N, body) rule_bodies -> fits s 0 N ->
  exists pts : list (point R),
    ld body s = Returns N (write_block s 0 pts)
    /\ Z.of_nat (length pts) = N
    /\ forall q, In q pts ->
         In (flip_x q) pts /\ In (flip_y q) pts /\ In (flip_z q) pts
         /\ In (swap_xy q) pts /\ In (swap_yz q) pts.
Proof.
  intros Hin Hfit.
  destruct (rule_run N body s Hin Hfit) as (Hrun & Hlen & _).
  destruct (rule_body_ok N body Hin) as [Hwf _].
  exists (rule_points body). split; [done|]. split; [done|].
  intros q Hq. by apply (points_symmetric body (lit 0) (lit 0) None).
Qed.

Lemma rule_symmetric_witness :
  exists pts : list (point R),
    ld0050 (blank_real 50) = Returns 50 (write_block (blank_real 50) 0 pts)
    /\ Z.of_nat (length pts) = 50
    /\ forall q, In q pts ->
         In (flip_x q) pts /\ In (flip_y q) pts /\ In (flip_z q) pts
         /\ In (swap_xy q) pts /\ In (swap_yz q) pts.
Proof.
  apply (rule_symmetric 50 ld0050_body (blank_real 50)).
  - simpl. tauto.
  - apply fits_blank_real; lia.
Defined.

(** ** Moments of a rule *)

Lemma rule_moments_checked :
  forallb (fun r => moments_checked (rule_points (snd r))) rule_bodies = true.
Proof. vm_compute. reflexivity. Qed.

(** X13: in binary64 every rule integrates the polynomials of degree one
    and two as the sphere does, up to [1e-13]: the running sums of
    [w*x], [w*y], [w*z], [w*x*y], [w*y*z], [w*x*z] over the [N] nodes
    written are within [1e-13] of 0, and those of [w*x*x], [w*y*y],
    [w*z*z] within [1e-13] of [1.0/3.0]. *)
Theorem rule_moments (N : Z) (body : list stmt) (s : state float) :
  In (N, body) rule_bodies -> fits s 0 N ->
  exists s' : state float,
    ld body s = Returns N s'
    /\ Z.of_nat (length (nodes s' 0 N)) = N
    /\ let pts := nodes s' 0 N in
       small (fquad px pts) = true
       /\ small (fquad py pts) = true
       /\ small (fquad pz pts) = true
       /\ small (fquad (fun q => px q * py q)%float pts) = true
       /\ small (fquad (fun q => py q * pz q)%float pts) = true
       /\ small (fquad (fun q => px q * pz q)%float pts) = true
       /\ small (fquad (fun q => px q * px q)%float pts - 1 / 3)%float = true
       /\ small (fquad (fun q => py q * py q)%float pts - 1 / 3)%float = true
       /\ small (fquad (fun q => pz q * pz q)%float pts - 1 / 3)%float = true.
Proof.
  intros Hin Hfit.
  destruct (rule_run N body s Hin Hfit) as (Hrun & Hlen & _).
  set (pts := rule_points (F := float) body) in *.
  exists (write_block s 0 pts). split; [done|].
  assert (Hnodes : nodes (write_block s 0 pts) 0 N = pts).
  { rewrite <- Hlen. apply nodes_write_block. by rewrite Hlen. }
  rewrite Hnodes. split; [done|]. cbv zeta.
  pose proof rule_moments_checked as H.
  rewrite forallb_forall in H. specialize (H _ Hin). cbn [snd] in H.
  fold pts in H. unfold moments_checked in H.
  repeat (apply andb_prop in H as [H ?]).
  repeat split; done.
Qed.

Lemma rule_moments_witness :
  exists s' : state float,
    ld0014 (blank 14) = Returns 14 s'
    /\ small (fquad (fun q => px q * px q)%float (nodes s' 0 14) - 1 / 3)%float
       = true.
Proof.
  assert (Hin : In (14, ld0014_body) rule_bodies) by (simpl; tauto).
  assert (Hfit : fits (blank 14) 0 14) by (apply fits_blank; lia).
  destruct (rule_moments 14 ld0014_body (blank 14) Hin Hfit)
    as (s' & Hrun & _ & H).
  exists s'. split; [exact Hrun|]. apply H.
Defined.
